(** * Loop Over Rows: the row and keyword pipelines of the two Modal services

    The development follows [modal_apps/loop_over_rows_fastapi_app.py] (the
    engine: row mode and score mode) and
    [modal_apps/loop_over_rows_frontand_unified.py] (the front service: its
    own copy of the score pipeline, row mode forwarded over HTTP).

    Python values are embedded as follows.
    - A [str] is a sequence of Unicode code points, [list N]; the literals
      have the code points of the source files, where an umlaut is a vowel
      followed by the combining diaeresis.
    - A JSON value is the tree [json]; a [dict] is an association list in
      insertion order whose keys are unique.
    - An [int] is a [Z]; a [float] is a dyadic number, an infinity or NaN.
    - A function that may raise returns [result]; a function that calls the
      model threads the state of the outside world.  The tasks of one
      [asyncio.gather] make their calls in the order of the list; module
      [EventLoop] leaves that order to a schedule.
    - What the services import ([json], the model client, [pydantic],
      [requests]) is a variable of the section that uses it; [Json.loads] and
      [Json.dumps] are executable models of the two [json] functions. *)

From Stdlib Require Import ZArith NArith Lia List Bool String Ascii Decimal DecimalN.
From stdpp Require Import base tactics option numbers list.

Local Open Scope N_scope.

(** A Python [str]. *)
Abbreviation pystr := (list N).

(** An ASCII literal as a [str]. *)
Fixpoint str (s : string) : pystr :=
  match s with
  | EmptyString => []
  | String a s' => N_of_ascii a :: str s'
  end.

(** ** The [str] methods the services call *)
Module PyStr.

(** [s.startswith(p)] *)
Fixpoint startswith (p s : pystr) : bool :=
  match p, s with
  | [], _ => true
  | _ :: _, [] => false
  | a :: p', b :: s' => (a =? b) && startswith p' s'
  end.

(** The leftmost occurrence of [sep] in [s]: the text before it and the text
    after it ([s.partition(sep)] without the middle component). *)
Fixpoint cut (sep s : pystr) : option (pystr * pystr) :=
  if startswith sep s then Some ([], drop (length sep) s)
  else match s with
       | [] => None
       | c :: s' =>
           match cut sep s' with
           | Some (a, b) => Some (c :: a, b)
           | None => None
           end
       end.

(** [sep in s] *)
Definition contains (sep s : pystr) : bool :=
  match cut sep s with Some _ => true | None => false end.

(** [s.split(sep)] for a non-empty [sep]: occurrences are taken from the left
    and do not overlap.  Each round removes at least one code point, so
    [length s] rounds are enough. *)
Fixpoint split_rounds (n : nat) (sep s : pystr) : list pystr :=
  match n with
  | O => [s]
  | S n' =>
      match cut sep s with
      | None => [s]
      | Some (a, b) => a :: split_rounds n' sep b
      end
  end.

Definition split (sep s : pystr) : list pystr := split_rounds (length s) sep s.

(** [s.replace(old, new)] for a non-empty [old]. *)
Fixpoint replace_rounds (n : nat) (old new s : pystr) : pystr :=
  match n with
  | O => s
  | S n' =>
      match cut old s with
      | None => s
      | Some (a, b) => a ++ new ++ replace_rounds n' old new b
      end
  end.

Definition replace (old new s : pystr) : pystr :=
  replace_rounds (length s) old new s.

(** [c.isspace()]: the ASCII table of CPython and the Unicode white space
    property above it. *)
Definition isspace (c : N) : bool :=
  ((9 <=? c) && (c <=? 13)) || ((28 <=? c) && (c <=? 32))
  || (c =? 133) || (c =? 160) || (c =? 5760)
  || ((8192 <=? c) && (c <=? 8202))
  || (c =? 8232) || (c =? 8233) || (c =? 8239) || (c =? 8287) || (c =? 12288).

Fixpoint lstrip (s : pystr) : pystr :=
  match s with
  | c :: s' => if isspace c then lstrip s' else s
  | [] => []
  end.

Definition rstrip (s : pystr) : pystr := rev (lstrip (rev s)).

(** [s.strip()] *)
Definition strip (s : pystr) : pystr := rstrip (lstrip s).

End PyStr.

(** ** Exceptions and results *)

Inductive exn_class :=
  | ValueError | TypeError | AttributeError | IndexError | KeyError
  | OverflowError | JSONDecodeError | ValidationError | HTTPException
  | UpstreamFailure.

(** A raised exception: its class and [str(e)]. *)
Record exn := Exn { exn_class_of : exn_class; exn_message : pystr }.

Inductive result (A : Type) :=
  | Ok (a : A)
  | Raise (e : exn).
Arguments Ok {A} a.
Arguments Raise {A} e.

Definition result_bind {A B} (f : A -> result B) (r : result A) : result B :=
  match r with
  | Ok a => f a
  | Raise e => Raise e
  end.

#[global] Instance result_ret : MRet result := fun A a => Ok a.
#[global] Instance result_mbind : MBind result := fun A B f r => result_bind f r.

(** [try: ... except Exception: return None] around a computation. *)
Definition except_none {A} (r : result A) : option A :=
  match r with
  | Ok a => Some a
  | Raise _ => None
  end.

(** ** Numbers *)

(** A [float]: the dyadic number [m * 2^e], an infinity, or NaN.  Every
    binary64 value is one of these. *)
Inductive pyfloat :=
  | FFinite (m e : Z)
  | FInf (negative : bool)
  | FNaN.

(** What [isinstance(x, (int, float))] accepts; [bool] is a subclass of
    [int]. *)
Inductive pynum :=
  | PInt (z : Z)
  | PBool (b : bool)
  | PFloat (f : pyfloat).

(** Exact comparison of a float with an integer; NaN is unordered. *)
Definition float_compare_int (f : pyfloat) (z : Z) : option comparison :=
  match f with
  | FFinite m e =>
      Some (if (0 <=? e)%Z then (m * 2 ^ e ?= z)%Z else (m ?= z * 2 ^ (- e))%Z)
  | FInf true => Some Lt
  | FInf false => Some Gt
  | FNaN => None
  end.

Definition num_compare_int (x : pynum) (z : Z) : option comparison :=
  match x with
  | PInt a => Some (a ?= z)%Z
  | PBool b => Some (Z.b2z b ?= z)%Z
  | PFloat f => float_compare_int f z
  end.

(** [x < z], [x > z], [x >= z] for an integer [z]. *)
Definition num_lt_int (x : pynum) (z : Z) : bool :=
  match num_compare_int x z with Some Lt => true | _ => false end.
Definition num_gt_int (x : pynum) (z : Z) : bool :=
  match num_compare_int x z with Some Gt => true | _ => false end.
Definition num_ge_int (x : pynum) (z : Z) : bool :=
  match num_compare_int x z with Some Gt | Some Eq => true | _ => false end.

(** [min(z, x)] and [max(z, x)]: the first argument is kept unless the
    second is strictly smaller (larger). *)
Definition min_int_num (z : Z) (x : pynum) : pynum :=
  if num_lt_int x z then x else PInt z.
Definition max_int_num (z : Z) (x : pynum) : pynum :=
  if num_gt_int x z then x else PInt z.

(** [int(x)]: floats are truncated towards zero; an infinity or NaN raises. *)
Definition py_int (x : pynum) : result Z :=
  match x with
  | PInt z => Ok z
  | PBool b => Ok (Z.b2z b)
  | PFloat (FFinite m e) =>
      Ok (if (0 <=? e)%Z then m * 2 ^ e else m ÷ 2 ^ (- e))%Z
  | PFloat (FInf _) =>
      Raise (Exn OverflowError (str "cannot convert float infinity to integer"))
  | PFloat FNaN =>
      Raise (Exn ValueError (str "cannot convert float NaN to integer"))
  end.

(** ** JSON values *)

#[local] Unset Elimination Schemes.
Inductive json :=
  | JNull
  | JBool (b : bool)
  | JInt (z : Z)
  | JFloat (f : pyfloat)
  | JStr (s : pystr)
  | JArr (items : list json)
  | JObj (members : list (pystr * json)).
#[local] Set Elimination Schemes.

(** A [dict] with [str] keys, in insertion order. *)
Abbreviation pydict := (list (pystr * json)).

#[global] Instance pystr_eq_dec : EqDecision pystr := _.

Module Dict.

(** [d.get(k)], [None] when the key is absent. *)
Fixpoint get (k : pystr) (d : pydict) : option json :=
  match d with
  | [] => None
  | (k', v) :: d' => if decide (k' = k) then Some v else get k d'
  end.

(** [d.get(k, default)] *)
Definition get_default (k : pystr) (default : json) (d : pydict) : json :=
  match get k d with
  | Some v => v
  | None => default
  end.

(** [d[k] = v]: an existing key keeps its place, a new key goes last. *)
Fixpoint set (k : pystr) (v : json) (d : pydict) : pydict :=
  match d with
  | [] => [(k, v)]
  | (k', v') :: d' =>
      if decide (k' = k) then (k, v) :: d' else (k', v') :: set k v d'
  end.

(** [d.update(e)], also the effect of [**e] in a dict display. *)
Definition update (d e : pydict) : pydict :=
  fold_left (fun acc kv => set kv.1 kv.2 acc) e d.

(** [dict(pairs)] *)
Definition of_pairs (pairs : list (pystr * json)) : pydict := update [] pairs.

Definition keys (d : pydict) : list pystr := d.*1.

End Dict.

(** [isinstance(v, (int, float))] with the number it then is. *)
Definition as_number (v : json) : option pynum :=
  match v with
  | JInt z => Some (PInt z)
  | JBool b => Some (PBool b)
  | JFloat f => Some (PFloat f)
  | _ => None
  end.

(** [type(v).__name__] *)
Definition type_name (v : json) : pystr :=
  match v with
  | JNull => str "NoneType"
  | JBool _ => str "bool"
  | JInt _ => str "int"
  | JFloat _ => str "float"
  | JStr _ => str "str"
  | JArr _ => str "list"
  | JObj _ => str "dict"
  end.

(** [v >= z] for an integer literal [z]: a number is compared, anything else
    raises [TypeError]. *)
Definition py_ge_int (v : json) (z : Z) : result bool :=
  match as_number v with
  | Some x => Ok (num_ge_int x z)
  | None =>
      Raise (Exn TypeError
               (str "'>=' not supported between instances of '" ++ type_name v
                ++ str "' and 'int'"))
  end.

(** Truth value of an optional dict, as in [if o] and [o and ...]: [None] and
    the empty dict are false. *)
Definition truthy (o : option pydict) : bool :=
  match o with
  | Some (_ :: _) => true
  | _ => false
  end.

(** ** The [json] module: [dumps] and [loads]

    [dumps] follows the encoder with its defaults ([ensure_ascii], the
    separators [", "] and [": "], [allow_nan]); [loads] follows the scanner
    of the decoder ([strict] strings, the number grammar, the three constants
    [NaN], [Infinity], [-Infinity]).  The two conversions between a finite
    float and its literal ([float.__repr__] and [float(...)]) are variables. *)
Module Json.

(** *** Characters *)

Definition is_digit (c : N) : bool := (48 <=? c) && (c <=? 57).

(** The white space the decoder skips: space, tab, line feed, carriage
    return. *)
Definition is_ws (c : N) : bool :=
  (c =? 32) || (c =? 9) || (c =? 10) || (c =? 13).

Definition hex_digit (d : N) : N := if d <? 10 then 48 + d else 87 + d.

(** [format(n, "04x")] for [n < 65536]. *)
Definition hex4 (n : N) : pystr :=
  [hex_digit (n / 4096 mod 16); hex_digit (n / 256 mod 16);
   hex_digit (n / 16 mod 16); hex_digit (n mod 16)].

Definition hex_value (c : N) : option N :=
  if (48 <=? c) && (c <=? 57) then Some (c - 48)
  else if (97 <=? c) && (c <=? 102) then Some (c - 87)
  else if (65 <=? c) && (c <=? 70) then Some (c - 55)
  else None.

(** *** Integers in decimal *)

Fixpoint uint_chars (u : uint) : pystr :=
  match u with
  | Nil => []
  | D0 u' => 48 :: uint_chars u'
  | D1 u' => 49 :: uint_chars u'
  | D2 u' => 50 :: uint_chars u'
  | D3 u' => 51 :: uint_chars u'
  | D4 u' => 52 :: uint_chars u'
  | D5 u' => 53 :: uint_chars u'
  | D6 u' => 54 :: uint_chars u'
  | D7 u' => 55 :: uint_chars u'
  | D8 u' => 56 :: uint_chars u'
  | D9 u' => 57 :: uint_chars u'
  end.

(** [repr] of an [int]. *)
Definition int_repr (z : Z) : pystr :=
  match z with
  | Zneg p => 45 :: uint_chars (N.to_uint (Npos p))
  | _ => uint_chars (N.to_uint (Z.to_N z))
  end.

Definition digit_cons (c : N) (u : uint) : uint :=
  match c - 48 with
  | 0 => D0 u | 1 => D1 u | 2 => D2 u | 3 => D3 u | 4 => D4 u
  | 5 => D5 u | 6 => D6 u | 7 => D7 u | 8 => D8 u | _ => D9 u
  end.

(** The longest run of digits at the head of [s], and what follows it. *)
Fixpoint read_digits (s : pystr) : uint * pystr :=
  match s with
  | c :: s' =>
      if is_digit c then let '(u, r) := read_digits s' in (digit_cons c u, r)
      else (Nil, s)
  | [] => (Nil, [])
  end.

(** *** Encoding *)

(** One code point inside a string literal ([ensure_ascii=True]). *)
Definition escape_char (c : N) : pystr :=
  if c =? 34 then [92; 34]
  else if c =? 92 then [92; 92]
  else if c =? 10 then [92; 110]
  else if c =? 13 then [92; 114]
  else if c =? 9 then [92; 116]
  else if c =? 12 then [92; 102]
  else if c =? 8 then [92; 98]
  else if (32 <=? c) && (c <=? 126) then [c]
  else if c <? 65536 then 92 :: 117 :: hex4 c
  else
    let v := c - 65536 in
    92 :: 117 :: hex4 (N.lor 55296 (N.land (N.shiftr v 10) 1023))
    ++ 92 :: 117 :: hex4 (N.lor 56320 (N.land v 1023)).

Definition quote (s : pystr) : pystr :=
  34 :: concat (map escape_char s) ++ [34].

(** The default separators: a comma and a space, a colon and a space. *)
Definition item_separator : pystr := [44; 32].
Definition key_separator : pystr := [58; 32].

(** What follows the first element of an array, up to the closing bracket;
    [value] prints one element. *)
Definition items_tail (value : json -> pystr) (l : list json) : pystr :=
  fold_right (fun y acc => item_separator ++ value y ++ acc) [93] l.

Definition member (value : json -> pystr) (kv : pystr * json) : pystr :=
  quote kv.1 ++ key_separator ++ value kv.2.

(** What follows the first member of an object, up to the closing brace. *)
Definition members_tail (value : json -> pystr) (l : pydict) : pystr :=
  fold_right (fun kv acc => item_separator ++ member value kv ++ acc) [125] l.

Section Encoder.
Variable float_repr : pyfloat -> pystr.

Definition float_text (f : pyfloat) : pystr :=
  match f with
  | FNaN => str "NaN"
  | FInf false => str "Infinity"
  | FInf true => str "-Infinity"
  | FFinite _ _ => float_repr f
  end.

Fixpoint dumps (v : json) : pystr :=
  match v with
  | JNull => str "null"
  | JBool true => str "true"
  | JBool false => str "false"
  | JInt z => int_repr z
  | JFloat f => float_text f
  | JStr s => quote s
  | JArr [] => str "[]"
  | JArr (x :: xs) => 91 :: dumps x ++ items_tail dumps xs
  | JObj [] => str "{}"
  | JObj (kv :: kvs) => 123 :: member dumps kv ++ members_tail dumps kvs
  end.

End Encoder.

(** *** Decoding *)

Fixpoint skip_ws (s : pystr) : pystr :=
  match s with
  | c :: s' => if is_ws c then skip_ws s' else s
  | [] => []
  end.

Definition scan_hex4 (s : pystr) : option (N * pystr) :=
  match s with
  | a :: b :: c :: d :: r =>
      x1 ← hex_value a; x2 ← hex_value b; x3 ← hex_value c; x4 ← hex_value d;
      Some (((x1 * 16 + x2) * 16 + x3) * 16 + x4, r)
  | _ => None
  end.

(** The character after a backslash, other than [u]. *)
Definition unescape (e : N) : option N :=
  if e =? 34 then Some 34
  else if e =? 92 then Some 92
  else if e =? 47 then Some 47
  else if e =? 98 then Some 8
  else if e =? 102 then Some 12
  else if e =? 110 then Some 10
  else if e =? 114 then Some 13
  else if e =? 116 then Some 9
  else None.

Definition is_high_surrogate (u : N) : bool := (55296 <=? u) && (u <=? 56319).
Definition is_low_surrogate (u : N) : bool := (56320 <=? u) && (u <=? 57343).

(** After [\uXXXX] with value [u], at [r]: a high surrogate followed by an
    escaped low surrogate is joined with it; a following [\u] that is not
    four hex digits is an error. *)
Definition join_surrogates (u : N) (r : pystr) : option (N * pystr) :=
  if is_high_surrogate u then
    match r with
    | a :: b :: r' =>
        if (a =? 92) && (b =? 117) then
          match scan_hex4 r' with
          | Some (u2, r'') =>
              if is_low_surrogate u2
              then Some (65536 + N.lor (N.shiftl (u - 55296) 10) (u2 - 56320), r'')
              else Some (u, r)
          | None => None
          end
        else Some (u, r)
    | _ => Some (u, r)
    end
  else Some (u, r).

(** The body of a string literal, after the opening quote; every round takes
    at least one code point. *)
Fixpoint scanstring (n : nat) (s : pystr) : option (pystr * pystr) :=
  match n with
  | O => None
  | S n' =>
      match s with
      | [] => None
      | c :: r =>
          if c =? 34 then Some ([], r)
          else if c =? 92 then
            match r with
            | [] => None
            | e :: r' =>
                if e =? 117 then
                  '(u, r1) ← scan_hex4 r';
                  '(x, r2) ← join_surrogates u r1;
                  '(t, r3) ← scanstring n' r2;
                  Some (x :: t, r3)
                else
                  x ← unescape e;
                  '(t, r3) ← scanstring n' r';
                  Some (x :: t, r3)
            end
          else if c <? 32 then None
          else '(t, r3) ← scanstring n' r; Some (c :: t, r3)
      end
  end.

(** Whether [s] starts with a digit. *)
Definition at_digit (s : pystr) : bool :=
  match s with
  | c :: _ => is_digit c
  | [] => false
  end.

(** A fraction at the head of [s]: a dot and at least one digit. *)
Definition skip_fraction (s : pystr) : pystr :=
  match s with
  | c :: t => if (c =? 46) && at_digit t then (read_digits t).2 else s
  | [] => s
  end.

(** An exponent at the head of [s]: [e] or [E], an optional sign, at least
    one digit. *)
Definition skip_exponent (s : pystr) : pystr :=
  match s with
  | c :: t =>
      if (c =? 101) || (c =? 69) then
        if at_digit t then (read_digits t).2
        else
          match t with
          | g :: t' =>
              if ((g =? 43) || (g =? 45)) && at_digit t' then (read_digits t').2 else s
          | [] => s
          end
      else s
  | [] => s
  end.

Section Decoder.
Variable py_float : pystr -> pyfloat.

(** A number: an optional minus sign; a zero, or a non-zero digit and more
    digits; an optional fraction; an optional exponent.  Without fraction and
    exponent the literal is an [int], otherwise it is [float(literal)]. *)
Definition scan_number (s : pystr) : option (json * pystr) :=
  let '(negative, s1) :=
    match s with
    | c :: r => if c =? 45 then (true, r) else (false, s)
    | [] => (false, s)
    end in
  match s1 with
  | [] => None
  | d :: r1 =>
      if is_digit d then
        let '(u, r2) := if d =? 48 then (D0 Nil, r1) else read_digits s1 in
        let r4 := skip_exponent (skip_fraction r2) in
        if (length r4 =? length r2)%nat
        then
          let n := Z.of_N (N.of_uint u) in
          Some (JInt (if negative then - n else n)%Z, r2)
        else Some (JFloat (py_float (take (length s - length r4) s)), r4)
      else None
  end.

(** The elements of an array after the opening bracket and white space, up
    to and including the closing bracket; [value] reads one element. *)
Fixpoint scan_items (value : pystr -> option (json * pystr)) (n : nat) (s : pystr)
  : option (list json * pystr) :=
  match n with
  | O => None
  | S n' =>
      '(v, r) ← value s;
      match skip_ws r with
      | c :: r' =>
          if c =? 93 then Some ([v], r')
          else if c =? 44 then
            '(vs, r'') ← scan_items value n' (skip_ws r'); Some (v :: vs, r'')
          else None
      | [] => None
      end
  end.

(** The members of an object after the opening brace and white space, up to
    and including the closing brace. *)
Fixpoint scan_members (value : pystr -> option (json * pystr)) (n : nat) (s : pystr)
  : option (list (pystr * json) * pystr) :=
  match n with
  | O => None
  | S n' =>
      match s with
      | q :: s1 =>
          if q =? 34 then
            '(k, r) ← scanstring (length s1) s1;
            match skip_ws r with
            | c :: r1 =>
                if c =? 58 then
                  '(v, r2) ← value (skip_ws r1);
                  match skip_ws r2 with
                  | c' :: r' =>
                      if c' =? 125 then Some ([(k, v)], r')
                      else if c' =? 44 then
                        '(kvs, r'') ← scan_members value n' (skip_ws r');
                        Some ((k, v) :: kvs, r'')
                      else None
                  | [] => None
                  end
                else None
            | [] => None
            end
          else None
      | [] => None
      end
  end.

(** One value at the head of [s]; [n] bounds the nesting depth. *)
Fixpoint scan_once (n : nat) (s : pystr) : option (json * pystr) :=
  match n with
  | O => None
  | S n' =>
      match s with
      | [] => None
      | c :: r =>
          if c =? 34 then '(t, r') ← scanstring (length r) r; Some (JStr t, r')
          else if c =? 123 then
            match skip_ws r with
            | c' :: r' =>
                if c' =? 125 then Some (JObj [], r')
                else
                  '(kvs, r'') ← scan_members (scan_once n') (S (length r')) (c' :: r');
                  Some (JObj (Dict.of_pairs kvs), r'')
            | [] => None
            end
          else if c =? 91 then
            match skip_ws r with
            | c' :: r' =>
                if c' =? 93 then Some (JArr [], r')
                else
                  '(vs, r'') ← scan_items (scan_once n') (S (length r')) (c' :: r');
                  Some (JArr vs, r'')
            | [] => None
            end
          else if PyStr.startswith (str "null") s then Some (JNull, drop 4 s)
          else if PyStr.startswith (str "true") s then Some (JBool true, drop 4 s)
          else if PyStr.startswith (str "false") s then Some (JBool false, drop 5 s)
          else if PyStr.startswith (str "NaN") s then Some (JFloat FNaN, drop 3 s)
          else if PyStr.startswith (str "Infinity") s then Some (JFloat (FInf false), drop 8 s)
          else if PyStr.startswith (str "-Infinity") s then Some (JFloat (FInf true), drop 9 s)
          else scan_number s
      end
  end.

(** [json.loads(s)]: one value between optional white space, nothing after
    it.  A nesting level opens with a bracket, so the depth is at most
    [length s].  Integers are read at any length: the bound that the
    interpreter puts on the digits of an integer literal, 4300 unless it is
    configured otherwise, is not part of the model. *)
Definition loads (s : pystr) : option json :=
  '(v, r) ← scan_once (length s) (skip_ws s);
  match skip_ws r with
  | [] => Some v
  | _ => None
  end.

End Decoder.

End Json.

(** ** Ranges, slices and truth values *)

(** [list(range(start, stop, step))]; a zero step raises [ValueError]. *)
Definition py_range (start stop step : Z) : result (list Z) :=
  if (step =? 0)%Z
  then Raise (Exn ValueError (str "range() arg 3 must not be zero"))
  else
    let len :=
      (if 0 <? step then (stop - start + step - 1) / step
       else (start - stop - step - 1) / (- step))%Z in
    Ok (map (fun i => start + Z.of_nat i * step) (seq 0 (Z.to_nat len)))%Z.

(** A slice bound brought into [0 .. len]. *)
Definition slice_index (len i : Z) : Z :=
  if (i <? 0)%Z then Z.max 0 (i + len) else Z.min i len.

(** [l[lo:hi]] *)
Definition py_slice {A} (l : list A) (lo hi : Z) : list A :=
  let n := Z.of_nat (length l) in
  let a := slice_index n lo in
  let b := slice_index n hi in
  take (Z.to_nat (b - a)) (drop (Z.to_nat a) l).

(** [bool(v)] *)
Definition py_bool (v : json) : bool :=
  match v with
  | JNull => false
  | JBool b => b
  | JInt z => negb (z =? 0)%Z
  | JFloat (FFinite m _) => negb (m =? 0)%Z
  | JFloat _ => true
  | JStr s => negb (bool_decide (s = []))
  | JArr l => match l with [] => false | _ => true end
  | JObj d => match d with [] => false | _ => true end
  end.

(** ** The request models (the same two classes in both services) *)

Module FreestyleRequest.
Record t := Make {
  data : list (pystr * list json);
  headers : list pystr;
  prompt : pystr;
  batch_size : Z;
  enable_google_search : bool;
  test_mode : bool;
  mode : option pystr
}.
End FreestyleRequest.

Module KeywordKombatRequest.
Record t := Make {
  keywords : list pystr;
  company_url : pystr;
  keyword_variable : pystr;
  enable_google_search : bool;
  test_mode : bool;
  mode : option pystr
}.
End KeywordKombatRequest.

(** ** What the services import *)

Class Runtime := {
  (** everything outside the process: the model, the network, the clock *)
  World : Type;
  (** [model.generate_content(prompt).text]: the call or the access to
      [.text] may raise; the text may be [None] *)
  generate_content : pystr -> World -> result (option pystr) * World;
  (** [json.loads]; [None] when it raises *)
  json_loads : pystr -> option json;
  (** [json.dumps] *)
  json_dumps : json -> pystr;
  (** [str(v)] of a value that is not a [str] *)
  py_str : json -> pystr;
  (** the constructor of [FreestyleRequest] on the fields of the body *)
  validate_freestyle : pydict -> result FreestyleRequest.t;
  (** the constructor of [KeywordKombatRequest] on the fields of the body *)
  validate_keyword_kombat : pydict -> result KeywordKombatRequest.t;
  (** [requests.post(url, json=payload, timeout=300)]: status code and body *)
  requests_post : pystr -> json -> World -> result (Z * pystr) * World
}.

(** A value interpolated in an f-string. *)
Definition py_format `{Runtime} (v : json) : pystr :=
  match v with
  | JStr t => t
  | _ => py_str v
  end.

(** A computation that may raise and that talks to the world. *)
Definition io `{Runtime} (A : Type) : Type := World -> result A * World.

Definition io_ret `{Runtime} {A} (a : A) : io A := fun w => (Ok a, w).

Definition io_bind `{Runtime} {A B} (f : A -> io B) (m : io A) : io B :=
  fun w =>
    match m w with
    | (Ok a, w') => f a w'
    | (Raise e, w') => (Raise e, w')
    end.

#[global] Instance io_mret `{Runtime} : MRet io := fun A a => io_ret a.
#[global] Instance io_mbind `{Runtime} : MBind io := fun A B f m => io_bind f m.

(** A pure step that may raise. *)
Definition lift `{Runtime} {A} (r : result A) : io A := fun w => (r, w).

(** A step on the world that does not raise. *)
Definition total `{Runtime} {A} (m : World -> A * World) : io A :=
  fun w => let '(a, w') := m w in (Ok a, w').

Definition raise `{Runtime} {A} (c : exn_class) (msg : pystr) : io A :=
  lift (Raise (Exn c msg)).

(** [try: body  except Exception: return None] *)
Definition try_none `{Runtime} {A} (body : io A) : World -> option A * World :=
  fun w => let '(r, w') := body w in (except_none r, w').

(** [await asyncio.gather] over the tasks [task(x) for x in xs], for tasks
    that do not raise: the outcomes come back in the order of [xs]. *)
Fixpoint gather `{Runtime} {A B} (task : A -> World -> B * World) (xs : list A)
  : World -> list B * World :=
  fun w =>
    match xs with
    | [] => ([], w)
    | x :: xs' =>
        let '(b, w1) := task x w in
        let '(bs, w2) := gather task xs' w1 in
        (b :: bs, w2)
    end.

(** ** Steps that both services repeat *)

Definition fence : pystr := str "```".
Definition fence_json : pystr := str "```json".

(** [(resp.text or "{}")] *)
Definition text_or_default (text : option pystr) : pystr :=
  match text with
  | Some (c :: t) => c :: t
  | _ => str "{}"
  end.

(** [x.split(sep)[1].split("```")[0]]; [None] for the [IndexError]. *)
Definition between (sep txt : pystr) : option pystr :=
  a ← PyStr.split sep txt !! 1%nat;
  PyStr.split fence a !! 0%nat.

(** The fence stripping that follows every model call:
<<
    if "```" in txt:
        try:
            txt = txt.split("```json")[1].split("```")[0]
        except Exception:
            try:
                txt = txt.split("```")[1].split("```")[0]
            except Exception:
                pass
>> *)
Definition strip_fence (txt : pystr) : pystr :=
  if PyStr.contains fence txt then
    match between fence_json txt with
    | Some t => t
    | None =>
        match between fence txt with
        | Some t => t
        | None => txt
        end
    end
  else txt.

(** From the text of a reply to the object of a row, lines 84-95 of
    [run_row]; [None] when [loads] raises:
<<
    txt = (resp.text or "{}").strip()
    if "```" in txt: ...
    obj = json.loads(txt)
    if not isinstance(obj, dict):
        obj = {"output": obj}
>> *)
Definition extract (loads : pystr -> option json) (text : option pystr) : option pydict :=
  let txt := strip_fence (PyStr.strip (text_or_default text)) in
  match loads txt with
  | None => None
  | Some (JObj d) => Some d
  | Some obj => Some [(str "output", obj)]
  end.

(** [int(max(10, min(100, score)))] *)
Definition clamp_score (score : pynum) : result Z :=
  py_int (max_int_num 10 (min_int_num 100 score)).

Definition RelevanceScore : pystr := str "RelevanceScore".

(** [o.get("RelevanceScore", 0) >= threshold] *)
Definition score_at_least (threshold : Z) (o : pydict) : result bool :=
  py_ge_int (Dict.get_default RelevanceScore (JInt 0) o) threshold.

(** [[o for o in candidates if o.get("RelevanceScore", 0) >= threshold]]: the
    first comparison that raises ends the comprehension. *)
Fixpoint filter_at_least (threshold : Z) (candidates : list pydict)
  : result (list pydict) :=
  match candidates with
  | [] => Ok []
  | o :: rest =>
      keep ← score_at_least threshold o;
      kept ← filter_at_least threshold rest;
      Ok (if keep : bool then o :: kept else kept)
  end.

(** [company.get(key, "")] on whatever [json.loads] returned. *)
Definition company_get (company : json) (key : pystr) : result json :=
  match company with
  | JObj d => Ok (Dict.get_default key (JStr []) d)
  | _ =>
      Raise (Exn AttributeError
               (str "'" ++ type_name company ++ str "' object has no attribute 'get'"))
  end.

Definition nl : pystr := [10].
Definition dquote : pystr := [34].

(** The scoring template, an f-string over [company]; doubled braces are
    single braces in the result. *)
Definition keyword_template `{Runtime} (company : json) : result pystr :=
  name ← company_get company (str "company_name");
  description ← company_get company (str "company_description");
  Ok (str "INPUT:" ++ nl ++ str "Keyword: " ++ dquote ++ str "{{ keyword }}" ++ dquote
      ++ nl ++ nl ++ str "SYSTEM:" ++ nl
      ++ str "Du agierst als deutschsprachiger SEO-Analyst fu" ++ [776] ++ str "r **"
      ++ py_format name ++ str "** " ++ [8211] ++ str " " ++ py_format description
      ++ str "." ++ nl ++ nl
      ++ str "Gib ausschlie" ++ [223] ++ str "lich JSON zuru" ++ [776] ++ str "ck:" ++ nl
      ++ str "{" ++ nl
      ++ str "  " ++ dquote ++ str "Keyword" ++ dquote ++ str ": " ++ dquote
      ++ str "<keyword>" ++ dquote ++ str "," ++ nl
      ++ str "  " ++ dquote ++ str "RelevanceScore" ++ dquote ++ str ": <integer>," ++ nl
      ++ str "  " ++ dquote ++ str "Rationale" ++ dquote ++ str ": " ++ dquote
      ++ str "<1" ++ [8211] ++ str "2 Sa" ++ [776] ++ str "tze>" ++ dquote ++ nl
      ++ str "}").

(** The objects the endpoints answer with. *)
Record RowsResponse := {
  success : bool;
  results : list pydict;
  processed_count : nat;
  total_count : nat
}.

(** [ProcessingResponse] / [ProcessResponse]; [processing_time], a difference
    of two clock readings, is left out. *)
Record ProcessingResponse := {
  pr_results : list pydict;
  items_processed : nat
}.

Inductive http_body :=
  | RowsBody (r : RowsResponse)
  | ProcessingBody (r : ProcessingResponse)
  | JsonBody (v : json)
  (** [{"detail": ...}] of an [HTTPException] *)
  | Detail (detail : pystr)
  (** the answer of the server to an exception that left the endpoint *)
  | InternalServerError.

Record http_response := Http { status_code : Z; body : http_body }.

(** A Unicode scalar value: a code point that is not a surrogate. *)
Definition scalar_value (c : N) : bool :=
  (c <? 55296) || ((57344 <=? c) && (c <? 1114112)).

(** What the server can render: it writes the value an endpoint returned
    with [json.dumps(..., ensure_ascii=False, allow_nan=False)] and encodes
    the text as UTF-8.  The first refuses NaN and the infinities, the second
    a surrogate, wherever they stand in the value. *)
Fixpoint renderable (v : json) : bool :=
  match v with
  | JFloat (FFinite _ _) => true
  | JFloat _ => false
  | JStr s => forallb scalar_value s
  | JArr l => forallb renderable l
  | JObj d => forallb (fun kv => forallb scalar_value kv.1 && renderable kv.2) d
  | _ => true
  end.

Definition renders (b : http_body) : bool :=
  match b with
  | RowsBody r => forallb (fun o => renderable (JObj o)) (results r)
  | ProcessingBody r => forallb (fun o => renderable (JObj o)) (pr_results r)
  | JsonBody v => renderable v
  | Detail _ | InternalServerError => true
  end.

(** The answer to a request whose endpoint returned [b]: status 200 with
    [b], or, when rendering raises, the answer of the server to an exception
    outside the endpoint. *)
Definition respond (b : http_body) : http_response :=
  if renders b then Http 200 b else Http 500 InternalServerError.

(** [(body.get("mode") or "freestyle").strip()] *)
Definition select_mode (body : pydict) : result pystr :=
  match Dict.get (str "mode") body with
  | None => Ok (PyStr.strip (str "freestyle"))
  | Some v =>
      if py_bool v then
        match v with
        | JStr m => Ok (PyStr.strip m)
        | _ =>
            Raise (Exn AttributeError
                     (str "'" ++ type_name v ++ str "' object has no attribute 'strip'"))
        end
      else Ok (PyStr.strip (str "freestyle"))
  end.

(** ** [loop_over_rows_fastapi_app.py] *)
Module FastapiApp.
Section App.
Context `{Runtime}.

Import FreestyleRequest.

(** The prompt of a row, lines 80-81. *)
Definition row_prompt (request : FreestyleRequest.t) (row_values : list json) : pystr :=
  let row_dict := Dict.of_pairs (zip (headers request) row_values) in
  str "Row: " ++ json_dumps (JObj row_dict) ++ nl ++ nl
  ++ str "Instructions: " ++ FreestyleRequest.prompt request ++ nl ++ nl
  ++ str "Return strict JSON only.".

(** [run_row], lines 78-98. *)
Definition run_row (request : FreestyleRequest.t) (row_key : pystr) (row_values : list json)
  : World -> option (pystr * pydict) * World :=
  try_none (
    text ← generate_content (row_prompt request row_values);
    match extract json_loads text with
    | None => raise JSONDecodeError (str "Expecting value")
    | Some obj => mret (row_key, obj)
    end).

(** [{"row_key": row_key, **obj}] *)
Definition row_object (row_key : pystr) (obj : pydict) : pydict :=
  Dict.update [(str "row_key", JStr row_key)] obj.

(** The inner loop over [outs], lines 105-109. *)
Definition collect (outs : list (option (pystr * pydict))) : list pydict :=
  flat_map (fun out => match out with
                       | None => []
                       | Some (row_key, obj) => [row_object row_key obj]
                       end) outs.

(** One round of the loop over [range(0, len(items), batch_size)],
    lines 103-109. *)
Definition batch_round (request : FreestyleRequest.t) (items : list (pystr * list json))
  (acc : list pydict * World) (i : Z) : list pydict * World :=
  let '(results, w) := acc in
  let batch := py_slice items i (i + batch_size request) in
  let '(outs, w') := gather (fun kv => run_row request kv.1 kv.2) batch w in
  (results ++ collect outs, w').

(** [process_rows_freestyle], lines 68-111. *)
Definition process_rows_freestyle (request : FreestyleRequest.t) : io RowsResponse :=
  fun w =>
    let items := data request in
    match py_range 0 (Z.of_nat (length items)) (batch_size request) with
    | Raise e => (Raise e, w)
    | Ok starts =>
        let '(results, w') := fold_left (batch_round request items) starts ([], w) in
        (Ok {| success := true; results := results;
               processed_count := length results;
               total_count := length (data request) |}, w')
    end.

Import KeywordKombatRequest.

(** The research prompt, lines 130-132. *)
Definition research_prompt (req : KeywordKombatRequest.t) : pystr :=
  let research_prompt :=
    str "Analysiere " ++ company_url req
    ++ str " und gib JSON mit company_name, company_description zuru" ++ [776] ++ str "ck." in
  if KeywordKombatRequest.enable_google_search req
  then str "Recherchiere im Web: " ++ research_prompt
  else research_prompt.

(** The company for the text [r] of the research reply, lines 135-147. *)
Definition company_of (req : KeywordKombatRequest.t) (r : option pystr) : json :=
  let text := strip_fence (PyStr.strip (text_or_default r)) in
  match json_loads text with
  | Some company => company
  | None => JObj [(str "company_name", JStr (company_url req))]
  end.

(** The company research call, lines 133-147; only the model call can
    raise. *)
Definition research (req : KeywordKombatRequest.t) : io json :=
  r ← generate_content (research_prompt req);
  mret (company_of req r).

(** [score], lines 151-170. *)
Definition score (tpl : pystr) (kw : pystr) : World -> option pydict * World :=
  try_none (
    text ← generate_content (PyStr.replace (str "{{ keyword }}") kw tpl);
    let txt := strip_fence (PyStr.strip (text_or_default text)) in
    match json_loads txt with
    | None => raise JSONDecodeError (str "Expecting value")
    | Some (JObj obj) =>
        let score := Dict.get_default RelevanceScore (JInt 0) obj in
        match as_number score with
        | Some x => z ← lift (clamp_score x); mret (Dict.set RelevanceScore (JInt z) obj)
        | None => mret obj
        end
    | Some v =>
        raise AttributeError
          (str "'" ++ type_name v ++ str "' object has no attribute 'get'")
    end).

Definition placeholder (kw : pystr) : pydict :=
  [(str "Keyword", JStr kw); (RelevanceScore, JInt 90);
   (str "Rationale",
    JStr (str "Testmodus: Beispielausgabe fu" ++ [776] ++ str "r die UI"))].

(** [[o for o in outs if o]], line 175. *)
Definition results_raw (outs : list (option pydict)) : list pydict :=
  omap (fun o => if truthy o then o else None) outs.

(** Lines 176-183: what is returned for the outcomes [outs] of the scoring
    tasks of [kws]. *)
Definition select_results (test : bool) (kws : list pystr) (outs : list (option pydict))
  : result (list pydict) :=
  results ← filter_at_least 80 (results_raw outs);
  match results with
  | [] =>
      if test then Ok (map placeholder kws)
      else filter_at_least 50 (results_raw outs)
  | _ => Ok results
  end.

(** The keywords that are scored, line 172. *)
Definition scored_keywords (req : KeywordKombatRequest.t) : list pystr :=
  if KeywordKombatRequest.test_mode req then take 3 (keywords req) else keywords req.

(** What follows the research call, lines 149-183. *)
Definition score_stage (req : KeywordKombatRequest.t) (company : json) : io (list pydict) :=
  tpl ← lift (keyword_template company);
  let kws := scored_keywords req in
  outs ← total (gather (score tpl) kws);
  lift (select_results (KeywordKombatRequest.test_mode req) kws outs).

(** [process_keyword_kombat], lines 121-183. *)
Definition process_keyword_kombat (req : KeywordKombatRequest.t) : io (list pydict) :=
  company ← research req;
  score_stage req company.

(** [raise HTTPException(status_code=500, detail=f"Processing failed: {e}")] *)
Definition processing_failed (e : exn) : http_response :=
  Http 500 (Detail (str "Processing failed: " ++ exn_message e)).

(** [process_unified], the handler of [POST /process], lines 192-207.  The
    mode is read before the [try]; what the [try] returns is rendered by the
    server after the handler has returned. *)
Definition process_unified (body : pydict) : World -> http_response * World :=
  fun w =>
    match select_mode body with
    | Raise _ => (Http 500 InternalServerError, w)
    | Ok mode =>
        let attempt : io http_body :=
          if decide (mode = str "keyword-kombat") then
            req ← lift (validate_keyword_kombat body);
            results ← process_keyword_kombat req;
            mret (ProcessingBody {| pr_results := results; items_processed := length results |})
          else
            req ← lift (validate_freestyle body);
            out ← process_rows_freestyle req;
            mret (RowsBody out) in
        match attempt w with
        | (Ok b, w') => (respond b, w')
        | (Raise e, w') => (processing_failed e, w')
        end
    end.

End App.
End FastapiApp.

(** ** Row mode under the event loop

    [asyncio.gather] hands the tasks of a round to the event loop.  A task
    makes one call to the model; a task that the throttler puts to sleep is
    overtaken by the tasks behind it, so which pending task makes its call
    next is the choice of the loop.  [FastapiApp.process_rows_freestyle]
    takes the tasks in the order of the rows; here the choice is left to a
    schedule, to tell when a call can be made. *)
Module EventLoop.
Section Loop.
Context `{Runtime}.

Import FreestyleRequest.

(** The choices of the loop during one [gather]: at each step a position
    among the tasks that have not made their call yet, counted modulo their
    number.  A schedule that ends early goes on with zeros: it takes the
    tasks in the order of the list, as [gather] does. *)
Definition schedule : Type := list nat.

(** The pending tasks run one after the other as the schedule picks them;
    every outcome keeps the position of its task in the call of [gather]. *)
Fixpoint run_pending {A B} (task : A -> World -> B * World) (n : nat)
    (pending : list (nat * A)) (s : schedule) (w : World) : list (nat * B) * World :=
  match n with
  | O => ([], w)
  | S n' =>
      let c := (hd 0 s `mod` length pending)%nat in
      match pending !! c with
      | None => ([], w)
      | Some (i, x) =>
          let '(b, w1) := task x w in
          let '(outs, w2) := run_pending task n' (delete c pending) (tl s) w1 in
          ((i, b) :: outs, w2)
      end
  end.

(** The outcome of the task at position [j]. *)
Fixpoint outcome {B} (j : nat) (outs : list (nat * B)) : option B :=
  match outs with
  | [] => None
  | (i, b) :: outs' => if decide (i = j) then Some b else outcome j outs'
  end.

(** [await asyncio.gather] over the tasks [task(x) for x in xs]: every task
    has finished when it returns, and the outcomes come back in the order of
    [xs]. *)
Definition gather {A B} (s : schedule) (task : A -> World -> B * World) (xs : list A)
  : World -> list B * World :=
  fun w =>
    let n := length xs in
    let '(outs, w') := run_pending task n (zip (seq 0 n) xs) s w in
    (omap (fun j => outcome j outs) (seq 0 n), w').

(** One round of the loop, lines 103-109; [sched i] is the schedule of the
    round that starts at item [i]. *)
Definition batch_round (sched : Z -> schedule) (request : FreestyleRequest.t)
  (items : list (pystr * list json)) (acc : list pydict * World) (i : Z)
  : list pydict * World :=
  let '(results, w) := acc in
  let batch := py_slice items i (i + batch_size request) in
  let '(outs, w') :=
    gather (sched i) (fun kv => FastapiApp.run_row request kv.1 kv.2) batch w in
  (results ++ FastapiApp.collect outs, w').

(** [process_rows_freestyle], lines 68-111. *)
Definition process_rows_freestyle (sched : Z -> schedule) (request : FreestyleRequest.t)
  : io RowsResponse :=
  fun w =>
    let items := data request in
    match py_range 0 (Z.of_nat (length items)) (batch_size request) with
    | Raise e => (Raise e, w)
    | Ok starts =>
        let '(results, w') := fold_left (batch_round sched request items) starts ([], w) in
        (Ok {| success := true; results := results;
               processed_count := length results;
               total_count := length (data request) |}, w')
    end.

End Loop.
End EventLoop.

(** ** [loop_over_rows_frontand_unified.py] *)
Module FrontandUnified.
Section App.
Context `{Runtime}.

(** The default company of lines 140-145. *)
Definition default_company (company_url : pystr) : json :=
  let host :=
    match PyStr.split (str "/")
            (PyStr.replace (str "http://") []
               (PyStr.replace (str "https://") [] company_url)) with
    | a :: _ => a
    | [] => []
    end in
  JObj [(str "company_name", JStr host);
        (str "company_description", JStr (str "Unternehmen unter " ++ company_url));
        (str "industry", JStr []);
        (str "target_market", JStr [])].

(** The research prompt, lines 122-124. *)
Definition research_prompt (company_url : pystr) (enable_google_search : bool) : pystr :=
  let research_prompt :=
    str "Analysiere die Webseite " ++ company_url
    ++ str " und gib JSON mit company_name, company_description, industry, target_market zuru"
    ++ [776] ++ str "ck." in
  if enable_google_search
  then str "Recherchiere im Web: " ++ research_prompt
  else research_prompt.

(** The company for the text [r] of the research reply, lines 128-145. *)
Definition company_of (company_url : pystr) (r : option pystr) : json :=
  let text := strip_fence (PyStr.strip (text_or_default r)) in
  match json_loads text with
  | Some company => company
  | None => default_company company_url
  end.

(** The company research call, lines 126-145. *)
Definition research (company_url : pystr) (enable_google_search : bool) : io json :=
  r ← generate_content (research_prompt company_url enable_google_search);
  mret (company_of company_url r).

(** [score_kw], lines 149-168. *)
Definition score_kw (tpl : pystr) (kw : pystr) : World -> option pydict * World :=
  try_none (
    let prompt := PyStr.replace (str "{{ keyword }}") kw tpl in
    text ← generate_content prompt;
    let txt := strip_fence (PyStr.strip (text_or_default text)) in
    match json_loads txt with
    | None => raise JSONDecodeError (str "Expecting value")
    | Some (JObj obj) =>
        match Dict.get RelevanceScore obj ≫= as_number with
        | Some x => z ← lift (clamp_score x); mret (Dict.set RelevanceScore (JInt z) obj)
        | None => mret obj
        end
    | Some v =>
        raise AttributeError
          (str "'" ++ type_name v ++ str "' object has no attribute 'get'")
    end).

(** The loop of lines 174-176 over the outcomes of the scoring tasks. *)
Fixpoint keep_high (out : list (option pydict)) : result (list pydict) :=
  match out with
  | [] => Ok []
  | item :: rest =>
      keep ← (if truthy item
              then score_at_least 80 (default [] item)
              else Ok false);
      kept ← keep_high rest;
      Ok (if keep : bool then default [] item :: kept else kept)
  end.

(** The keywords that are scored, line 171. *)
Definition scored_keywords (keywords : list pystr) (test_mode : bool) : list pystr :=
  if test_mode then take 3 keywords else keywords.

(** What follows the research call, lines 147-177. *)
Definition score_stage (keywords : list pystr) (test_mode : bool) (company : json)
  : io (list pydict) :=
  tpl ← lift (keyword_template company);
  let batch := scored_keywords keywords test_mode in
  out ← total (gather (score_kw tpl) batch);
  lift (keep_high out).

(** [_process_keyword_kombat], lines 112-177: the body of the function, as a
    call with [.remote] or [.local] runs it. *)
Definition _process_keyword_kombat (keywords : list pystr) (company_url : pystr)
  (enable_google_search test_mode : bool) : io (list pydict) :=
  company ← research company_url enable_google_search;
  score_stage keywords test_mode company.

Definition proxy_url : pystr :=
  str "https://scaile--loop-over-rows-fastapi-app.modal.run/process".

(** The payload forwarded to the engine, lines 91-97. *)
Definition proxy_payload (req : FreestyleRequest.t) : json :=
  JObj [(str "data",
         JObj (map (fun kv => (kv.1, JArr kv.2)) (FreestyleRequest.data req)));
        (str "headers", JArr (map JStr (FreestyleRequest.headers req)));
        (str "prompt", JStr (FreestyleRequest.prompt req));
        (str "batch_size", JInt (FreestyleRequest.batch_size req));
        (str "enable_google_search", JBool (FreestyleRequest.enable_google_search req))].

(** The second [try] of the freestyle branch, lines 90-102: an
    [HTTPException] raised inside it is caught by its own [except]. *)
Definition forward (req : FreestyleRequest.t) : io json :=
  resp ← requests_post proxy_url (proxy_payload req);
  let '(status, text) := resp in
  if decide (status = 200%Z) then
    match json_loads text with
    | Some v => mret v
    | None => raise JSONDecodeError (str "Expecting value")
    end
  else
    raise HTTPException
      (Json.int_repr status ++ str ": " ++ str "Upstream error: " ++ text).

(** [process_unified], the handler of [POST /process], lines 71-102.  An
    exception that leaves the handler is answered by the server with
    status 500.

    In the score branch, line 80 calls [_process_keyword_kombat(...)].  That
    name is bound to the Function object which the decorator
    [@modal_app.function] returns, and the call is neither [.remote] nor
    [.local]: it raises before the body above runs, so no call of the model
    is made and the exception leaves the handler.  (The engine calls its
    functions with [.remote], which runs their bodies.) *)
Definition process_unified (body : pydict) : World -> http_response * World :=
  fun w =>
    match select_mode body with
    | Raise _ => (Http 500 InternalServerError, w)
    | Ok mode =>
        if decide (mode = str "keyword-kombat") then
          match validate_keyword_kombat body with
          | Raise _ => (Http 500 InternalServerError, w)
          | Ok req => (Http 500 InternalServerError, w)
          end
        else
          match validate_freestyle body with
          | Raise e =>
              (Http 400 (Detail (str "Invalid freestyle request: " ++ exn_message e)), w)
          | Ok req =>
              match forward req w with
              | (Ok v, w') => (respond (JsonBody v), w')
              | (Raise e, w') =>
                  (Http 500 (Detail (str "Freestyle processing failed: " ++ exn_message e)), w')
              end
          end
    end.

End App.
End FrontandUnified.

(** ** A test double for what the services import

    The model and the upstream service answer from a script, in the order of
    the calls; [json] is [Json.loads] and [Json.dumps]; the request models
    accept the declared field types without coercion. *)
Module Stub.

(** The binary64 value nearest to [num / den] (ties to even), for
    [0 < den]. *)
Definition nearest_float (negative : bool) (num den : N) : pyfloat :=
  if num =? 0 then FFinite 0 0
  else
    let k0 := (Z.of_N (N.log2 num) - Z.of_N (N.log2 den) - 52)%Z in
    let scaled (k : Z) : N * N :=
      if (0 <=? k)%Z then (num, den * 2 ^ Z.to_N k) else (num * 2 ^ Z.to_N (- k), den) in
    let k1 := if (let '(a, b) := scaled k0 in a / b) <? 2 ^ 52 then (k0 - 1)%Z else k0 in
    let k := Z.max k1 (-1074) in
    let '(a, b) := scaled k in
    let q := a / b in
    let r := a mod b in
    let q := if (b <? 2 * r) || ((b =? 2 * r) && N.odd q) then q + 1 else q in
    if (1024 <? Z.of_N (N.log2 q) + 1 + k)%Z then FInf negative
    else FFinite (if negative then - Z.of_N q else Z.of_N q)%Z k.

(** [float(literal)] for a literal of the number grammar. *)
Definition float_of_literal (lit : pystr) : pyfloat :=
  let '(negative, s) := match lit with 45 :: r => (true, r) | _ => (false, lit) end in
  let '(int_part, r1) := Json.read_digits s in
  let '(frac_part, r2) :=
    match r1 with
    | 46 :: t => Json.read_digits t
    | _ => (Nil, r1)
    end in
  let exponent : Z :=
    match r2 with
    | _ :: 45 :: t => (- Z.of_N (N.of_uint (Json.read_digits t).1))%Z
    | _ :: 43 :: t => Z.of_N (N.of_uint (Json.read_digits t).1)
    | _ :: t => Z.of_N (N.of_uint (Json.read_digits t).1)
    | [] => 0%Z
    end in
  let digits := N.of_uint (Decimal.app int_part frac_part) in
  let e10 := (exponent - Z.of_nat (Decimal.nb_digits frac_part))%Z in
  if (0 <=? e10)%Z then nearest_float negative (digits * 10 ^ Z.to_N e10) 1
  else nearest_float negative digits (10 ^ Z.to_N (- e10)).

(** A decimal literal of a finite float: its exact expansion, with at least
    one digit after the point.  ([float.__repr__] prints the shortest
    literal that reads back as the same float.) *)
Definition float_repr (f : pyfloat) : pystr :=
  match f with
  | FFinite m e =>
      let sign : pystr := if (m <? 0)%Z then [45] else [] in
      let a := Z.abs_N m in
      if (0 <=? e)%Z then
        sign ++ Json.uint_chars (N.to_uint (a * 2 ^ Z.to_N e)) ++ str ".0"
      else
        let k := Z.to_N (- e) in
        let scale := 10 ^ k in
        let n := a * 5 ^ k in
        let frac := Json.uint_chars (N.to_uint (n mod scale)) in
        sign ++ Json.uint_chars (N.to_uint (n / scale)) ++ [46]
        ++ replicate (N.to_nat k - length frac) 48 ++ frac
  | FInf true => str "-inf"
  | FInf false => str "inf"
  | FNaN => str "nan"
  end.

Definition loads : pystr -> option json := Json.loads float_of_literal.
Definition dumps : json -> pystr := Json.dumps float_repr.

(** [str(v)] for the values that are not a [str]; a container is shown in
    its JSON form. *)
Definition str_of (v : json) : pystr :=
  match v with
  | JNull => str "None"
  | JBool true => str "True"
  | JBool false => str "False"
  | JFloat f => float_repr f
  | _ => dumps v
  end.

Definition missing (field : string) : exn :=
  Exn ValidationError (str field ++ str ": Field required").
Definition wrong_type (field : string) : exn :=
  Exn ValidationError (str field ++ str ": Input should be a valid value").

Definition field_bool (field : string) (body : pydict) : result bool :=
  match Dict.get (str field) body with
  | None => Ok false
  | Some (JBool b) => Ok b
  | Some _ => Raise (wrong_type field)
  end.

Definition field_str (field : string) (body : pydict) : result pystr :=
  match Dict.get (str field) body with
  | None => Raise (missing field)
  | Some (JStr t) => Ok t
  | Some _ => Raise (wrong_type field)
  end.

Definition field_mode (body : pydict) : result (option pystr) :=
  match Dict.get (str "mode") body with
  | None | Some JNull => Ok None
  | Some (JStr t) => Ok (Some t)
  | Some _ => Raise (wrong_type "mode")
  end.

Definition as_str (field : string) (v : json) : result pystr :=
  match v with
  | JStr t => Ok t
  | _ => Raise (wrong_type field)
  end.

Definition field_str_list (field : string) (body : pydict) : result (list pystr) :=
  match Dict.get (str field) body with
  | None => Raise (missing field)
  | Some (JArr l) => mapM (as_str field) l
  | Some _ => Raise (wrong_type field)
  end.

Definition as_row (kv : pystr * json) : result (pystr * list json) :=
  match kv.2 with
  | JArr l => Ok (kv.1, l)
  | _ => Raise (wrong_type "data")
  end.

(** The constructor of [KeywordKombatRequest]. *)
Definition keyword_kombat_model (body : pydict) : result KeywordKombatRequest.t :=
  keywords ← field_str_list "keywords" body;
  company_url ← field_str "company_url" body;
  keyword_variable ←
    match Dict.get (str "keyword_variable") body with
    | None => Ok (str "keyword")
    | Some (JStr t) => Ok t
    | Some _ => Raise (wrong_type "keyword_variable")
    end;
  enable_google_search ← field_bool "enable_google_search" body;
  test_mode ← field_bool "test_mode" body;
  mode ← field_mode body;
  Ok (KeywordKombatRequest.Make keywords company_url keyword_variable
        enable_google_search test_mode mode).

(** The constructor of [FreestyleRequest]. *)
Definition freestyle_model (body : pydict) : result FreestyleRequest.t :=
  data ←
    match Dict.get (str "data") body with
    | None => Raise (missing "data")
    | Some (JObj d) => mapM as_row d
    | Some _ => Raise (wrong_type "data")
    end;
  headers ← field_str_list "headers" body;
  prompt ← field_str "prompt" body;
  batch_size ←
    match Dict.get (str "batch_size") body with
    | None => Ok 10%Z
    | Some (JInt z) => Ok z
    | Some _ => Raise (wrong_type "batch_size")
    end;
  enable_google_search ← field_bool "enable_google_search" body;
  test_mode ← field_bool "test_mode" body;
  mode ← field_mode body;
  Ok (FreestyleRequest.Make data headers prompt batch_size
        enable_google_search test_mode mode).

(** The script: the replies of the model and the answers of the upstream
    service that are still to come. *)
Record script := Script {
  replies : list (result (option pystr));
  answers : list (result (Z * pystr))
}.

Definition next_reply (prompt : pystr) (w : script) : result (option pystr) * script :=
  match replies w with
  | r :: rest => (r, Script rest (answers w))
  | [] => (Raise (Exn UpstreamFailure (str "no reply left")), w)
  end.

Definition next_answer (url : pystr) (payload : json) (w : script)
  : result (Z * pystr) * script :=
  match answers w with
  | a :: rest => (a, Script (replies w) rest)
  | [] => (Raise (Exn UpstreamFailure (str "no answer left")), w)
  end.

#[global] Instance runtime : Runtime := {|
  World := script;
  generate_content := next_reply;
  json_loads := loads;
  json_dumps := dumps;
  py_str := str_of;
  validate_freestyle := freestyle_model;
  validate_keyword_kombat := keyword_kombat_model;
  requests_post := next_answer
|}.

(** A script of model replies that all carry text. *)
Definition says (texts : list pystr) : script :=
  Script (map (fun t => Ok (Some t)) texts) [].

End Stub.

(** ** Notions used in the statements *)

(** The same imports with a log of the prompts sent to the model, oldest
    first. *)
Definition traced (R : Runtime) : Runtime := {|
  World := (@World R * list pystr)%type;
  generate_content := fun prompt w =>
    let '(r, w') := @generate_content R prompt w.1 in (r, (w', w.2 ++ [prompt]));
  json_loads := @json_loads R;
  json_dumps := @json_dumps R;
  py_str := @py_str R;
  validate_freestyle := @validate_freestyle R;
  validate_keyword_kombat := @validate_keyword_kombat R;
  requests_post := fun url payload w =>
    let '(r, w') := @requests_post R url payload w.1 in (r, (w', w.2))
|}.

(** A reply wrapped in a fenced code block with the given label. *)
Definition fenced (label text : pystr) : pystr :=
  fence ++ label ++ nl ++ text ++ nl ++ fence.

(** JSON values that print and read back: strings of scalar values,
    integers for numbers, distinct keys in every object. *)
Fixpoint plain (v : json) : bool :=
  match v with
  | JNull | JBool _ | JInt _ => true
  | JFloat _ => false
  | JStr s => forallb scalar_value s
  | JArr l => forallb plain l
  | JObj d =>
      bool_decide (NoDup d.*1)
      && forallb (fun kv => forallb scalar_value kv.1 && plain kv.2) d
  end.

#[global] Instance pyfloat_eq_dec : EqDecision pyfloat.
Proof. solve_decision. Defined.

(** The number scanner of the decoder reads [s] to its end as a float
    literal: digits with a fraction, an exponent or both, after an optional
    minus sign. *)
Definition float_literal (s : pystr) : bool :=
  match Json.scan_number (fun _ => FNaN) s with
  | Some (JFloat _, []) => true
  | _ => false
  end.

(** A string that reads back from its literal: code points of a [str], and
    no high surrogate right before a low one, since the decoder joins the
    escapes of such a pair into one code point. *)
Fixpoint readable (s : pystr) : bool :=
  match s with
  | [] => true
  | c :: t =>
      (c <? 1114112)
      && negb (Json.is_high_surrogate c
               && match t with d :: _ => Json.is_low_surrogate d | [] => false end)
      && readable t
  end.

(** JSON values that print and read back, floats included: a finite float
    is one whose [repr] is a float literal from which [float(...)] gives the
    same float back, as is the case of every float in CPython; the
    infinities print as [Infinity] and [-Infinity].  NaN is left out: it is
    not equal to itself.  The keys of an object are distinct, as those of a
    [dict] are. *)
Fixpoint printable (py_float : pystr -> pyfloat) (float_repr : pyfloat -> pystr)
    (v : json) : bool :=
  match v with
  | JNull | JBool _ | JInt _ => true
  | JFloat FNaN => false
  | JFloat (FInf _) => true
  | JFloat (FFinite m e) =>
      float_literal (float_repr (FFinite m e))
      && bool_decide (py_float (float_repr (FFinite m e)) = FFinite m e)
  | JStr s => readable s
  | JArr l => forallb (printable py_float float_repr) l
  | JObj d =>
      bool_decide (NoDup d.*1)
      && forallb (fun kv => readable kv.1 && printable py_float float_repr kv.2) d
  end.

(** What the loop header raises for a zero step. *)
Definition range_error : exn :=
  Exn ValueError (str "range() arg 3 must not be zero").

(** The answer of row mode when no round runs. *)
Definition empty_response (request : FreestyleRequest.t) : RowsResponse :=
  {| success := true; results := []; processed_count := 0;
     total_count := length (FreestyleRequest.data request) |}.

(** Every number among the scores of [o] is an integer in [10, 100]. *)
Definition clamped (o : pydict) : Prop :=
  forall v x, Dict.get RelevanceScore o = Some v -> as_number v = Some x ->
    exists z, v = JInt z /\ (10 <= z <= 100)%Z.

(** The nesting depth of a value. *)
Fixpoint depth (v : json) : nat :=
  match v with
  | JArr l => S (fold_right (fun x m => Nat.max (depth x) m) 0%nat l)
  | JObj d => S (fold_right (fun kv m => Nat.max (depth kv.2) m) 0%nat d)
  | _ => 1
  end.

(** What follows a number: no digit. *)
Definition no_digit (rest : pystr) : Prop :=
  match rest with
  | [] => True
  | c :: _ => Json.is_digit c = false
  end.

(** What may follow a value in a text that reads back: not a digit, a dot or
    an exponent mark. *)
Definition delimited (rest : pystr) : Prop :=
  match rest with
  | [] => True
  | c :: _ => Json.is_digit c = false /\ c <> 46 /\ c <> 101 /\ c <> 69
  end.

(** The decoder reads the text of [v] back at nesting depth [n], whatever
    delimited text follows it. *)
Definition reads_back (py_float : pystr -> pyfloat) (float_repr : pyfloat -> pystr)
    (n : nat) (v : json) : Prop :=
  forall rest, delimited rest ->
    Json.scan_once py_float n (Json.dumps float_repr v ++ rest) = Some (v, rest).

(** The relevance score of a returned item is the integer [z]. *)
Definition has_score (o : pydict) (z : Z) : Prop :=
  Dict.get RelevanceScore o = Some (JInt z).

(** The relevance score of a returned item is an integer in [lo, hi]. *)
Definition score_within (lo hi : Z) (o : pydict) : Prop :=
  exists z, has_score o z /\ (lo <= z <= hi)%Z.

(** Two outcomes of scoring one keyword that are the same, or that differ
    only in the score 10 that the engine writes into an object without
    [RelevanceScore]. *)
Definition same_but_default (o1 o2 : option pydict) : Prop :=
  o1 = o2
  \/ exists obj, Dict.get RelevanceScore obj = None
       /\ o1 = Some (Dict.set RelevanceScore (JInt 10) obj) /\ o2 = Some obj.

(** What follows the host in a URL: nothing, or a slash and a path. *)
Definition after_host (t : pystr) : Prop := t = [] \/ exists path, t = 47 :: path.

(** The two schemes that [default_company] removes, with their marks. *)
Definition scheme_https : pystr := str "https://".
Definition scheme_http : pystr := str "http://".

(** ** Requests and replies used as examples *)
Module Examples.

(** The reply text that carries the object [d]. *)
Definition reply (d : pydict) : pystr := Stub.dumps (JObj d).

Definition scored (z : Z) : pystr := reply [(RelevanceScore, JInt z)].

Definition unparseable : pystr := str "I could not find the company.".

Definition kombat (keywords : list pystr) (test_mode : bool) : KeywordKombatRequest.t :=
  KeywordKombatRequest.Make keywords (str "https://example.com/about") (str "keyword")
    false test_mode (Some (str "keyword-kombat")).

(** The body of the request [kombat keywords test_mode]. *)
Definition kombat_body (keywords : list pystr) (test_mode : bool) : pydict :=
  [(str "mode", JStr (str "keyword-kombat"));
   (str "keywords", JArr (map JStr keywords));
   (str "company_url", JStr (str "https://example.com/about"));
   (str "test_mode", JBool test_mode)].

(** The company the engine falls back to for [kombat]. *)
Definition url_company : json :=
  JObj [(str "company_name", JStr (str "https://example.com/about"))].

Definition rows (n : nat) (batch_size : Z) : FreestyleRequest.t :=
  FreestyleRequest.Make
    (map (fun i => (str "r" ++ Json.int_repr (Z.of_nat i), [JInt (Z.of_nat i)])) (seq 1 n))
    [str "col"] (str "Summarise the row.") batch_size false false None.

Definition summary_ok : pystr := reply [(str "summary", JStr (str "ok"))].

(** The body of a freestyle request with one row. *)
Definition row_body (batch_size : Z) : pydict :=
  [(str "data", JObj [(str "r1", JArr [JStr (str "a")])]);
   (str "headers", JArr [JStr (str "col")]);
   (str "prompt", JStr (str "Summarise the row."));
   (str "batch_size", JInt batch_size)].

Definition one_row (batch_size : Z) : FreestyleRequest.t :=
  FreestyleRequest.Make [(str "r1", [JStr (str "a")])] [str "col"]
    (str "Summarise the row.") batch_size false false None.

End Examples.

(** ** Facts about lists, ranges and slices *)

Lemma take_plus_app {A} (a b : nat) (l : list A) :
  take (a + b) l = take a l ++ take b (drop a l).
Proof.
  revert l; induction a as [|a IH]; intros [|x l]; simpl; try done.
  - by rewrite take_nil.
  - by rewrite IH.
Qed.

Lemma py_slice_nonneg {A} (l : list A) (lo hi : Z) :
  (0 <= lo)%Z -> (lo <= hi)%Z ->
  py_slice l lo hi = take (Z.to_nat (hi - lo)) (drop (Z.to_nat lo) l).
Proof.
  intros Hlo Hhi. unfold py_slice, slice_index.
  destruct (Z.ltb_spec lo 0); [lia|].
  destruct (Z.ltb_spec hi 0); [lia|].
  destruct (Z.le_gt_cases lo (Z.of_nat (length l))) as [Hin|Hout].
  - rewrite (Z.min_l lo) by lia.
    destruct (Z.le_gt_cases hi (Z.of_nat (length l))).
    + by rewrite (Z.min_l hi) by lia.
    + rewrite (Z.min_r hi) by lia.
      rewrite !take_ge; [done| |]; rewrite length_drop; lia.
  - rewrite !Z.min_r by lia. rewrite Z.sub_diag. simpl.
    rewrite (drop_ge l (Z.to_nat lo)) by lia. by rewrite take_nil.
Qed.

Lemma py_range_zero (start stop : Z) :
  py_range start stop 0 = Raise (Exn ValueError (str "range() arg 3 must not be zero")).
Proof. reflexivity. Qed.

Lemma py_range_negative (n step : Z) :
  (0 <= n)%Z -> (step < 0)%Z -> py_range 0 n step = Ok [].
Proof.
  intros Hn Hs. unfold py_range.
  destruct (Z.eqb_spec step 0); [lia|].
  destruct (Z.ltb_spec 0 step); [lia|].
  assert ((0 - n - step - 1) / - step < 1)%Z as Hlt
    by (apply Z.div_lt_upper_bound; lia).
  by replace (Z.to_nat _) with 0%nat by lia.
Qed.

(** For a positive step the starts are the multiples of the step below the
    stop. *)
Lemma py_range_positive (n step : Z) :
  (0 <= n)%Z -> (0 < step)%Z ->
  py_range 0 n step
  = Ok (map (fun j => (Z.of_nat j * step)%Z) (seq 0 (Z.to_nat ((n + step - 1) / step)))).
Proof.
  intros Hn Hs. unfold py_range.
  destruct (Z.eqb_spec step 0); [lia|].
  destruct (Z.ltb_spec 0 step); [|lia].
  rewrite Z.sub_0_r. f_equal.
Qed.


Section Gather.
Context `{Runtime}.

Lemma gather_app {A B} (task : A -> World -> B * World) (xs ys : list A) (w : World) :
  gather task (xs ++ ys) w
  = let '(a, w1) := gather task xs w in
    let '(b, w2) := gather task ys w1 in
    (a ++ b, w2).
Proof.
  revert w; induction xs as [|x xs IH]; intros w; simpl.
  - by destruct (gather task ys w).
  - destruct (task x w) as [b w1]. rewrite IH.
    destruct (gather task xs w1) as [bs w2].
    by destruct (gather task ys w2).
Qed.

Lemma gather_length {A B} (task : A -> World -> B * World) (xs : list A) (w : World) :
  length (gather task xs w).1 = length xs.
Proof.
  revert w; induction xs as [|x xs IH]; intros w; simpl; [done|].
  destruct (task x w) as [b w1]. specialize (IH w1).
  destruct (gather task xs w1); simpl in *. by rewrite IH.
Qed.

End Gather.

Section Rows.
Context `{Runtime}.
Import FastapiApp FreestyleRequest.

Lemma collect_app (a b : list (option (pystr * pydict))) :
  collect (a ++ b) = collect a ++ collect b.
Proof. unfold collect. induction a; simpl; [done|]. by rewrite IHa, app_assoc. Qed.

Lemma rounds_gather (request : FreestyleRequest.t) (items : list (pystr * list json))
    (k m : nat) (acc : list pydict) (w : World) :
  (0 < batch_size request)%Z ->
  fold_left (batch_round request items)
    (map (fun j => (Z.of_nat j * batch_size request)%Z) (seq k m)) (acc, w)
  = let b := Z.to_nat (batch_size request) in
    let '(outs, w') :=
      gather (fun kv => run_row request kv.1 kv.2) (take (m * b) (drop (k * b) items)) w in
    (acc ++ collect outs, w').
Proof.
  intros Hpos. cbv zeta. set (b := Z.to_nat (batch_size request)).
  revert k acc w.
  induction m as [|m IH]; intros k acc w; simpl.
  - by rewrite app_nil_r.
  - rewrite py_slice_nonneg by lia.
    replace (Z.to_nat (_ + batch_size request - _)) with b by lia.
    replace (Z.to_nat (Z.of_nat k * batch_size request)) with (k * b)%nat by lia.
    rewrite take_plus_app, gather_app.
    destruct (gather _ (take b _) w) as [outs1 w1].
    rewrite IH. rewrite drop_drop.
    replace (k * b + b)%nat with (S k * b)%nat by lia.
    destruct (gather _ _ w1) as [outs2 w2].
    by rewrite collect_app, app_assoc.
Qed.

(** With a positive batch size the loop over the slices is one pass over the
    rows in their order. *)
Lemma process_rows_one_pass (request : FreestyleRequest.t) (w : World) :
  (0 < batch_size request)%Z ->
  process_rows_freestyle request w
  = let '(outs, w') := gather (fun kv => run_row request kv.1 kv.2) (data request) w in
    (Ok {| success := true; results := collect outs;
           processed_count := length (collect outs);
           total_count := length (data request) |}, w').
Proof.
  intros Hpos. unfold process_rows_freestyle.
  rewrite py_range_positive by lia.
  rewrite (rounds_gather request (data request) 0) by done.
  cbv zeta.
  rewrite drop_0, take_ge.
  - by destruct (gather _ _ w).
  - set (n := Z.of_nat (length (data request))).
    pose proof (Z.mul_succ_div_gt (n + batch_size request - 1) (batch_size request) Hpos).
    assert (0 <= (n + batch_size request - 1) / batch_size request)%Z
      by (apply Z.div_pos; lia).
    apply Nat2Z.inj_le. rewrite Nat2Z.inj_mul, !Z2Nat.id by lia.
    fold n. nia.
Qed.

End Rows.

(** ** Row mode *)

Section RowMode.
Context `{Runtime}.
Import FastapiApp FreestyleRequest.

Lemma process_rows_zero (request : FreestyleRequest.t) (w : World) :
  batch_size request = 0%Z ->
  process_rows_freestyle request w = (Raise range_error, w).
Proof. intros Hz. unfold process_rows_freestyle. by rewrite Hz. Qed.

Lemma process_rows_negative (request : FreestyleRequest.t) (w : World) :
  (batch_size request < 0)%Z ->
  process_rows_freestyle request w = (Ok (empty_response request), w).
Proof.
  intros Hneg. unfold process_rows_freestyle.
  by rewrite py_range_negative by lia.
Qed.

(** The freestyle branch of the handler. *)
Lemma process_unified_freestyle (body : pydict) (mode : pystr) (w : World) :
  select_mode body = Ok mode -> mode <> str "keyword-kombat" ->
  process_unified body w
  = match validate_freestyle body with
    | Raise e => (processing_failed e, w)
    | Ok request =>
        match process_rows_freestyle request w with
        | (Ok out, w') => (respond (RowsBody out), w')
        | (Raise e, w') => (processing_failed e, w')
        end
    end.
Proof.
  intros Hmode Hne. unfold process_unified. rewrite Hmode.
  destruct (decide _) as [|_]; [done|].
  unfold mbind, io_mbind, io_bind, lift, mret, io_mret, io_ret.
  destruct (validate_freestyle body) as [request|e]; [|done].
  by destruct (process_rows_freestyle request w) as [[out|e] w'].
Qed.

(** C9: the handler accepts a batch size that is not positive.  With
    [batch_size = 0] the loop header raises before any row is sent to the
    model and the request is answered with status 500; with a negative
    [batch_size] the loop body never runs and the answer is a success with no
    result and [processed_count = 0]. *)
Theorem batch_size_not_positive (body : pydict) (mode : pystr)
    (request : FreestyleRequest.t) (w : World) :
  select_mode body = Ok mode -> mode <> str "keyword-kombat" ->
  validate_freestyle body = Ok request ->
  (batch_size request <= 0)%Z ->
  if decide (batch_size request = 0%Z) then
    process_rows_freestyle request w = (Raise range_error, w)
    /\ process_unified body w
       = (Http 500 (Detail (str "Processing failed: range() arg 3 must not be zero")), w)
  else
    process_rows_freestyle request w = (Ok (empty_response request), w)
    /\ processed_count (empty_response request) = 0%nat
    /\ process_unified body w = (Http 200 (RowsBody (empty_response request)), w).
Proof.
  intros Hmode Hne Hvalid Hle.
  rewrite (process_unified_freestyle body mode) by done. rewrite Hvalid.
  destruct (decide _) as [Hz|Hnz].
  - by rewrite process_rows_zero.
  - by rewrite process_rows_negative by lia.
Qed.



End RowMode.

(** ** Slices and the order of the rounds *)

Lemma concat_windows {A} (items : list A) (size k m : nat) :
  concat (map (fun j => take size (drop (j * size) items)) (seq k m))
  = take (m * size) (drop (k * size) items).
Proof.
  revert k. induction m as [|m IH]; intros k; simpl; [done|].
  rewrite IH, take_plus_app, drop_drop. do 3 f_equal. lia.
Qed.

(** The rounds cover the items, and every round starts inside them. *)
Lemma rounds_bounds (len : nat) (batch_size : Z) :
  (0 < batch_size)%Z ->
  let size := Z.to_nat batch_size in
  let m := Z.to_nat ((Z.of_nat len + batch_size - 1) / batch_size) in
  (len <= m * size)%nat /\ forall j, (j < m)%nat -> (j * size < len)%nat.
Proof.
  intros Hs size m.
  pose proof (Z.div_mod (Z.of_nat len + batch_size - 1) batch_size ltac:(lia)) as Hdm.
  pose proof (Z.mod_pos_bound (Z.of_nat len + batch_size - 1) batch_size Hs) as Hr.
  assert (0 <= (Z.of_nat len + batch_size - 1) / batch_size)%Z as Hq
    by (apply Z.div_pos; lia).
  assert (Z.of_nat m = (Z.of_nat len + batch_size - 1) / batch_size)%Z as Hm
    by (subst m; lia).
  assert (Z.of_nat size = batch_size) as Hsize by (subst size; lia).
  rewrite <- Hm in Hdm. clearbody m size. split; [|intros j Hj]; nia.
Qed.

(** ** The event loop *)

Lemma omap_outcome_skip {B} (i : nat) (b : B) (outs : list (nat * B)) (js : list nat) :
  i ∉ js ->
  omap (fun j => EventLoop.outcome j ((i, b) :: outs)) js
  = omap (fun j => EventLoop.outcome j outs) js.
Proof.
  induction js as [|j js IH]; [done|].
  intros [Hne Hjs]%not_elem_of_cons.
  cbn [omap list_omap]. rewrite IH by done. cbn [EventLoop.outcome].
  by destruct (decide (i = j)).
Qed.

(** The outcomes tagged with their positions come back in that order. *)
Lemma omap_outcome_zip {B} (bs : list B) (k : nat) :
  omap (fun j => EventLoop.outcome j (zip (seq k (length bs)) bs)) (seq k (length bs)) = bs.
Proof.
  revert k. induction bs as [|b bs IH]; intros k; [done|].
  cbn [length seq zip zip_with omap list_omap].
  rewrite omap_outcome_skip by (rewrite elem_of_seq; lia).
  rewrite IH. cbn [EventLoop.outcome]. by destruct (decide (k = k)).
Qed.

Lemma map_zip_snd {A B C} (f : B -> C) (l : list A) (xs : list B) :
  (length xs <= length l)%nat -> map (fun p => f p.2) (zip l xs) = map f xs.
Proof.
  revert l. induction xs as [|x xs IH]; intros [|a l] Hlen; simpl in *; try done; [lia|].
  rewrite IH by lia. done.
Qed.

Section InOrder.
Context `{Runtime}.
Import FastapiApp FreestyleRequest.

(** With the schedule that always takes the first pending task the tasks
    run in the order of the list. *)
Lemma run_pending_in_order {A B} (task : A -> World -> B * World) (xs : list A) :
  forall (k : nat) (w : World),
  EventLoop.run_pending task (length xs) (zip (seq k (length xs)) xs) [] w
  = let '(bs, w') := gather task xs w in (zip (seq k (length xs)) bs, w').
Proof.
  induction xs as [|x xs IH]; intros k w; [done|].
  cbn [length seq zip zip_with EventLoop.run_pending hd tl gather].
  rewrite Nat.Div0.mod_0_l. cbn [lookup list_lookup delete list_delete].
  destruct (task x w) as [b w1]. rewrite IH.
  by destruct (gather task xs w1) as [bs w2].
Qed.

Lemma gather_in_order {A B} (task : A -> World -> B * World) (xs : list A) (w : World) :
  EventLoop.gather [] task xs w = gather task xs w.
Proof.
  unfold EventLoop.gather. rewrite run_pending_in_order.
  pose proof (gather_length task xs w) as Hlen.
  destruct (gather task xs w) as [bs w']. simpl in Hlen.
  rewrite <- Hlen. by rewrite omap_outcome_zip.
Qed.

Lemma in_list_order (request : FreestyleRequest.t) (w : World) :
  EventLoop.process_rows_freestyle (fun _ => []) request w
  = process_rows_freestyle request w.
Proof.
  unfold EventLoop.process_rows_freestyle, process_rows_freestyle.
  destruct (py_range _ _ _) as [starts|e]; [|done].
  assert (forall acc,
            fold_left (EventLoop.batch_round (fun _ => []) request (data request)) starts acc
            = fold_left (batch_round request (data request)) starts acc) as ->; [|done].
  induction starts as [|i starts IH]; intros [results w1]; [done|].
  simpl. rewrite gather_in_order. apply IH.
Qed.

End InOrder.

Section Traced.
Context (R : Runtime).
Import FastapiApp FreestyleRequest.

(** A row sends exactly its prompt to the model. *)
Lemma run_row_log (request : FreestyleRequest.t) (row_key : pystr) (row_values : list json)
    (w : @World R) (log : list pystr) :
  (@run_row (traced R) request row_key row_values (w, log)).2
  = ((@run_row R request row_key row_values w).2, log ++ [@row_prompt R request row_values]).
Proof.
  unfold run_row, try_none, mbind, io_mbind, io_bind. simpl.
  fold (@row_prompt R request row_values).
  destruct (@generate_content R _ w) as [[text|e] w']; simpl; [|done].
  destruct (extract _ text); done.
Qed.

Lemma gather_row_log (request : FreestyleRequest.t) (rows : list (pystr * list json))
    (w : @World R) (log : list pystr) :
  (@gather (traced R) _ _ (fun kv => @run_row (traced R) request kv.1 kv.2) rows (w, log)).2.2
  = log ++ map (fun kv => @row_prompt R request kv.2) rows.
Proof.
  revert w log. induction rows as [|[k v] rows IH]; intros w log; simpl.
  - by rewrite app_nil_r.
  - pose proof (run_row_log request k v w log) as Hrow.
    destruct (@run_row (traced R) request k v (w, log)) as [out [w1 log1]].
    simpl in Hrow. injection Hrow as _ ->.
    specialize (IH w1 (log ++ [@row_prompt R request v])).
    destruct (@gather (traced R) _ _ _ rows _) as [outs w2]. simpl in *.
    by rewrite IH, <- app_assoc.
Qed.

(** A task run by the traced loop logs its prompt and nothing else. *)
Lemma run_pending_log (request : FreestyleRequest.t) (n : nat) :
  forall (pending : list (nat * (pystr * list json))) (s : EventLoop.schedule)
         (w : @World R) (log : list pystr),
  length pending = n ->
  exists g,
    (@EventLoop.run_pending (traced R) _ _
       (fun kv => @run_row (traced R) request kv.1 kv.2) n pending s (w, log)).2.2
    = log ++ g
    /\ g ≡ₚ map (fun p => @row_prompt R request p.2.2) pending.
Proof.
  induction n as [|n IH]; intros pending s w log Hlen.
  - exists []. destruct pending; [|done]. by rewrite app_nil_r.
  - simpl.
    assert (hd 0 s `mod` length pending < length pending)%nat as Hc
      by (apply Nat.mod_upper_bound; lia).
    set (c := (hd 0 s `mod` length pending)%nat) in *.
    destruct (lookup_lt_is_Some_2 pending c Hc) as [[i [k v]] Hp].
    rewrite Hp. cbn [fst snd].
    pose proof (run_row_log request k v w log) as Hrow.
    destruct (@run_row (traced R) request k v (w, log)) as [out [w1 log1]].
    simpl in Hrow. injection Hrow as _ ->.
    destruct (IH (delete c pending) (tl s) w1 (log ++ [@row_prompt R request v]))
      as (g & Hg & Hperm).
    { rewrite length_delete by done. lia. }
    destruct (@EventLoop.run_pending (traced R) _ _ _ n _ _ _) as [outs [w2 log2]].
    simpl in *. exists (@row_prompt R request v :: g). split.
    + by rewrite Hg, <- app_assoc.
    + rewrite (delete_Permutation pending c (i, (k, v)) Hp). simpl. by rewrite Hperm.
Qed.

(** One [gather] of the traced loop: the prompts of the rows, in the order
    the schedule picks. *)
Lemma scheduled_gather_log (request : FreestyleRequest.t) (s : EventLoop.schedule)
    (rows : list (pystr * list json)) (w : @World R) (log : list pystr) :
  exists g,
    (@EventLoop.gather (traced R) _ _ s
       (fun kv => @run_row (traced R) request kv.1 kv.2) rows (w, log)).2.2
    = log ++ g
    /\ g ≡ₚ map (fun kv => @row_prompt R request kv.2) rows.
Proof.
  unfold EventLoop.gather.
  destruct (run_pending_log request (length rows) (zip (seq 0 (length rows)) rows) s w log)
    as (g & Hg & Hperm).
  { rewrite length_zip, length_seq. lia. }
  destruct (@EventLoop.run_pending (traced R) _ _ _ _ _ _ _) as [outs [w' log']].
  simpl in *. exists g. split; [done|]. rewrite Hperm.
  by rewrite (map_zip_snd (fun kv => @row_prompt R request kv.2))
    by (rewrite length_seq; lia).
Qed.

(** The rounds of the traced loop, from round [k] on. *)
Lemma scheduled_rounds_log (sched : Z -> EventLoop.schedule) (request : FreestyleRequest.t)
    (items : list (pystr * list json)) (m : nat) :
  (0 < batch_size request)%Z ->
  let size := Z.to_nat (batch_size request) in
  forall (k : nat) (acc : list pydict) (w : @World R) (log : list pystr),
  exists groups,
    (fold_left (@EventLoop.batch_round (traced R) sched request items)
       (map (fun j => (Z.of_nat j * batch_size request)%Z) (seq k m)) (acc, (w, log))).2.2
    = log ++ concat groups
    /\ Forall2 (fun j g =>
                  g ≡ₚ map (fun kv => @row_prompt R request kv.2)
                          (take size (drop (j * size) items)))
         (seq k m) groups.
Proof.
  intros Hpos size. induction m as [|m IH]; intros k acc w log.
  - exists []. simpl. by rewrite app_nil_r.
  - cbn [seq map fold_left]. unfold EventLoop.batch_round at 2.
    rewrite py_slice_nonneg by lia.
    replace (Z.to_nat (_ + batch_size request - _)) with size by lia.
    replace (Z.to_nat (Z.of_nat k * batch_size request)) with (k * size)%nat by lia.
    destruct (scheduled_gather_log request (sched (Z.of_nat k * batch_size request)%Z)
                (take size (drop (k * size) items)) w log) as (g & Hg & Hperm).
    destruct (@EventLoop.gather (traced R) _ _ _ _ _ _) as [outs [w1 log1]].
    simpl in Hg. subst log1.
    destruct (IH (S k) (acc ++ collect outs) w1 (log ++ g)) as (groups & Hlog & Hall).
    exists (g :: groups). split.
    + cbn [concat]. rewrite app_assoc. exact Hlog.
    + by constructor.
Qed.

(** C7: with a positive batch size the calls to the model are made window
    after window, whatever the event loop does inside a round: the log of
    the prompts is made of one group for each window of [batch_size]
    consecutive rows, in the order of the windows, and a group holds the
    prompts of the rows of its window in the order in which the loop ran
    them.  So no row of a window is sent before every row of the window
    before it has been.  The windows cover the rows, each is full except
    possibly the last, and 23 rows in batches of 10 give groups of 10, 10
    and 3 calls.  With the schedule that takes the tasks in their order the
    run is that of [process_rows_freestyle]. *)
Theorem slices_in_order (sched : Z -> EventLoop.schedule) (request : FreestyleRequest.t)
    (w : @World R) :
  (0 < batch_size request)%Z ->
  let size := Z.to_nat (batch_size request) in
  let window (j : nat) := take size (drop (j * size) (data request)) in
  let rounds := Z.to_nat ((Z.of_nat (length (data request)) + batch_size request - 1)
                          / batch_size request) in
  (exists groups : list (list pystr),
     (@EventLoop.process_rows_freestyle (traced R) sched request (w, [])).2.2
     = concat groups
     /\ Forall2 (fun j g => g ≡ₚ map (fun kv => @row_prompt R request kv.2) (window j))
          (seq 0 rounds) groups
     /\ (length (data request) = 23%nat -> batch_size request = 10%Z ->
           map length groups = [10; 10; 3]%nat))
  /\ concat (map window (seq 0 rounds)) = data request
  /\ (forall j, (j < rounds)%nat ->
        (0 < length (window j) <= size)%nat
        /\ (S j < rounds -> length (window j) = size)%nat)
  /\ @EventLoop.process_rows_freestyle R (fun _ => []) request w
     = @process_rows_freestyle R request w.
Proof.
  intros Hpos size window rounds.
  destruct (rounds_bounds (length (data request)) (batch_size request) Hpos)
    as [Hcover Hstart].
  fold size rounds in Hcover, Hstart.
  split; [|split; [|split]].
  - unfold EventLoop.process_rows_freestyle.
    rewrite py_range_positive by lia. fold rounds.
    destruct (scheduled_rounds_log sched request (data request) rounds Hpos 0 [] w [])
      as (groups & Hlog & Hall).
    destruct (fold_left _ _ _) as [results [w' log]]. simpl in Hlog. subst log.
    exists groups. split; [done|]. split; [done|].
    intros Hlen Hten. subst rounds size.
    rewrite Hlen, Hten in Hall. simpl in Hall.
    apply Forall2_cons_inv_l in Hall as (g0 & l0 & H0 & Hall & ->).
    apply Forall2_cons_inv_l in Hall as (g1 & l1 & H1 & Hall & ->).
    apply Forall2_cons_inv_l in Hall as (g2 & l2 & H2 & Hall & ->).
    apply Forall2_nil_inv_l in Hall as ->.
    apply Permutation_length in H0, H1, H2.
    rewrite length_map, length_take, length_drop, Hlen in H0, H1, H2.
    simpl. by rewrite H0, H1, H2.
  - unfold window. by rewrite concat_windows, drop_0, take_ge.
  - intros j Hj. unfold window. rewrite length_take, length_drop.
    pose proof (Hstart j Hj). split; [lia|].
    intros Hnext. pose proof (Hstart (S j) Hnext). lia.
  - apply in_list_order.
Qed.

End Traced.

(** ** The order of the results and the [row_key] field *)

Section RowResults.
Context `{Runtime}.
Import FastapiApp FreestyleRequest.

Lemma collect_cons_some (k : pystr) (o : pydict) (outs : list (option (pystr * pydict))) :
  collect (Some (k, o) :: outs) = row_object k o :: collect outs.
Proof. done. Qed.

(** The results keep the order of the outcomes they come from. *)
Lemma collect_keeps_order (outs : list (option (pystr * pydict))) (i j : nat)
    (k1 k2 : pystr) (o1 o2 : pydict) :
  (i < j)%nat ->
  outs !! i = Some (Some (k1, o1)) -> outs !! j = Some (Some (k2, o2)) ->
  exists i' j', (i' < j')%nat
    /\ collect outs !! i' = Some (row_object k1 o1)
    /\ collect outs !! j' = Some (row_object k2 o2).
Proof.
  intros Hij Hi Hj.
  apply list_elem_of_split_length in Hi as (pre & rest & -> & Hpre).
  rewrite lookup_app_r in Hj by lia.
  replace (j - length pre)%nat with (S (j - length pre - 1)) in Hj by lia.
  simpl in Hj.
  apply list_elem_of_split_length in Hj as (mid & post & -> & Hmid).
  rewrite collect_app, collect_cons_some, collect_app, collect_cons_some.
  exists (length (collect pre)), (length (collect pre) + S (length (collect mid)))%nat.
  split; [lia|]. split.
  - by rewrite lookup_app_r, Nat.sub_diag by lia.
  - rewrite lookup_app_r by lia.
    replace (_ + _ - _)%nat with (S (length (collect mid))) by lia. simpl.
    by rewrite lookup_app_r, Nat.sub_diag by lia.
Qed.

(** C8: the results of row mode follow the order of the rows.  [outs] are the
    outcomes of the row tasks in the order of the rows; when the rows at
    positions [i < j] both yield an object, the result object of the first
    stands before the result object of the second. *)
Theorem results_in_row_order (request : FreestyleRequest.t) (w : World) (i j : nat)
    (k1 k2 : pystr) (v1 v2 : list json) (o1 o2 : pydict) :
  (0 < batch_size request)%Z -> (i < j)%nat ->
  data request !! i = Some (k1, v1) -> data request !! j = Some (k2, v2) ->
  let outs := (gather (fun kv => run_row request kv.1 kv.2) (data request) w).1 in
  outs !! i = Some (Some (k1, o1)) -> outs !! j = Some (Some (k2, o2)) ->
  exists resp w' i' j',
    process_rows_freestyle request w = (Ok resp, w')
    /\ (i' < j')%nat
    /\ results resp !! i' = Some (row_object k1 o1)
    /\ results resp !! j' = Some (row_object k2 o2).
Proof.
  intros Hpos Hij _ _ outs Hi Hj.
  rewrite process_rows_one_pass by done.
  subst outs. destruct (gather _ _ w) as [outs w']. simpl in *.
  destruct (collect_keeps_order outs i j k1 k2 o1 o2) as (i' & j' & ? & ? & ?); try done.
  by eexists _, w', i', j'.
Qed.

(** A row task answers with the key it was given. *)
Lemma run_row_key (request : FreestyleRequest.t) (row_key k : pystr) (row_values : list json)
    (o : pydict) (w : World) :
  (run_row request row_key row_values w).1 = Some (k, o) -> k = row_key.
Proof.
  unfold run_row, try_none, mbind, io_mbind, io_bind.
  destruct (generate_content _ w) as [[text|e] w']; simpl; [|done].
  destruct (extract _ text); simpl; [|done]. by intros [= <- _].
Qed.

End RowResults.

Lemma dict_get_set_ne (k k' : pystr) (v : json) (d : pydict) :
  k <> k' -> Dict.get k (Dict.set k' v d) = Dict.get k d.
Proof.
  intros Hne. induction d as [|[k0 v0] d IH]; simpl.
  - by destruct (decide _).
  - destruct (decide (k0 = k')) as [->|]; simpl.
    + by destruct (decide (k' = k)); [congruence|].
    + by rewrite IH.
Qed.

Lemma dict_get_set_eq (k : pystr) (v : json) (d : pydict) :
  Dict.get k (Dict.set k v d) = Some v.
Proof.
  induction d as [|[k0 v0] d IH]; simpl.
  - by destruct (decide _).
  - destruct (decide (k0 = k)) as [->|]; simpl.
    + by destruct (decide _).
    + by destruct (decide _).
Qed.



(** ** Scores *)

(** The clamp never raises and lands in [10, 100]. *)
Lemma clamp_score_range (x : pynum) :
  exists z, clamp_score x = Ok z /\ (10 <= z <= 100)%Z.
Proof.
  unfold clamp_score, max_int_num, min_int_num, num_gt_int, num_lt_int.
  destruct x as [a|b|[m e|[]|]]; simpl.
  - destruct (Z.compare_spec a 100); simpl;
      try (eexists; split; [reflexivity|lia]).
    destruct (Z.compare_spec a 10); simpl; eexists; (split; [reflexivity|lia]).
  - destruct b; simpl; eexists; (split; [reflexivity|lia]).
  - destruct (Z.leb_spec 0 e) as [He|He].
    + destruct (Z.compare_spec (m * 2 ^ e) 100) as [?|Hlt|?]; simpl;
        try (eexists; split; [reflexivity|lia]).
      destruct (Z.leb_spec 0 e); [|lia].
      destruct (Z.compare_spec (m * 2 ^ e) 10); simpl;
        try (eexists; split; [reflexivity|lia]).
      destruct (Z.leb_spec 0 e); [|lia]. eexists; split; [reflexivity|lia].
    + assert (0 < 2 ^ (- e))%Z as Hp by (apply Z.pow_pos_nonneg; lia).
      destruct (Z.compare_spec m (100 * 2 ^ (- e))) as [?|Hlt|?]; simpl;
        try (eexists; split; [reflexivity|lia]).
      destruct (Z.leb_spec 0 e); [lia|].
      destruct (Z.compare_spec m (10 * 2 ^ (- e))) as [?|?|Hgt]; simpl;
        try (eexists; split; [reflexivity|lia]).
      destruct (Z.leb_spec 0 e); [lia|].
      eexists; split; [reflexivity|].
      rewrite Z.quot_div_nonneg by lia. split.
      * apply Z.div_le_lower_bound; lia.
      * assert (m / 2 ^ (- e) < 100)%Z by (apply Z.div_lt_upper_bound; lia). lia.
  - eexists; split; [reflexivity|lia].
  - eexists; split; [reflexivity|lia].
  - eexists; split; [reflexivity|lia].
Qed.


Ltac unfold_io :=
  unfold mbind, io_mbind, io_bind, mret, io_mret, io_ret, lift, raise, total, try_none in *.

Lemma score_at_least_clamped (t : Z) (o : pydict) :
  (0 < t)%Z -> clamped o -> score_at_least t o = Ok true ->
  exists z, has_score o z /\ (t <= z <= 100)%Z /\ (10 <= z)%Z.
Proof.
  intros Ht Hc. unfold score_at_least, py_ge_int, Dict.get_default, has_score.
  destruct (Dict.get RelevanceScore o) as [v|] eqn:Hget.
  - destruct (as_number v) as [x|] eqn:Hnum; [|done].
    destruct (Hc v x) as (z & -> & Hz); [done..|].
    simpl in Hnum. injection Hnum as <-.
    unfold num_ge_int. simpl. intros Hge. exists z. split; [done|].
    destruct (Z.compare_spec z t); simplify_eq.
    all: lia.
  - simpl. unfold num_ge_int. destruct t; simpl; (done || lia).
Qed.

Lemma score_below_clamped (t : Z) (o : pydict) (z : Z) :
  has_score o z -> score_at_least t o = Ok false -> (z < t)%Z.
Proof.
  unfold score_at_least, py_ge_int, Dict.get_default, has_score. intros ->.
  unfold num_ge_int. simpl. destruct (Z.compare_spec z t); intros; simplify_eq; lia.
Qed.

(** What the comprehension keeps and what it leaves. *)
Lemma filter_at_least_spec (t : Z) (candidates rs : list pydict) :
  filter_at_least t candidates = Ok rs ->
  rs `sublist_of` candidates
  /\ Forall (fun o => score_at_least t o = Ok true) rs
  /\ (rs = [] -> Forall (fun o => score_at_least t o = Ok false) candidates).
Proof.
  revert rs. induction candidates as [|o cands IH]; intros rs; simpl.
  - intros [= <-]. by repeat split.
  - unfold mbind, result_mbind, result_bind.
    destruct (score_at_least t o) as [keep|e] eqn:Hkeep; [|done].
    destruct (filter_at_least t cands) as [kept|e]; [|done].
    destruct (IH kept eq_refl) as (Hsub & Hall & Hnone).
    intros [= <-]. destruct keep.
    + repeat split; [by constructor|by constructor|done].
    + repeat split; [by constructor|done|].
      intros ->. constructor; auto.
Qed.

Lemma results_raw_length (outs : list (option pydict)) :
  (length (FastapiApp.results_raw outs) <= length outs)%nat.
Proof.
  unfold FastapiApp.results_raw.
  induction outs as [|[[|kv d]|] outs IH]; cbn in *; lia.
Qed.

Lemma results_raw_Forall (P : pydict -> Prop) (outs : list (option pydict)) :
  Forall (fun out => forall o, out = Some o -> P o) outs ->
  Forall P (FastapiApp.results_raw outs).
Proof.
  unfold FastapiApp.results_raw.
  induction 1 as [|[[|kv d]|] outs Hout _ IH]; cbn in *; try done.
  constructor; auto.
Qed.

Section Scoring.
Context `{Runtime}.

Lemma gather_Forall {A B} (task : A -> World -> B * World) (P : B -> Prop)
    (xs : list A) (w w' : World) (outs : list B) :
  (forall x w1 b w2, task x w1 = (b, w2) -> P b) ->
  gather task xs w = (outs, w') -> Forall P outs.
Proof.
  intros Htask. revert w outs.
  induction xs as [|x xs IH]; intros w outs; simpl.
  - by intros [= <- _].
  - destruct (task x w) as [b w1] eqn:Hb.
    destruct (gather task xs w1) as [bs w2] eqn:Hbs.
    intros [= <- <-]. constructor; eauto.
Qed.

Lemma gather_outcomes {A B} (task : A -> World -> B * World) (xs : list A) (w w' : World)
    (outs : list B) :
  gather task xs w = (outs, w') -> length outs = length xs.
Proof. intros Hg. pose proof (gather_length task xs w) as Hl. by rewrite Hg in Hl. Qed.

(** The engine's scoring task leaves every numeric score clamped. *)
Lemma score_clamped (tpl kw : pystr) (w w' : World) (o : pydict) :
  FastapiApp.score tpl kw w = (Some o, w') -> clamped o.
Proof.
  unfold FastapiApp.score. unfold_io.
  destruct (generate_content _ w) as [[text|e] w1]; simpl; [|done].
  destruct (json_loads _) as [[| | | | | |obj]|]; simpl; try done.
  destruct (as_number _) as [x|] eqn:Hnum; simpl.
  - destruct (clamp_score_range x) as (z & -> & Hz). simpl.
    intros [= <- _] v y. rewrite dict_get_set_eq. intros [= <-] _. by exists z.
  - intros [= <- _] v y Hget. unfold Dict.get_default in Hnum. rewrite Hget in Hnum.
    congruence.
Qed.

(** So does the scoring task of the front service. *)
Lemma score_kw_clamped (tpl kw : pystr) (w w' : World) (o : pydict) :
  FrontandUnified.score_kw tpl kw w = (Some o, w') -> clamped o.
Proof.
  unfold FrontandUnified.score_kw. unfold_io.
  destruct (generate_content _ w) as [[text|e] w1]; simpl; [|done].
  destruct (json_loads _) as [[| | | | | |obj]|]; simpl; try done.
  destruct (option_bind _ _ as_number _) as [x|] eqn:Hnum.
  - destruct (clamp_score_range x) as (z & -> & Hz). simpl.
    intros [= <- _] v y. rewrite dict_get_set_eq. intros [= <-] _. by exists z.
  - intros [= <- _] v y Hget. rewrite Hget in Hnum. simpl in Hnum. congruence.
Qed.

End Scoring.

(** ** Score mode: the engine *)

Lemma placeholder_score (kw : pystr) : has_score (FastapiApp.placeholder kw) 90.
Proof. reflexivity. Qed.

Lemma score_within_weaken (lo hi lo' hi' : Z) (o : pydict) :
  (lo' <= lo)%Z -> (hi <= hi')%Z -> score_within lo hi o -> score_within lo' hi' o.
Proof. intros ? ? (z & ? & ?). exists z. split; [done|lia]. Qed.

(** What a threshold keeps, when every numeric score is clamped. *)
Lemma filter_at_least_scores (t : Z) (candidates rs : list pydict) :
  (0 < t)%Z -> Forall clamped candidates ->
  filter_at_least t candidates = Ok rs ->
  (length rs <= length candidates)%nat /\ Forall (score_within t 100) rs.
Proof.
  intros Ht Hc Hf. apply filter_at_least_spec in Hf as (Hsub & Hall & _).
  split; [by apply sublist_length|].
  apply Forall_forall. intros o Ho.
  destruct (score_at_least_clamped t o) as (z & ? & ? & ?); [done| | |by exists z].
  - eapply Forall_forall; [exact Hc|]. by eapply elem_of_sublist.
  - by eapply Forall_forall in Hall.
Qed.

(** When nothing reaches 80, what reaches 50 lies below 80. *)
Lemma filter_relaxed_scores (candidates rs : list pydict) :
  Forall clamped candidates ->
  filter_at_least 80 candidates = Ok [] ->
  filter_at_least 50 candidates = Ok rs ->
  Forall (score_within 50 79) rs.
Proof.
  intros Hc H80 H50.
  apply filter_at_least_spec in H80 as (_ & _ & Hnone). specialize (Hnone eq_refl).
  apply filter_at_least_spec in H50 as (Hsub & Hall & _).
  apply Forall_forall. intros o Ho.
  assert (o ∈ candidates) as Hin by (by eapply elem_of_sublist).
  destruct (score_at_least_clamped 50 o) as (z & Hz & ? & ?); [done| | |].
  - by eapply Forall_forall in Hc.
  - by eapply Forall_forall in Hall.
  - exists z. split; [done|].
    assert (z < 80)%Z; [|lia]. eapply score_below_clamped; [done|].
    by eapply Forall_forall in Hnone.
Qed.

Section Engine.
Context `{Runtime}.
Import FastapiApp KeywordKombatRequest.

Lemma research_eq (req : KeywordKombatRequest.t) (w : World) :
  research req w
  = match generate_content (research_prompt req) w with
    | (Ok r, w1) => (Ok (company_of req r), w1)
    | (Raise e, w1) => (Raise e, w1)
    end.
Proof.
  unfold research. unfold_io.
  by destruct (generate_content _ w) as [[r|e] w1].
Qed.

Lemma score_stage_eq (req : KeywordKombatRequest.t) (company : json) (w : World) :
  score_stage req company w
  = match keyword_template company with
    | Raise e => (Raise e, w)
    | Ok tpl =>
        let '(outs, w') := gather (score tpl) (scored_keywords req) w in
        (select_results (test_mode req) (scored_keywords req) outs, w')
    end.
Proof.
  unfold score_stage. unfold_io.
  destruct (keyword_template company) as [tpl|e]; [|done].
  by destruct (gather _ _ w) as [outs w'].
Qed.

Lemma process_keyword_kombat_eq (req : KeywordKombatRequest.t) (w : World) :
  process_keyword_kombat req w
  = match research req w with
    | (Ok company, w1) => score_stage req company w1
    | (Raise e, w1) => (Raise e, w1)
    end.
Proof. unfold process_keyword_kombat. unfold_io. done. Qed.

(** A run that returns went through the scoring tasks and the selection. *)
Lemma process_keyword_kombat_returns (req : KeywordKombatRequest.t) (w w' : World)
    (rs : list pydict) :
  process_keyword_kombat req w = (Ok rs, w') ->
  exists tpl w1 outs,
    gather (score tpl) (scored_keywords req) w1 = (outs, w')
    /\ select_results (test_mode req) (scored_keywords req) outs = Ok rs.
Proof.
  rewrite process_keyword_kombat_eq.
  destruct (research req w) as [[company|e] w1]; [|done].
  rewrite score_stage_eq.
  destruct (keyword_template company) as [tpl|e]; [|done].
  destruct (gather _ _ w1) as [outs w2] eqn:Hg.
  intros [= Hsel <-]. by exists tpl, w1, outs.
Qed.

Lemma outcomes_clamped (tpl : pystr) (kws : list pystr) (w w' : World)
    (outs : list (option pydict)) :
  gather (score tpl) kws w = (outs, w') -> Forall clamped (results_raw outs).
Proof.
  intros Hg. apply results_raw_Forall.
  eapply gather_Forall; [|exact Hg].
  intros kw w1 out w2 Hs o ->. by eapply score_clamped.
Qed.

Lemma scored_keywords_test (req : KeywordKombatRequest.t) :
  test_mode req = true ->
  scored_keywords req = take 3 (keywords req)
  /\ length (scored_keywords req) = Nat.min 3 (length (keywords req)).
Proof.
  intros Ht. unfold scored_keywords. rewrite Ht. split; [done|].
  apply length_take.
Qed.

(** The engine in test mode. *)
Lemma engine_test_mode (req : KeywordKombatRequest.t) (w w' : World) (rs : list pydict) :
  test_mode req = true ->
  process_keyword_kombat req w = (Ok rs, w') ->
  (length rs <= Nat.min 3 (length (keywords req)))%nat
  /\ Forall (score_within 10 100) rs
  /\ (rs = map placeholder (take 3 (keywords req))
         /\ length rs = Nat.min 3 (length (keywords req))
      \/ rs <> [] /\ Forall (score_within 80 100) rs).
Proof.
  intros Ht Hrun.
  apply process_keyword_kombat_returns in Hrun as (tpl & w1 & outs & Hg & Hsel).
  destruct (scored_keywords_test req Ht) as [Hkws Hlen].
  pose proof (outcomes_clamped _ _ _ _ _ Hg) as Hc.
  pose proof (gather_outcomes _ _ _ _ _ Hg) as Houts.
  pose proof (results_raw_length outs) as Hraw.
  unfold select_results in Hsel. rewrite Ht in Hsel.
  unfold mbind, result_mbind, result_bind in Hsel.
  destruct (filter_at_least 80 (results_raw outs)) as [high|e] eqn:Hhigh; [|done].
  destruct (filter_at_least_scores 80 _ _ ltac:(lia) Hc Hhigh) as [Hle Hall].
  destruct high as [|o high].
  - injection Hsel as <-. rewrite Hkws, length_map, length_take.
    split; [lia|]. split; [|by left].
    apply Forall_forall. intros o Ho.
    apply list_elem_of_In, in_map_iff in Ho as (kw & <- & _).
    exists 90%Z. split; [apply placeholder_score|lia].
  - injection Hsel as <-. split; [lia|].
    split; [|by right].
    eapply Forall_impl; [exact Hall|]. intros.
    eapply score_within_weaken; [| |eassumption]; lia.
Qed.

(** The engine in production. *)
Lemma engine_production (req : KeywordKombatRequest.t) (w w' : World) (rs : list pydict) :
  test_mode req = false ->
  process_keyword_kombat req w = (Ok rs, w') ->
  exists tpl w1 outs high,
    gather (score tpl) (keywords req) w1 = (outs, w')
    /\ filter_at_least 80 (results_raw outs) = Ok high
    /\ (high <> [] /\ rs = high /\ Forall (score_within 80 100) rs
        \/ high = [] /\ filter_at_least 50 (results_raw outs) = Ok rs
           /\ Forall (score_within 50 79) rs).
Proof.
  intros Ht Hrun.
  apply process_keyword_kombat_returns in Hrun as (tpl & w1 & outs & Hg & Hsel).
  pose proof (outcomes_clamped _ _ _ _ _ Hg) as Hc.
  unfold scored_keywords in Hg. rewrite Ht in Hg, Hsel.
  unfold select_results in Hsel.
  unfold mbind, result_mbind, result_bind in Hsel.
  destruct (filter_at_least 80 (results_raw outs)) as [high|e] eqn:Hhigh; [|done].
  exists tpl, w1, outs, high. split; [done|]. split; [done|].
  destruct (filter_at_least_scores 80 _ _ ltac:(lia) Hc Hhigh) as [_ Hall].
  destruct high as [|o high].
  - right. split; [done|]. split; [done|]. by eapply filter_relaxed_scores.
  - left. injection Hsel as <-. done.
Qed.

End Engine.

(** ** Score mode: the front service *)

Lemma keep_high_scores (out : list (option pydict)) (rs : list pydict) :
  Forall (fun item => forall o, item = Some o -> clamped o) out ->
  FrontandUnified.keep_high out = Ok rs ->
  (length rs <= length out)%nat /\ Forall (score_within 80 100) rs.
Proof.
  intros Hc. revert rs. induction Hc as [|item out Hitem _ IH]; intros rs; simpl.
  - by intros [= <-].
  - unfold mbind, result_mbind, result_bind.
    destruct (if truthy item then _ else _) as [keep|e] eqn:Hkeep; [|done].
    destruct (FrontandUnified.keep_high out) as [kept|e]; [|done].
    destruct (IH kept eq_refl) as [Hlen Hall].
    intros [= <-]. destruct keep; simpl; [|split; [lia|done]].
    split; [lia|]. constructor; [|done].
    destruct item as [o|]; [|done]. simpl in *.
    destruct o as [|kv o]; [done|].
    destruct (score_at_least_clamped 80 (kv :: o)) as (z & ? & ? & ?);
      [lia|by apply Hitem|done|].
    exists z. split; [done|lia].
Qed.

Section Front.
Context `{Runtime}.
Import FrontandUnified.

Lemma front_research_eq (company_url : pystr) (search : bool) (w : World) :
  research company_url search w
  = match generate_content (research_prompt company_url search) w with
    | (Ok r, w1) => (Ok (company_of company_url r), w1)
    | (Raise e, w1) => (Raise e, w1)
    end.
Proof.
  unfold research. unfold_io.
  by destruct (generate_content _ w) as [[r|e] w1].
Qed.

Lemma front_score_stage_eq (keywords : list pystr) (test : bool) (company : json) (w : World) :
  score_stage keywords test company w
  = match keyword_template company with
    | Raise e => (Raise e, w)
    | Ok tpl =>
        let '(out, w') := gather (score_kw tpl) (scored_keywords keywords test) w in
        (keep_high out, w')
    end.
Proof.
  unfold score_stage. unfold_io.
  destruct (keyword_template company) as [tpl|e]; [|done].
  by destruct (gather _ _ w) as [out w'].
Qed.

Lemma front_process_eq (keywords : list pystr) (company_url : pystr) (search test : bool)
    (w : World) :
  _process_keyword_kombat keywords company_url search test w
  = match research company_url search w with
    | (Ok company, w1) => score_stage keywords test company w1
    | (Raise e, w1) => (Raise e, w1)
    end.
Proof. unfold _process_keyword_kombat. unfold_io. done. Qed.

(** The front service returns only what reached 80, in either mode. *)
Lemma front_returns_high (keywords : list pystr) (company_url : pystr) (search test : bool)
    (w w' : World) (rs : list pydict) :
  _process_keyword_kombat keywords company_url search test w = (Ok rs, w') ->
  (length rs <= length (scored_keywords keywords test))%nat
  /\ Forall (score_within 80 100) rs.
Proof.
  rewrite front_process_eq.
  destruct (research company_url search w) as [[company|e] w1]; [|done].
  rewrite front_score_stage_eq.
  destruct (keyword_template company) as [tpl|e]; [|done].
  destruct (gather _ _ w1) as [out w2] eqn:Hg.
  intros [= Hkeep <-].
  rewrite <- (gather_outcomes _ _ _ _ _ Hg).
  apply keep_high_scores; [|done].
  eapply gather_Forall; [|exact Hg].
  intros kw wa item wb Hs o ->. by eapply score_kw_clamped.
Qed.

End Front.

(** ** Test mode *)

Section TestMode.
Context `{Runtime}.
Import KeywordKombatRequest.

(** C1, as it holds: in test mode a run that returns gives at most
    [min(3, len(keywords))] items, each with an integer score in [10, 100].
    In the engine the first three keywords are scored; when none of the
    scored items reaches 80 the result is one placeholder of score 90 for
    each of these keywords, exactly [min(3, len(keywords))] items; otherwise
    it is the list of the scored items that reached 80, which can be
    shorter.  The bounds hold of [_process_keyword_kombat] of the front
    service as well, whose scores are in [80, 100]. *)
Theorem test_mode_results (req : KeywordKombatRequest.t) (w w' : World) (rs : list pydict) :
  test_mode req = true ->
  FastapiApp.process_keyword_kombat req w = (Ok rs, w') ->
  (length rs <= Nat.min 3 (length (keywords req)))%nat
  /\ Forall (score_within 10 100) rs
  /\ (exists tpl w1 outs high,
        gather (FastapiApp.score tpl) (take 3 (keywords req)) w1 = (outs, w')
        /\ filter_at_least 80 (FastapiApp.results_raw outs) = Ok high
        /\ (high = []
            /\ rs = map FastapiApp.placeholder (take 3 (keywords req))
            /\ length rs = Nat.min 3 (length (keywords req))
            \/ high <> [] /\ rs = high /\ Forall (score_within 80 100) rs))
  /\ (forall company_url search v v' fs,
        FrontandUnified._process_keyword_kombat (keywords req) company_url search true v
        = (Ok fs, v') ->
        (length fs <= Nat.min 3 (length (keywords req)))%nat
        /\ Forall (score_within 80 100) fs).
Proof.
  intros Ht Hrun.
  destruct (engine_test_mode req w w' rs Ht Hrun) as (Hlen & Hall & _).
  split; [done|]. split; [done|].
  split;
    [|intros company_url search v v' fs Hfront;
      apply front_returns_high in Hfront as [Hflen Hfall];
      unfold FrontandUnified.scored_keywords in Hflen;
      by rewrite length_take in Hflen].
  apply process_keyword_kombat_returns in Hrun as (tpl & w1 & outs & Hg & Hsel).
  destruct (scored_keywords_test req Ht) as [Hkws _]. rewrite Hkws in Hg, Hsel.
  pose proof (outcomes_clamped _ _ _ _ _ Hg) as Hc.
  unfold FastapiApp.select_results in Hsel. rewrite Ht in Hsel.
  unfold mbind, result_mbind, result_bind in Hsel.
  destruct (filter_at_least 80 (FastapiApp.results_raw outs)) as [high|e] eqn:Hhigh; [|done].
  destruct (filter_at_least_scores 80 _ _ ltac:(lia) Hc Hhigh) as [_ Hhall].
  exists tpl, w1, outs, high. split; [done|]. split; [done|].
  destruct high as [|o high].
  - left. injection Hsel as <-. split; [done|]. split; [done|].
    rewrite length_map, length_take. lia.
  - right. injection Hsel as <-. done.
Qed.

End TestMode.

(** C1 fails as stated: two keywords in test mode, the first scored 95 and
    the second 20; the engine returns the one item that reached 80, not
    [min(3, 2) = 2] items. *)
Lemma test_mode_length_counterexample :
  let req := Examples.kombat [str "shoes"; str "boots"] true in
  let w := Stub.says [Examples.unparseable; Examples.scored 95; Examples.scored 20] in
  exists rs w',
    KeywordKombatRequest.test_mode req = true
    /\ FastapiApp.process_keyword_kombat req w = (Ok rs, w')
    /\ length rs = 1%nat
    /\ Nat.min 3 (length (KeywordKombatRequest.keywords req)) = 2%nat.
Proof. eexists _, _. repeat split; vm_compute; reflexivity. Qed.

Lemma test_mode_results_witness :
  let req := Examples.kombat [str "shoes"; str "boots"] true in
  let rs := [[(RelevanceScore, JInt 95)]] in
  (length rs <= Nat.min 3 (length (KeywordKombatRequest.keywords req)))%nat
  /\ Forall (score_within 10 100) rs
  /\ exists tpl w1 outs high,
       gather (FastapiApp.score tpl) (take 3 (KeywordKombatRequest.keywords req)) w1
       = (outs, Stub.says [])
       /\ filter_at_least 80 (FastapiApp.results_raw outs) = Ok high
       /\ (high = []
           /\ rs = map FastapiApp.placeholder (take 3 (KeywordKombatRequest.keywords req))
           /\ length rs = Nat.min 3 (length (KeywordKombatRequest.keywords req))
           \/ high <> [] /\ rs = high /\ Forall (score_within 80 100) rs).
Proof.
  destruct (test_mode_results (H := Stub.runtime)
              (Examples.kombat [str "shoes"; str "boots"] true)
              (Stub.says [Examples.unparseable; Examples.scored 95; Examples.scored 20])
              (Stub.says []) [[(RelevanceScore, JInt 95)]])
    as (Hlen & Hall & Hsel & _); [by vm_compute|by vm_compute|].
  split; [exact Hlen|]. split; [exact Hall|]. exact Hsel.
Defined.

(** ** The statements above on concrete requests *)

Lemma batch_size_not_positive_witness :
  FastapiApp.process_unified (Examples.row_body 0) (Stub.says [Examples.summary_ok])
  = (Http 500 (Detail (str "Processing failed: range() arg 3 must not be zero")),
     Stub.says [Examples.summary_ok])
  /\ FastapiApp.process_unified (Examples.row_body (-5)) (Stub.says [Examples.summary_ok])
     = (Http 200 (RowsBody (empty_response (Examples.one_row (-5)))),
        Stub.says [Examples.summary_ok]).
Proof.
  split.
  - apply (batch_size_not_positive (H := Stub.runtime) (Examples.row_body 0)
             (str "freestyle") (Examples.one_row 0) (Stub.says [Examples.summary_ok]));
      [reflexivity|discriminate|reflexivity|vm_compute; discriminate].
  - apply (batch_size_not_positive (H := Stub.runtime) (Examples.row_body (-5))
             (str "freestyle") (Examples.one_row (-5)) (Stub.says [Examples.summary_ok]));
      [reflexivity|discriminate|reflexivity|vm_compute; discriminate].
Defined.

Lemma slices_in_order_witness :
  let request := Examples.rows 23 10 in
  let sched (i : Z) : EventLoop.schedule := [9; 0; 4; 7; 1]%nat in
  let prompts (j : nat) :=
    map (fun kv => FastapiApp.row_prompt (H := Stub.runtime) request kv.2)
      (take 10 (drop (j * 10) (FreestyleRequest.data request))) in
  (0 < FreestyleRequest.batch_size request)%Z
  /\ exists g0 g1 g2,
       (EventLoop.process_rows_freestyle (H := traced Stub.runtime) sched request
          (Stub.says [], [])).2.2 = g0 ++ g1 ++ g2
       /\ g0 ≡ₚ prompts 0%nat /\ g1 ≡ₚ prompts 1%nat /\ g2 ≡ₚ prompts 2%nat
       /\ map length [g0; g1; g2] = [10; 10; 3]%nat.
Proof.
  split; [reflexivity|].
  destruct (slices_in_order Stub.runtime (fun _ => [9; 0; 4; 7; 1]%nat)
              (Examples.rows 23 10) (Stub.says []) eq_refl)
    as ((groups & Hlog & Hall & Hlen) & _).
  specialize (Hlen eq_refl eq_refl).
  apply Forall2_cons_inv_l in Hall as (g0 & l0 & H0 & Hall & ->).
  apply Forall2_cons_inv_l in Hall as (g1 & l1 & H1 & Hall & ->).
  apply Forall2_cons_inv_l in Hall as (g2 & l2 & H2 & Hall & ->).
  apply Forall2_nil_inv_l in Hall as ->.
  exists g0, g1, g2. simpl in Hlog. rewrite app_nil_r in Hlog.
  split; [exact Hlog|]. split; [exact H0|]. split; [exact H1|]. split; [exact H2|].
  exact Hlen.
Defined.

(** What the rounds exclude: one [gather] over the 23 rows, under a schedule
    that takes the last pending task first, sends the prompt of row 23
    before any other, and that prompt is not among those of the first
    window. *)
Lemma single_gather_breaks_windows :
  let request := Examples.rows 23 10 in
  let prompt_of (kv : pystr * list json) :=
    FastapiApp.row_prompt (H := Stub.runtime) request kv.2 in
  let log :=
    (EventLoop.gather (H := traced Stub.runtime) [22%nat]
       (fun kv => FastapiApp.run_row (H := traced Stub.runtime) request kv.1 kv.2)
       (FreestyleRequest.data request) (Stub.says [], [])).2.2 in
  head log = Some (prompt_of (str "r23", [JInt 23]))
  /\ prompt_of (str "r23", [JInt 23])
     ∉ map prompt_of (take 10 (FreestyleRequest.data request)).
Proof. split; [by vm_compute|]. by apply (bool_decide_unpack _). Qed.

Lemma results_in_row_order_witness :
  let request := Examples.rows 3 2 in
  let w := Stub.says [Examples.summary_ok; Examples.unparseable; Examples.summary_ok] in
  let summary := [(str "summary", JStr (str "ok"))] in
  exists resp w' i' j',
    FastapiApp.process_rows_freestyle request w = (Ok resp, w')
    /\ (i' < j')%nat
    /\ results resp !! i' = Some (FastapiApp.row_object (str "r1") summary)
    /\ results resp !! j' = Some (FastapiApp.row_object (str "r3") summary).
Proof.
  intros request w summary.
  apply (results_in_row_order (H := Stub.runtime) request w 0 2 (str "r1") (str "r3")
           [JInt 1] [JInt 3] summary summary);
    [reflexivity|lia|reflexivity|reflexivity|vm_compute; reflexivity..].
Defined.

(** ** Production mode *)

(** C2 at the input on which the front service departs from it: one keyword
    whose reply scores 60, [test_mode = false].  No candidate reaches 80, so
    the answer should be the candidates that reach 50; the engine returns the
    item, the front service returns nothing. *)
Theorem front_service_does_not_relax :
  let keywords := [str "shoes"] in
  let w := Stub.says [Examples.unparseable; Examples.scored 60] in
  (FrontandUnified._process_keyword_kombat keywords (str "https://example.com/about")
     false false w).1 = Ok []
  /\ (FastapiApp.process_keyword_kombat (Examples.kombat keywords false) w).1
     = Ok [[(RelevanceScore, JInt 60)]].
Proof. split; vm_compute; reflexivity. Qed.

(** ** A reply with a [row_key] of its own *)

(** C3 at the input on which the code departs from it: the reply to the one
    row [r1] is an object with the field [row_key = "zzz"]; the result takes
    that value, which is no key of the rows. *)
Theorem reply_overwrites_row_key :
  let request := Examples.one_row 10 in
  let w := Stub.says [Examples.reply [(str "row_key", JStr (str "zzz"))]] in
  exists resp w',
    FastapiApp.process_rows_freestyle request w = (Ok resp, w')
    /\ results resp = [[(str "row_key", JStr (str "zzz"))]]
    /\ processed_count resp = 1%nat
    /\ (FreestyleRequest.data request).*1 = [str "r1"].
Proof. eexists _, _. repeat split; vm_compute; reflexivity. Qed.

(** ** Status codes *)

Section Handlers.
Context `{Runtime}.

(** The engine answers a body that its request model rejects with status 500,
    in both modes. *)
Lemma engine_validation_failure (body : pydict) (mode : pystr) (e : exn) (w : World) :
  select_mode body = Ok mode ->
  (if decide (mode = str "keyword-kombat")
   then validate_keyword_kombat body = Raise e
   else validate_freestyle body = Raise e) ->
  FastapiApp.process_unified body w = (FastapiApp.processing_failed e, w).
Proof.
  intros Hmode Hv. unfold FastapiApp.process_unified. rewrite Hmode.
  destruct (decide _); unfold_io; by rewrite Hv.
Qed.

(** The front service answers it with status 400 in row mode only. *)
Lemma front_validation_failure (body : pydict) (mode : pystr) (e : exn) (w : World) :
  select_mode body = Ok mode ->
  (if decide (mode = str "keyword-kombat")
   then validate_keyword_kombat body = Raise e
   else validate_freestyle body = Raise e) ->
  FrontandUnified.process_unified body w
  = (if decide (mode = str "keyword-kombat")
     then Http 500 InternalServerError
     else Http 400 (Detail (str "Invalid freestyle request: " ++ exn_message e)), w).
Proof.
  intros Hmode Hv. unfold FrontandUnified.process_unified. rewrite Hmode.
  destruct (decide _); by rewrite Hv.
Qed.

(** The score branch of the engine's handler. *)
Lemma process_unified_kombat (body : pydict) (w : World) :
  select_mode body = Ok (str "keyword-kombat") ->
  FastapiApp.process_unified body w
  = match validate_keyword_kombat body with
    | Raise e => (FastapiApp.processing_failed e, w)
    | Ok req =>
        match FastapiApp.process_keyword_kombat req w with
        | (Ok rs, w') =>
            (respond (ProcessingBody {| pr_results := rs; items_processed := length rs |}), w')
        | (Raise e, w') => (FastapiApp.processing_failed e, w')
        end
    end.
Proof.
  intros Hmode. unfold FastapiApp.process_unified. rewrite Hmode.
  destruct (decide _) as [_|]; [|done]. unfold_io.
  destruct (validate_keyword_kombat body) as [req|e]; [|done].
  by destruct (FastapiApp.process_keyword_kombat req w) as [[rs|e] w'].
Qed.

End Handlers.

(** C5 at the inputs on which the code departs from it.  A score-mode body
    without [keywords] and [company_url], and a row-mode body without
    [data]: the engine answers both with status 500, the front service
    answers the first with status 500 and only the second with status 400. *)
Theorem validation_failure_status :
  let kombat := [(str "mode", JStr (str "keyword-kombat"))] in
  let freestyle : pydict := [] in
  let w := Stub.says [] in
  (FastapiApp.process_unified kombat w).1
  = Http 500 (Detail (str "Processing failed: keywords: Field required"))
  /\ (FastapiApp.process_unified freestyle w).1
     = Http 500 (Detail (str "Processing failed: data: Field required"))
  /\ (FrontandUnified.process_unified kombat w).1 = Http 500 InternalServerError
  /\ (FrontandUnified.process_unified freestyle w).1
     = Http 400 (Detail (str "Invalid freestyle request: data: Field required")).
Proof. repeat split; vm_compute; reflexivity. Qed.

(** ** A score that is not a number *)

Lemma score_at_least_raises (t : Z) (o : pydict) (e : exn) :
  score_at_least t o = Raise e -> exn_class_of e = TypeError.
Proof.
  unfold score_at_least, py_ge_int.
  destruct (as_number _); [done|]. by intros [= <-].
Qed.

Lemma score_at_least_non_numeric (t : Z) (o : pydict) (v : json) :
  Dict.get RelevanceScore o = Some v -> as_number v = None ->
  exists e, score_at_least t o = Raise e.
Proof.
  intros Hget Hnum. unfold score_at_least, py_ge_int, Dict.get_default.
  rewrite Hget, Hnum. by eexists.
Qed.

(** One candidate whose score is not a number makes the comprehension
    raise. *)
Lemma filter_at_least_raises (t : Z) (candidates : list pydict) (o : pydict) (v : json) :
  o ∈ candidates -> Dict.get RelevanceScore o = Some v -> as_number v = None ->
  exists e, exn_class_of e = TypeError /\ filter_at_least t candidates = Raise e.
Proof.
  intros Hin Hget Hnum. induction Hin as [o cands|o o' cands Hin IH]; simpl.
  - destruct (score_at_least_non_numeric t o v Hget Hnum) as [e He].
    exists e. rewrite He. split; [by eapply score_at_least_raises|done].
  - destruct (IH Hget) as (e & Hclass & He).
    destruct (score_at_least t o') as [keep|e'] eqn:Hkeep; simpl.
    + exists e. by rewrite He.
    + exists e'. split; [by eapply score_at_least_raises|done].
Qed.

Lemma keep_high_raises (out : list (option pydict)) (o : pydict) (v : json) :
  Some o ∈ out -> Dict.get RelevanceScore o = Some v -> as_number v = None ->
  exists e, exn_class_of e = TypeError /\ FrontandUnified.keep_high out = Raise e.
Proof.
  intros Hin Hget Hnum.
  assert (truthy (Some o) = true) as Htruthy by (by destruct o).
  remember (Some o) as item eqn:Hitem.
  induction Hin as [item out|item item' out Hin IH]; simpl.
  - rewrite Htruthy. subst item. simpl.
    destruct (score_at_least_non_numeric 80 o v Hget Hnum) as [e He].
    exists e. rewrite He. split; [by eapply score_at_least_raises|done].
  - destruct (IH Hitem Htruthy) as (e & Hclass & He).
    destruct (if truthy item' then _ else _) as [keep|e'] eqn:Hkeep; simpl.
    + exists e. by rewrite He.
    + exists e'. split; [|done].
      destruct (truthy item'); [by eapply score_at_least_raises|done].
Qed.

Lemma results_raw_elem (outs : list (option pydict)) (o : pydict) :
  Some o ∈ outs -> o <> [] -> o ∈ FastapiApp.results_raw outs.
Proof.
  intros Hin Hne. unfold FastapiApp.results_raw.
  apply list_elem_of_omap. exists (Some o). split; [done|].
  by destruct o.
Qed.

Lemma select_results_raises (test : bool) (kws : list pystr) (outs : list (option pydict))
    (o : pydict) (v : json) :
  Some o ∈ outs -> Dict.get RelevanceScore o = Some v -> as_number v = None ->
  exists e, exn_class_of e = TypeError /\ FastapiApp.select_results test kws outs = Raise e.
Proof.
  intros Hin Hget Hnum.
  destruct (filter_at_least_raises 80 (FastapiApp.results_raw outs) o v)
    as (e & Hclass & He); [|done|done|].
  - apply results_raw_elem; [done|]. by intros ->.
  - exists e. split; [done|]. unfold FastapiApp.select_results. by rewrite He.
Qed.

Section NonNumeric.
Context `{Runtime}.

(** C10: a reply whose [RelevanceScore] is not a number is kept as it is by
    the scoring task (the clamp is skipped); the comparison with 80 then
    raises [TypeError] outside the task, so the whole request fails: the
    engine answers with status 500 and the exception as detail.  The body of
    [_process_keyword_kombat] in the front service raises in the same
    way. *)
Theorem non_numeric_score_fails_request (tpl kw : pystr) (text : option pystr)
    (obj : pydict) (v : json) (w w' : World) :
  generate_content (PyStr.replace (str "{{ keyword }}") kw tpl) w = (Ok text, w') ->
  json_loads (strip_fence (PyStr.strip (text_or_default text))) = Some (JObj obj) ->
  Dict.get RelevanceScore obj = Some v -> as_number v = None ->
  FastapiApp.score tpl kw w = (Some obj, w')
  /\ FrontandUnified.score_kw tpl kw w = (Some obj, w')
  /\ (forall req body company w0 w1 w2 outs,
        select_mode body = Ok (str "keyword-kombat") ->
        validate_keyword_kombat body = Ok req ->
        FastapiApp.research req w0 = (Ok company, w1) ->
        keyword_template company = Ok tpl ->
        gather (FastapiApp.score tpl) (FastapiApp.scored_keywords req) w1 = (outs, w2) ->
        Some obj ∈ outs ->
        exists e, exn_class_of e = TypeError
          /\ FastapiApp.process_keyword_kombat req w0 = (Raise e, w2)
          /\ FastapiApp.process_unified body w0
             = (Http 500 (Detail (str "Processing failed: " ++ exn_message e)), w2))
  /\ (forall keywords company_url search test company w0 w1 w2 outs,
        FrontandUnified.research company_url search w0 = (Ok company, w1) ->
        keyword_template company = Ok tpl ->
        gather (FrontandUnified.score_kw tpl)
          (FrontandUnified.scored_keywords keywords test) w1 = (outs, w2) ->
        Some obj ∈ outs ->
        exists e, exn_class_of e = TypeError
          /\ FrontandUnified._process_keyword_kombat keywords company_url search test w0
             = (Raise e, w2)).
Proof.
  intros Hgen Hloads Hget Hnum. split; [|split; [|split]].
  - unfold FastapiApp.score. unfold_io. rewrite Hgen, Hloads.
    unfold Dict.get_default. by rewrite Hget, Hnum.
  - unfold FrontandUnified.score_kw. unfold_io. rewrite Hgen, Hloads.
    rewrite Hget. simpl. by rewrite Hnum.
  - intros req body company w0 w1 w2 outs Hmode Hvalid Hres Htpl Hg Hin.
    destruct (select_results_raises (KeywordKombatRequest.test_mode req)
                (FastapiApp.scored_keywords req) outs obj v Hin Hget Hnum)
      as (e & Hclass & He).
    assert (FastapiApp.process_keyword_kombat req w0 = (Raise e, w2)) as Hrun.
    { rewrite process_keyword_kombat_eq, Hres, score_stage_eq, Htpl, Hg. by rewrite He. }
    exists e. split; [done|]. split; [done|].
    by rewrite process_unified_kombat, Hvalid, Hrun.
  - intros keywords company_url search test company w0 w1 w2 outs Hres Htpl Hg Hin.
    destruct (keep_high_raises outs obj v Hin Hget Hnum) as (e & Hclass & He).
    exists e. split; [done|].
    rewrite front_process_eq, Hres, front_score_stage_eq, Htpl, Hg. by rewrite He.
Qed.

End NonNumeric.

Lemma non_numeric_score_fails_request_witness :
  let body := Examples.kombat_body [str "shoes"] false in
  let w0 := Stub.says [Examples.unparseable;
                       Examples.reply [(RelevanceScore, JStr (str "high"))]] in
  exists e w2,
    exn_class_of e = TypeError
    /\ FastapiApp.process_unified body w0
       = (Http 500 (Detail (str "Processing failed: " ++ exn_message e)), w2).
Proof.
  intros body w0.
  pose (req := Examples.kombat [str "shoes"] false).
  pose (obj := [(RelevanceScore, JStr (str "high"))]).
  pose (w1 := Stub.says [Examples.reply obj]).
  pose (w2 := Stub.says []).
  pose (tpl := match keyword_template Examples.url_company with
               | Ok t => t
               | Raise _ => []
               end).
  destruct (non_numeric_score_fails_request (H := Stub.runtime) tpl (str "shoes")
              (Some (Examples.reply obj)) obj (JStr (str "high")) w1 w2)
    as (_ & _ & Hengine & _);
    [reflexivity|vm_compute; reflexivity|reflexivity|reflexivity|].
  destruct (Hengine req body Examples.url_company w0 w1 w2 [Some obj])
    as (e & Hclass & _ & Hhttp);
    [reflexivity|reflexivity|vm_compute; reflexivity|vm_compute; reflexivity
    |vm_compute; reflexivity|by left|].
  exists e, w2. split; [exact Hclass|exact Hhttp].
Defined.

(** ** The company research call *)

Section Research.
Context `{Runtime}.

Lemma template_of_object (d : pydict) : exists tpl, keyword_template (JObj d) = Ok tpl.
Proof. unfold keyword_template. simpl. by eexists. Qed.

(** C6, as the code has it: when the reply of the research call cannot be
    parsed, the engine goes on with [{company_name: company_url}] and the
    front service with its own default, whose [company_name] is the host of
    the URL; scoring then proceeds from that object, whose template is
    built without raising.  The research stage does not abort on a parse
    failure. *)
Theorem research_falls_back :
  (forall req r w w1,
     generate_content (FastapiApp.research_prompt req) w = (Ok r, w1) ->
     json_loads (strip_fence (PyStr.strip (text_or_default r))) = None ->
     let company := JObj [(str "company_name", JStr (KeywordKombatRequest.company_url req))] in
     FastapiApp.research req w = (Ok company, w1)
     /\ FastapiApp.process_keyword_kombat req w = FastapiApp.score_stage req company w1
     /\ exists tpl, keyword_template company = Ok tpl)
  /\ (forall keywords company_url search test r w w1,
        generate_content (FrontandUnified.research_prompt company_url search) w = (Ok r, w1) ->
        json_loads (strip_fence (PyStr.strip (text_or_default r))) = None ->
        let company := FrontandUnified.default_company company_url in
        FrontandUnified.research company_url search w = (Ok company, w1)
        /\ FrontandUnified._process_keyword_kombat keywords company_url search test w
           = FrontandUnified.score_stage keywords test company w1
        /\ exists tpl, keyword_template company = Ok tpl).
Proof.
  split.
  - intros req r w w1 Hgen Hloads company.
    assert (FastapiApp.research req w = (Ok company, w1)) as Hres.
    { rewrite research_eq, Hgen. unfold FastapiApp.company_of. by rewrite Hloads. }
    split; [done|]. split; [|apply template_of_object].
    by rewrite process_keyword_kombat_eq, Hres.
  - intros keywords company_url search test r w w1 Hgen Hloads company.
    assert (FrontandUnified.research company_url search w = (Ok company, w1)) as Hres.
    { rewrite front_research_eq, Hgen. unfold FrontandUnified.company_of.
      by rewrite Hloads. }
    split; [done|]. split; [|apply template_of_object].
    by rewrite front_process_eq, Hres.
Qed.

End Research.

(** C6 fails as stated for the front service: for the URL
    [https://example.com/about] the default company is named [example.com]
    and has three more fields. *)
Lemma front_default_company_counterexample :
  let url := str "https://example.com/about" in
  let w := Stub.says [Examples.unparseable] in
  Stub.loads (strip_fence (PyStr.strip (text_or_default (Some Examples.unparseable)))) = None
  /\ (FrontandUnified.research url false w).1
     = Ok (JObj [(str "company_name", JStr (str "example.com"));
                 (str "company_description",
                  JStr (str "Unternehmen unter https://example.com/about"));
                 (str "industry", JStr []);
                 (str "target_market", JStr [])])
  /\ (FrontandUnified.research url false w).1 <> Ok (JObj [(str "company_name", JStr url)]).
Proof. repeat split; vm_compute; (reflexivity || discriminate). Qed.

Lemma research_falls_back_witness :
  let req := Examples.kombat [str "shoes"] false in
  let w := Stub.says [Examples.unparseable; Examples.scored 85] in
  FastapiApp.research req w = (Ok Examples.url_company, Stub.says [Examples.scored 85])
  /\ FrontandUnified.research (KeywordKombatRequest.company_url req) false w
     = (Ok (FrontandUnified.default_company (KeywordKombatRequest.company_url req)),
        Stub.says [Examples.scored 85]).
Proof.
  intros req w. split.
  - apply (proj1 (research_falls_back (H := Stub.runtime)) req (Some Examples.unparseable) w
             (Stub.says [Examples.scored 85])); [reflexivity|vm_compute; reflexivity].
  - apply (proj2 (research_falls_back (H := Stub.runtime)) [str "shoes"]
             (KeywordKombatRequest.company_url req) false false
             (Some Examples.unparseable) w (Stub.says [Examples.scored 85]));
      [reflexivity|vm_compute; reflexivity].
Defined.

(** ** Integers in decimal *)

Lemma is_digit_digit_cons (c : N) (u : uint) :
  Json.is_digit c = true -> Json.uint_chars (Json.digit_cons c u) = c :: Json.uint_chars u.
Proof.
  unfold Json.is_digit, Json.digit_cons. intros [Hlo Hhi]%andb_true_iff.
  apply N.leb_le in Hlo, Hhi.
  assert (c = 48 \/ c = 49 \/ c = 50 \/ c = 51 \/ c = 52 \/ c = 53 \/ c = 54
          \/ c = 55 \/ c = 56 \/ c = 57) as Hc by lia.
  repeat (destruct Hc as [Hc|Hc]); subst c; reflexivity.
Qed.

Lemma uint_chars_digits (u : uint) : Forall (fun c => Json.is_digit c = true) (Json.uint_chars u).
Proof. induction u; simpl; by constructor. Qed.

Lemma read_digits_uint (u : uint) (rest : pystr) :
  no_digit rest -> Json.read_digits (Json.uint_chars u ++ rest) = (u, rest).
Proof.
  intros Hrest. induction u; simpl; try (by rewrite IHu).
  destruct rest as [|c rest]; simpl in *; [done|]. by rewrite Hrest.
Qed.

Lemma uint_chars_inj_head (u : uint) :
  u <> Nil -> exists c t, Json.uint_chars u = c :: t /\ Json.is_digit c = true
                        /\ (c = 48 <-> exists u', u = D0 u').
Proof.
  destruct u; intros Hne; try done; eexists _, _; (split; [reflexivity|]);
    (split; [reflexivity|]); split; try done; try (by intros [u' [=]]); eauto.
Qed.

(** The decimal form of a positive number does not start with a zero. *)
Lemma to_uint_no_leading_zero (p : positive) (u : uint) : Pos.to_uint p <> D0 u.
Proof.
  intros Hu.
  pose proof (DecimalPos.Unsigned.to_of (Pos.to_uint p)) as Hnorm.
  rewrite DecimalPos.Unsigned.of_to in Hnorm. simpl in Hnorm.
  rewrite Hu in Hnorm. rewrite DecimalFacts.unorm_D0 in Hnorm.
  assert (u = Nil \/ u <> Nil) as [->|Hne] by (destruct u; (by left) || (by right)).
  - by apply (DecimalPos.Unsigned.to_uint_nonzero p).
  - pose proof (DecimalFacts.nb_digits_unorm u Hne) as Hlen.
    rewrite <- Hnorm in Hlen. simpl in Hlen. lia.
Qed.

Lemma delimited_no_digit (rest : pystr) : delimited rest -> no_digit rest.
Proof. destruct rest; simpl; tauto. Qed.

Lemma delimited_skip (rest : pystr) :
  delimited rest -> Json.skip_exponent (Json.skip_fraction rest) = rest.
Proof.
  destruct rest as [|c t]; simpl; [done|]. intros (_ & H46 & H101 & H69).
  apply N.eqb_neq in H46, H101, H69. rewrite H46. simpl. by rewrite H101, H69.
Qed.

Section Numbers.
Variable py_float : pystr -> pyfloat.
#[local] Arguments Json.read_digits : simpl never.
#[local] Arguments Json.skip_fraction : simpl never.
#[local] Arguments Json.skip_exponent : simpl never.

(** The number scanner after the sign. *)
Lemma scan_number_digits (negative : bool) (u : uint) (c : N) (t rest : pystr) :
  Json.uint_chars u = c :: t -> c <> 48 -> delimited rest ->
  Json.scan_number py_float
    ((if negative then [45] else []) ++ Json.uint_chars u ++ rest)
  = Some (JInt (if negative then Z.opp (Z.of_N (N.of_uint u)) else Z.of_N (N.of_uint u)),
          rest).
Proof.
  intros Hu Hc Hrest.
  pose proof (uint_chars_digits u) as Hdig. rewrite Hu in Hdig.
  apply Forall_cons in Hdig as [Hdc _].
  assert ((c =? 45) = false) as H45.
  { apply N.eqb_neq. intros ->. done. }
  assert ((c =? 48) = false) as H48 by (by apply N.eqb_neq).
  pose proof (read_digits_uint u rest (delimited_no_digit rest Hrest)) as Hread.
  rewrite Hu in Hread. simpl app in Hread.
  unfold Json.scan_number.
  destruct negative; rewrite Hu; simpl.
  - rewrite Hdc, H48, Hread.
    rewrite delimited_skip by done. by rewrite Nat.eqb_refl.
  - rewrite H45, Hdc, H48, Hread.
    rewrite delimited_skip by done. by rewrite Nat.eqb_refl.
Qed.

Lemma scan_number_int (z : Z) (rest : pystr) :
  delimited rest ->
  Json.scan_number py_float (Json.int_repr z ++ rest) = Some (JInt z, rest).
Proof.
  intros Hrest. destruct z as [|p|p].
  - unfold Json.scan_number. simpl.
    rewrite delimited_skip by done. by rewrite Nat.eqb_refl.
  - destruct (uint_chars_inj_head (Pos.to_uint p)) as (c & t & Hu & _ & Hzero);
      [apply DecimalPos.Unsigned.to_uint_nonnil|].
    assert (c <> 48) as Hne
      by (intros [u' Hu']%Hzero; by eapply to_uint_no_leading_zero).
    pose proof (scan_number_digits false (Pos.to_uint p) c t rest Hu Hne Hrest) as Hscan.
    change (N.of_uint (Pos.to_uint p)) with (Pos.of_uint (Pos.to_uint p)) in Hscan.
    rewrite DecimalPos.Unsigned.of_to in Hscan. exact Hscan.
  - destruct (uint_chars_inj_head (Pos.to_uint p)) as (c & t & Hu & _ & Hzero);
      [apply DecimalPos.Unsigned.to_uint_nonnil|].
    assert (c <> 48) as Hne
      by (intros [u' Hu']%Hzero; by eapply to_uint_no_leading_zero).
    pose proof (scan_number_digits true (Pos.to_uint p) c t rest Hu Hne Hrest) as Hscan.
    change (N.of_uint (Pos.to_uint p)) with (Pos.of_uint (Pos.to_uint p)) in Hscan.
    rewrite DecimalPos.Unsigned.of_to in Hscan. exact Hscan.
Qed.

End Numbers.

(** ** Hexadecimal escapes *)

Lemma hex_value_digit (d : N) : d < 16 -> Json.hex_value (Json.hex_digit d) = Some d.
Proof.
  intros Hd. unfold Json.hex_value, Json.hex_digit.
  destruct (N.ltb_spec d 10).
  - replace ((48 <=? 48 + d) && (48 + d <=? 57)) with true
      by (symmetry; apply andb_true_iff; split; apply N.leb_le; lia).
    f_equal. lia.
  - replace ((48 <=? 87 + d) && (87 + d <=? 57)) with false
      by (symmetry; apply andb_false_iff; right; apply N.leb_gt; lia).
    replace ((97 <=? 87 + d) && (87 + d <=? 102)) with true
      by (symmetry; apply andb_true_iff; split; apply N.leb_le; lia).
    f_equal. lia.
Qed.

Lemma scan_hex4_hex4 (n : N) (r : pystr) :
  n < 65536 -> Json.scan_hex4 (Json.hex4 n ++ r) = Some (n, r).
Proof.
  intros Hn. unfold Json.hex4, Json.scan_hex4. simpl.
  rewrite !hex_value_digit by (apply N.mod_lt; lia). simpl.
  f_equal. f_equal.
  pose proof (N.div_mod n 16 ltac:(lia)).
  pose proof (N.div_mod (n / 16) 16 ltac:(lia)).
  pose proof (N.div_mod (n / 16 / 16) 16 ltac:(lia)).
  pose proof (N.div_mod (n / 16 / 16 / 16) 16 ltac:(lia)).
  assert (n / 16 / 16 / 16 / 16 = 0) as Hz.
  { rewrite !N.Div0.div_div. apply N.div_small. lia. }
  replace (n / 4096) with (n / 16 / 16 / 16) by (rewrite !N.Div0.div_div; f_equal).
  replace (n / 256) with (n / 16 / 16) by (rewrite !N.Div0.div_div; f_equal).
  lia.
Qed.

(** The low [k] bits of [y] and the bits of [x] from [k] on do not meet. *)
Lemma lor_shifted (x y k : N) : y < 2 ^ k -> N.lor (x * 2 ^ k) y = x * 2 ^ k + y.
Proof.
  intros Hy.
  assert (N.land (x * 2 ^ k) y = 0) as Hdisjoint.
  { apply N.bits_inj. intros n. rewrite N.land_spec, N.bits_0.
    destruct (N.lt_ge_cases n k) as [Hlt|Hge].
    - rewrite <- N.shiftl_mul_pow2, N.shiftl_spec_low by done. done.
    - rewrite <- (N.mod_small y (2 ^ k)) by done.
      rewrite N.mod_pow2_bits_high by done. apply andb_false_r. }
  by rewrite N.add_nocarry_lxor, N.lxor_lor.
Qed.

(** A code point above the basic plane and its two surrogates. *)
Lemma surrogates_join (c : N) :
  65536 <= c -> c < 1114112 ->
  let v := c - 65536 in
  let hi := N.lor 55296 (N.land (N.shiftr v 10) 1023) in
  let lo := N.lor 56320 (N.land v 1023) in
  hi < 65536 /\ lo < 65536
  /\ Json.is_high_surrogate hi = true /\ Json.is_low_surrogate lo = true
  /\ 65536 + N.lor (N.shiftl (hi - 55296) 10) (lo - 56320) = c.
Proof.
  intros Hlo Hhi v hi lo.
  assert (v < 1048576) as Hv by (subst v; lia).
  assert (N.land (N.shiftr v 10) 1023 = v / 1024) as Ha.
  { change 1023 with (N.ones 10). rewrite N.land_ones, N.shiftr_div_pow2.
    change (2 ^ 10) with 1024. apply N.mod_small.
    apply N.Div0.div_lt_upper_bound. lia. }
  assert (N.land v 1023 = v mod 1024) as Hb.
  { change 1023 with (N.ones 10). by rewrite N.land_ones. }
  assert (v / 1024 < 1024) as Hq by (apply N.Div0.div_lt_upper_bound; lia).
  assert (v mod 1024 < 1024) as Hr by (apply N.mod_lt; lia).
  assert (hi = 55296 + v / 1024) as Hhi'.
  { subst hi. rewrite Ha. change 55296 with (54 * 2 ^ 10).
    apply lor_shifted. by change (2 ^ 10) with 1024. }
  assert (lo = 56320 + v mod 1024) as Hlo'.
  { subst lo. rewrite Hb. change 56320 with (55 * 2 ^ 10).
    apply lor_shifted. by change (2 ^ 10) with 1024. }
  rewrite Hhi', Hlo'. unfold Json.is_high_surrogate, Json.is_low_surrogate.
  repeat split; try lia.
  - apply andb_true_iff; split; apply N.leb_le; lia.
  - apply andb_true_iff; split; apply N.leb_le; lia.
  - replace (55296 + v / 1024 - 55296) with (v / 1024) by lia.
    replace (56320 + v mod 1024 - 56320) with (v mod 1024) by lia.
    rewrite N.shiftl_mul_pow2. rewrite lor_shifted by (by change (2 ^ 10) with 1024).
    change (2 ^ 10) with 1024.
    pose proof (N.div_mod v 1024 ltac:(lia)). subst v. lia.
Qed.

(** ** String literals *)

#[local] Arguments Json.hex4 : simpl never.
#[local] Arguments Json.scan_hex4 : simpl never.

Lemma scalar_not_high_surrogate (c : N) :
  scalar_value c = true -> Json.is_high_surrogate c = false.
Proof.
  unfold scalar_value, Json.is_high_surrogate.
  intros [Hlow|[Hge _]%andb_true_iff]%orb_true_iff.
  - apply N.ltb_lt in Hlow. apply andb_false_iff. left. apply N.leb_gt. lia.
  - apply N.leb_le in Hge. apply andb_false_iff. right. apply N.leb_gt. lia.
Qed.

Lemma scalar_bound (c : N) : scalar_value c = true -> c < 1114112.
Proof.
  unfold scalar_value.
  intros [Hlow|[_ Hlt]%andb_true_iff]%orb_true_iff.
  - apply N.ltb_lt in Hlow. lia.
  - by apply N.ltb_lt.
Qed.

Lemma high_not_low (c : N) :
  Json.is_high_surrogate c = true -> Json.is_low_surrogate c = false.
Proof.
  unfold Json.is_high_surrogate, Json.is_low_surrogate.
  intros [_ Hle]%andb_true_iff. apply N.leb_le in Hle.
  apply andb_false_iff. left. apply N.leb_gt. lia.
Qed.

Lemma join_not_high (c : N) (r : pystr) :
  Json.is_high_surrogate c = false -> Json.join_surrogates c r = Some (c, r).
Proof. intros Hc. unfold Json.join_surrogates. by rewrite Hc. Qed.

(** One round of the string scanner reads back one escaped code point, when
    it is not joined with what follows it. *)
Lemma scanstring_char (n : nat) (c : N) (tl : pystr) :
  c < 1114112 -> Json.join_surrogates c tl = Some (c, tl) ->
  Json.scanstring (S n) (Json.escape_char c ++ tl)
  = '(t, r) ← Json.scanstring n tl; Some (c :: t, r).
Proof.
  intros Hc Hjoin. unfold Json.escape_char.
  destruct (N.eqb_spec c 34) as [->|H34]; [done|].
  destruct (N.eqb_spec c 92) as [->|H92]; [done|].
  destruct (N.eqb_spec c 10) as [->|H10]; [done|].
  destruct (N.eqb_spec c 13) as [->|H13]; [done|].
  destruct (N.eqb_spec c 9) as [->|H9]; [done|].
  destruct (N.eqb_spec c 12) as [->|H12]; [done|].
  destruct (N.eqb_spec c 8) as [->|H8]; [done|].
  destruct ((32 <=? c) && (c <=? 126)) eqn:Hprint.
  - apply andb_true_iff in Hprint as [Hge _]. apply N.leb_le in Hge.
    simpl. apply N.eqb_neq in H34, H92. rewrite H34, H92.
    by replace (c <? 32) with false by (symmetry; apply N.ltb_ge; lia).
  - destruct (N.ltb_spec c 65536) as [Hbmp|Hastral].
    + change (Json.scanstring (S n) (92 :: 117 :: Json.hex4 c ++ tl)
              = '(t, r) ← Json.scanstring n tl; Some (c :: t, r)).
      simpl. change (Json.hex_digit _ :: _ :: _ :: _ :: tl) with (Json.hex4 c ++ tl).
      rewrite scan_hex4_hex4 by done. simpl. by rewrite Hjoin.
    + destruct (surrogates_join c Hastral Hc)
        as (Hhi & Hlo & Hhigh & Hlow & Hcode).
      cbv zeta in *.
      set (hi := N.lor 55296 (N.land (N.shiftr (c - 65536) 10) 1023)) in *.
      set (lo := N.lor 56320 (N.land (c - 65536) 1023)) in *.
      change (Json.scanstring (S n)
                (92 :: 117 :: (Json.hex4 hi ++ 92 :: 117 :: Json.hex4 lo) ++ tl)
              = '(t, r) ← Json.scanstring n tl; Some (c :: t, r)).
      rewrite <- app_assoc. simpl.
      change (Json.hex_digit _ :: _ :: _ :: _ :: ?r) with (Json.hex4 hi ++ r).
      rewrite scan_hex4_hex4 by done. simpl.
      unfold Json.join_surrogates. rewrite Hhigh. simpl.
      change (Json.hex_digit _ :: _ :: _ :: _ :: tl) with (Json.hex4 lo ++ tl).
      rewrite scan_hex4_hex4 by done. by rewrite Hlow, Hcode.
Qed.

(** The escape of a code point that is not a low surrogate is not joined
    with a high surrogate before it. *)
Lemma join_before_escape (u d : N) (tl : pystr) :
  d < 1114112 -> Json.is_low_surrogate d = false ->
  Json.join_surrogates u (Json.escape_char d ++ tl) = Some (u, Json.escape_char d ++ tl).
Proof.
  intros Hd Hlow. unfold Json.join_surrogates.
  destruct (Json.is_high_surrogate u); [|done].
  unfold Json.escape_char.
  destruct (N.eqb_spec d 34) as [->|H34]; [done|].
  destruct (N.eqb_spec d 92) as [->|H92]; [done|].
  destruct (N.eqb_spec d 10) as [->|H10]; [done|].
  destruct (N.eqb_spec d 13) as [->|H13]; [done|].
  destruct (N.eqb_spec d 9) as [->|H9]; [done|].
  destruct (N.eqb_spec d 12) as [->|H12]; [done|].
  destruct (N.eqb_spec d 8) as [->|H8]; [done|].
  destruct ((32 <=? d) && (d <=? 126)) eqn:Hprint.
  - cbn [app]. apply N.eqb_neq in H92. rewrite H92. by destruct tl.
  - destruct (N.ltb_spec d 65536) as [Hbmp|Hastral].
    + change ((92 :: 117 :: Json.hex4 d) ++ tl) with (92 :: 117 :: Json.hex4 d ++ tl).
      cbv iota. change ((92 =? 92) && (117 =? 117)) with true. cbv iota.
      by rewrite scan_hex4_hex4, Hlow.
    + destruct (surrogates_join d Hastral Hd) as (Hhi & _ & Hhigh & _).
      cbv zeta in *.
      set (hi := N.lor 55296 (N.land (N.shiftr (d - 65536) 10) 1023)) in *.
      set (lo := N.lor 56320 (N.land (d - 65536) 1023)) in *.
      change ((92 :: 117 :: Json.hex4 hi ++ 92 :: 117 :: Json.hex4 lo) ++ tl)
        with (92 :: 117 :: (Json.hex4 hi ++ 92 :: 117 :: Json.hex4 lo) ++ tl).
      rewrite <- app_assoc.
      cbv iota. change ((92 =? 92) && (117 =? 117)) with true. cbv iota.
      by rewrite scan_hex4_hex4, (high_not_low hi Hhigh).
Qed.

Lemma readable_cons (c : N) (s : pystr) :
  readable (c :: s) = true ->
  c < 1114112 /\ readable s = true
  /\ (Json.is_high_surrogate c = true ->
      match s with d :: _ => Json.is_low_surrogate d = false | [] => True end).
Proof.
  cbn [readable]. intros [[Hc Hpair]%andb_true_iff Hs]%andb_true_iff.
  apply N.ltb_lt in Hc. split; [done|]. split; [done|].
  intros Hhigh. rewrite Hhigh in Hpair. destruct s as [|d s]; [done|].
  by destruct (Json.is_low_surrogate d).
Qed.

Lemma scanstring_escaped (n : nat) (s rest : pystr) :
  readable s = true -> (length s < n)%nat ->
  Json.scanstring n (concat (map Json.escape_char s) ++ 34 :: rest) = Some (s, rest).
Proof.
  revert n. induction s as [|c s IH]; intros n Hs Hn.
  - destruct n; [lia|done].
  - destruct n as [|n]; [simpl in Hn; lia|].
    apply readable_cons in Hs as (Hc & Hs & Hpair).
    simpl concat. rewrite <- app_assoc, scanstring_char.
    + rewrite IH by (done || simpl in Hn; lia). done.
    + done.
    + destruct (Json.is_high_surrogate c) eqn:Hhigh; [|by apply join_not_high].
      specialize (Hpair eq_refl). destruct s as [|d s].
      * unfold Json.join_surrogates. rewrite Hhigh. by destruct rest.
      * simpl concat. rewrite <- app_assoc.
        apply readable_cons in Hs as (Hd & _). by apply join_before_escape.
Qed.

Lemma escape_char_length (c : N) : (1 <= length (Json.escape_char c))%nat.
Proof.
  unfold Json.escape_char.
  repeat (destruct (_ =? _); [simpl; lia|]).
  destruct (_ && _); [simpl; lia|].
  destruct (_ <? _); simpl; lia.
Qed.

Lemma escaped_length (s : pystr) :
  (length s <= length (concat (map Json.escape_char s)))%nat.
Proof.
  induction s as [|c s IH]; simpl; [done|].
  rewrite length_app. pose proof (escape_char_length c). lia.
Qed.

(** A quoted string after its opening quote, with the fuel the scanner
    gives it. *)
Lemma scanstring_quote (s rest : pystr) :
  readable s = true ->
  let body := concat (map Json.escape_char s) ++ 34 :: rest in
  Json.scanstring (length body) body = Some (s, rest).
Proof.
  intros Hs body. apply scanstring_escaped; [done|].
  subst body. rewrite length_app. simpl. pose proof (escaped_length s). lia.
Qed.

(** ** Values *)

(** Induction on JSON values, through the lists they contain. *)
Lemma json_ind (P : json -> Prop) :
  P JNull -> (forall b, P (JBool b)) -> (forall z, P (JInt z)) ->
  (forall f, P (JFloat f)) -> (forall s, P (JStr s)) ->
  (forall l, Forall P l -> P (JArr l)) ->
  (forall d, Forall (fun kv => P kv.2) d -> P (JObj d)) ->
  forall v, P v.
Proof.
  intros Hnull Hbool Hint Hfloat Hstr Harr Hobj.
  fix IH 1.
  intros [|b|z|f|s|l|d];
    [exact Hnull|apply Hbool|apply Hint|apply Hfloat|apply Hstr| |].
  - apply Harr. induction l as [|x l IHl]; constructor; [apply IH|exact IHl].
  - apply Hobj. induction d as [|[k x] d IHd]; constructor; [apply IH|exact IHd].
Qed.

Lemma skip_ws_head (c : N) (t : pystr) :
  Json.is_ws c = false -> Json.skip_ws (c :: t) = c :: t.
Proof. intros Hc. simpl. by rewrite Hc. Qed.

(** The first character of a printed integer. *)
Lemma int_repr_head (z : Z) :
  exists c t, Json.int_repr z = c :: t
    /\ (Json.is_digit c = true \/ c = 45 /\ exists d t', t = d :: t' /\ Json.is_digit d = true).
Proof.
  destruct z as [|p|p].
  - exists 48, []. split; [done|]. by left.
  - destruct (uint_chars_inj_head (Pos.to_uint p)) as (c & t & Hu & Hd & _);
      [apply DecimalPos.Unsigned.to_uint_nonnil|].
    exists c, t. split; [exact Hu|]. by left.
  - destruct (uint_chars_inj_head (Pos.to_uint p)) as (c & t & Hu & Hd & _);
      [apply DecimalPos.Unsigned.to_uint_nonnil|].
    exists 45, (c :: t). split; [simpl; by rewrite <- Hu|]. right. split; [done|].
    by exists c, t.
Qed.

Lemma digit_bounds (c : N) : Json.is_digit c = true -> 48 <= c <= 57.
Proof.
  unfold Json.is_digit. intros [H1 H2]%andb_true_iff.
  apply N.leb_le in H1, H2. lia.
Qed.

Lemma startswith_other_head (lit : string) (a : N) (p s : pystr) (c : N) :
  str lit = a :: p -> a <> c -> PyStr.startswith (str lit) (c :: s) = false.
Proof.
  intros -> Hne. simpl. by replace (a =? c) with false by (symmetry; by apply N.eqb_neq).
Qed.

Ltac digit_tests c :=
  repeat match goal with
    | |- context [N.eqb c ?k] =>
        replace (N.eqb c k) with false by (symmetry; apply N.eqb_neq; lia)
    | |- context [N.eqb ?k c] =>
        replace (N.eqb k c) with false by (symmetry; apply N.eqb_neq; lia)
    end.

(** ** Float literals *)

Lemma read_digits_app (t rest : pystr) :
  no_digit rest ->
  Json.read_digits (t ++ rest) = ((Json.read_digits t).1, (Json.read_digits t).2 ++ rest).
Proof.
  intros Hrest. induction t as [|c t IH]; simpl.
  - destruct rest as [|c rest]; simpl in *; [done|]. by rewrite Hrest.
  - destruct (Json.is_digit c); [|done].
    rewrite IH. by destruct (Json.read_digits t).
Qed.

Lemma at_digit_app (t rest : pystr) :
  no_digit rest -> Json.at_digit (t ++ rest) = Json.at_digit t.
Proof. intros Hrest. destruct t as [|c t]; [|done]. by destruct rest. Qed.

Lemma skip_fraction_app (r rest : pystr) :
  delimited rest -> Json.skip_fraction (r ++ rest) = Json.skip_fraction r ++ rest.
Proof.
  intros Hrest. pose proof (delimited_no_digit rest Hrest) as Hnd.
  destruct r as [|c t].
  - simpl app. destruct rest as [|c rest]; [done|].
    destruct Hrest as (_ & H46 & _). unfold Json.skip_fraction.
    by replace (c =? 46) with false by (symmetry; by apply N.eqb_neq).
  - cbn [app]. unfold Json.skip_fraction. rewrite at_digit_app by done.
    destruct ((c =? 46) && Json.at_digit t); [|done].
    by rewrite read_digits_app.
Qed.

Lemma skip_exponent_app (r rest : pystr) :
  delimited rest -> Json.skip_exponent r = [] -> Json.skip_exponent (r ++ rest) = rest.
Proof.
  intros Hrest. pose proof (delimited_no_digit rest Hrest) as Hnd.
  destruct r as [|c t].
  - intros _. simpl app. destruct rest as [|c rest]; [done|].
    destruct Hrest as (_ & _ & H101 & H69). unfold Json.skip_exponent.
    replace (c =? 101) with false by (symmetry; by apply N.eqb_neq).
    by replace (c =? 69) with false by (symmetry; by apply N.eqb_neq).
  - cbn [app]. unfold Json.skip_exponent.
    destruct ((c =? 101) || (c =? 69)); [|done].
    rewrite at_digit_app by done.
    destruct (Json.at_digit t).
    + intros Ht. by rewrite read_digits_app, Ht.
    + destruct t as [|g t']; [done|]. cbn [app]. rewrite at_digit_app by done.
      destruct (((g =? 43) || (g =? 45)) && Json.at_digit t'); [|done].
      intros Ht. by rewrite read_digits_app, Ht.
Qed.

Section Floats.
Variable py_float : pystr -> pyfloat.
#[local] Arguments Json.read_digits : simpl never.
#[local] Arguments Json.skip_fraction : simpl never.
#[local] Arguments Json.skip_exponent : simpl never.

(** The number scanner after the sign, on a float literal. *)
Lemma scan_unsigned_float (d : N) (r1 rest : pystr) :
  delimited rest ->
  Json.is_digit d = true ->
  let r2 := if d =? 48 then r1 else (Json.read_digits (d :: r1)).2 in
  Json.skip_exponent (Json.skip_fraction r2) = [] -> r2 <> [] ->
  let r2' := if d =? 48 then r1 ++ rest else (Json.read_digits (d :: r1 ++ rest)).2 in
  r2' = r2 ++ rest
  /\ Json.skip_exponent (Json.skip_fraction r2') = rest
  /\ (length rest =? length r2')%nat = false.
Proof.
  intros Hrest Hd r2 Hend Hne r2'.
  assert (r2' = r2 ++ rest) as Hr2.
  { subst r2 r2'. destruct (d =? 48); [done|].
    change (d :: r1 ++ rest) with ((d :: r1) ++ rest).
    by rewrite read_digits_app by (by apply delimited_no_digit). }
  split; [done|]. rewrite Hr2. split.
  - by rewrite skip_fraction_app, skip_exponent_app.
  - apply Nat.eqb_neq. rewrite length_app. destruct r2; [done|]. simpl. lia.
Qed.

Lemma scan_number_float (s rest : pystr) :
  float_literal s = true -> delimited rest ->
  Json.scan_number py_float (s ++ rest) = Some (JFloat (py_float s), rest).
Proof.
  unfold float_literal, Json.scan_number. intros Hlit Hrest.
  assert (forall r4 : pystr, take (length (s ++ rest) - length rest) (s ++ rest) = s) as Htake.
  { intros _. rewrite length_app, Nat.add_sub. by rewrite take_app_length. }
  destruct s as [|c t]; [done|]. cbn [app] in *.
  destruct (c =? 45) eqn:H45.
  - destruct t as [|d r1]; [done|]. cbn [app] in *.
    destruct (Json.is_digit d) eqn:Hd; [|done].
    destruct (scan_unsigned_float d r1 rest Hrest Hd) as (Hr2 & Hr4 & Hlen).
    + destruct (d =? 48); [|destruct (Json.read_digits (d :: r1)) as [u r2]; simpl];
        by destruct (Json.skip_exponent _); [|destruct (_ =? _)%nat].
    + destruct (d =? 48); [|destruct (Json.read_digits (d :: r1)) as [u r2]; simpl];
        destruct (Json.skip_exponent _) as [|x r4] eqn:Hskip; intros ->;
        simpl in Hlit; try done; by rewrite Hskip in Hlit.
    + destruct (d =? 48).
      * rewrite Hr4, Hlen. by rewrite (Htake []).
      * destruct (Json.read_digits (d :: r1 ++ rest)) as [u r2']. simpl in *.
        rewrite Hr4, Hlen. by rewrite (Htake []).
  - destruct (Json.is_digit c) eqn:Hd; [|done].
    destruct (scan_unsigned_float c t rest Hrest Hd) as (Hr2 & Hr4 & Hlen).
    + destruct (c =? 48); [|destruct (Json.read_digits (c :: t)) as [u r2]; simpl];
        by destruct (Json.skip_exponent _); [|destruct (_ =? _)%nat].
    + destruct (c =? 48); [|destruct (Json.read_digits (c :: t)) as [u r2]; simpl];
        destruct (Json.skip_exponent _) as [|x r4] eqn:Hskip; intros ->;
        simpl in Hlit; try done; by rewrite Hskip in Hlit.
    + destruct (c =? 48).
      * rewrite Hr4, Hlen. by rewrite (Htake []).
      * destruct (Json.read_digits (c :: t ++ rest)) as [u r2']. simpl in *.
        rewrite Hr4, Hlen. by rewrite (Htake []).
Qed.

(** A float literal starts like a number. *)
Lemma float_literal_head (s : pystr) :
  float_literal s = true ->
  exists c t, s = c :: t
    /\ (Json.is_digit c = true
        \/ c = 45 /\ exists d t', t = d :: t' /\ Json.is_digit d = true).
Proof.
  unfold float_literal, Json.scan_number.
  destruct s as [|c t]; [done|]. intros Hlit. exists c, t. split; [done|].
  destruct (c =? 45) eqn:H45.
  - apply N.eqb_eq in H45 as ->. right. split; [done|].
    destruct t as [|d t']; [done|]. exists d, t'. split; [done|].
    by destruct (Json.is_digit d).
  - left. by destruct (Json.is_digit c).
Qed.

End Floats.

Section Values.
Variable py_float : pystr -> pyfloat.
Variable float_repr : pyfloat -> pystr.

#[local] Abbreviation dumps := (Json.dumps float_repr).
#[local] Abbreviation scan_once := (Json.scan_once py_float).
#[local] Arguments Json.scan_number : simpl never.
#[local] Arguments PyStr.startswith : simpl never.

(** A text that starts like a number is read by the number scanner. *)
Lemma scan_once_number (n : nat) (c : N) (t : pystr) :
  Json.is_digit c = true
  \/ c = 45 /\ (exists d t', t = d :: t' /\ Json.is_digit d = true) ->
  scan_once (S n) (c :: t) = Json.scan_number py_float (c :: t).
Proof.
  intros [Hd|(-> & d & t' & -> & Hd)]; apply digit_bounds in Hd.
  - cbn [Json.scan_once]. digit_tests c. cbv iota.
    rewrite (startswith_other_head "null" 110 _ _ c eq_refl) by lia.
    rewrite (startswith_other_head "true" 116 _ _ c eq_refl) by lia.
    rewrite (startswith_other_head "false" 102 _ _ c eq_refl) by lia.
    rewrite (startswith_other_head "NaN" 78 _ _ c eq_refl) by lia.
    rewrite (startswith_other_head "Infinity" 73 _ _ c eq_refl) by lia.
    rewrite (startswith_other_head "-Infinity" 45 _ _ c eq_refl) by lia.
    done.
  - cbn [Json.scan_once].
    change (45 =? 34) with false. change (45 =? 123) with false.
    change (45 =? 91) with false. cbv iota.
    rewrite (startswith_other_head "null" 110 _ _ 45 eq_refl) by lia.
    rewrite (startswith_other_head "true" 116 _ _ 45 eq_refl) by lia.
    rewrite (startswith_other_head "false" 102 _ _ 45 eq_refl) by lia.
    rewrite (startswith_other_head "NaN" 78 _ _ 45 eq_refl) by lia.
    rewrite (startswith_other_head "Infinity" 73 _ _ 45 eq_refl) by lia.
    change (PyStr.startswith (str "-Infinity") (45 :: d :: t'))
      with (PyStr.startswith (str "Infinity") (d :: t')).
    rewrite (startswith_other_head "Infinity" 73 _ _ d eq_refl) by lia.
    done.
Qed.

(** An integer is read back. *)
Lemma scan_once_int (n : nat) (z : Z) (rest : pystr) :
  delimited rest ->
  scan_once (S n) (Json.int_repr z ++ rest) = Some (JInt z, rest).
Proof.
  intros Hrest. rewrite <- (scan_number_int py_float z rest Hrest).
  destruct (int_repr_head z) as (c & t & -> & Hhead).
  apply scan_once_number.
  destruct Hhead as [Hd|(-> & d & t' & -> & Hd)]; [by left|].
  right. split; [done|]. by exists d, (t' ++ rest).
Qed.

(** A finite float is read back from a literal that [float(...)] maps to
    it. *)
Lemma scan_once_float (n : nat) (f : pyfloat) (rest : pystr) :
  float_literal (float_repr f) = true -> py_float (float_repr f) = f ->
  delimited rest ->
  scan_once (S n) (float_repr f ++ rest) = Some (JFloat f, rest).
Proof.
  intros Hlit Hback Hrest.
  rewrite <- Hback at 2. rewrite <- (scan_number_float py_float _ rest Hlit Hrest).
  destruct (float_literal_head _ Hlit) as (c & t & -> & Hhead).
  apply scan_once_number.
  destruct Hhead as [Hd|(-> & d & t' & -> & Hd)]; [by left|].
  right. split; [done|]. by exists d, (t' ++ rest).
Qed.

(** A printed value starts with a character that is neither white space nor
    a closing bracket. *)
Lemma dumps_head (v : json) :
  printable py_float float_repr v = true ->
  exists c t, dumps v = c :: t /\ Json.is_ws c = false /\ c <> 93 /\ c <> 125.
Proof.
  destruct v as [|[]|z|[m e|[]|]|s|[|x l]|[|kv d]]; intros Hv;
    try (simpl; eexists _, _; split; [reflexivity|]; by repeat split).
  - destruct (int_repr_head z) as (c & t & Hz & [Hd|(-> & _)]).
    + exists c, t. apply digit_bounds in Hd. split; [done|].
      unfold Json.is_ws. digit_tests c. repeat split; (done || lia).
    + by exists 45, t.
  - simpl in Hv. apply andb_true_iff in Hv as [Hlit _].
    destruct (float_literal_head _ Hlit) as (c & t & Hf & [Hd|(-> & _)]).
    + exists c, t. apply digit_bounds in Hd. split; [done|].
      unfold Json.is_ws. digit_tests c. repeat split; (done || lia).
    + by exists 45, t.
Qed.

Lemma skip_ws_dumps (v : json) (rest : pystr) :
  printable py_float float_repr v = true -> Json.skip_ws (dumps v ++ rest) = dumps v ++ rest.
Proof.
  intros Hv. destruct (dumps_head v Hv) as (c & t & -> & Hc & _).
  by apply skip_ws_head.
Qed.

End Values.

(** A dict whose keys are distinct is what [dict(pairs)] builds from its own
    items. *)
Lemma dict_set_fresh (k : pystr) (v : json) (d : pydict) :
  k ∉ d.*1 -> Dict.set k v d = d ++ [(k, v)].
Proof.
  induction d as [|[k' v'] d IH]; simpl; [done|].
  intros Hk. apply not_elem_of_cons in Hk as [Hne Hk].
  destruct (decide (k' = k)); [congruence|]. by rewrite IH.
Qed.

Lemma dict_update_fresh (d e : pydict) :
  NoDup (d.*1 ++ e.*1) -> Dict.update d e = d ++ e.
Proof.
  unfold Dict.update. revert d.
  induction e as [|[k v] e IH]; intros d Hnd; simpl.
  - by rewrite app_nil_r.
  - rewrite dict_set_fresh.
    + rewrite IH; [by rewrite <- app_assoc|].
      rewrite fmap_app. simpl. rewrite <- app_assoc. exact Hnd.
    + apply NoDup_app in Hnd as (_ & Hdisj & _). intros Hin.
      apply (Hdisj k Hin). simpl. left.
Qed.

Lemma dict_of_pairs_nodup (d : pydict) : NoDup d.*1 -> Dict.of_pairs d = d.
Proof. intros Hnd. unfold Dict.of_pairs. by rewrite dict_update_fresh. Qed.

Section RoundTrip.
Variable py_float : pystr -> pyfloat.
Variable float_repr : pyfloat -> pystr.

#[local] Abbreviation dumps := (Json.dumps float_repr).
#[local] Abbreviation scan_once := (Json.scan_once py_float).

(** The scanners, one step at a time. *)
Lemma scan_items_step (value : pystr -> option (json * pystr)) (k : nat) (s : pystr) :
  Json.scan_items value (S k) s
  = '(v, r) ← value s;
    match Json.skip_ws r with
    | c :: r' =>
        if c =? 93 then Some ([v], r')
        else if c =? 44 then
          '(vs, r'') ← Json.scan_items value k (Json.skip_ws r'); Some (v :: vs, r'')
        else None
    | [] => None
    end.
Proof. reflexivity. Qed.

Lemma scan_members_step (value : pystr -> option (json * pystr)) (k : nat) (s1 : pystr) :
  Json.scan_members value (S k) (34 :: s1)
  = '(key, r) ← Json.scanstring (length s1) s1;
    match Json.skip_ws r with
    | c :: r1 =>
        if c =? 58 then
          '(v, r2) ← value (Json.skip_ws r1);
          match Json.skip_ws r2 with
          | c' :: r' =>
              if c' =? 125 then Some ([(key, v)], r')
              else if c' =? 44 then
                '(kvs, r'') ← Json.scan_members value k (Json.skip_ws r');
                Some ((key, v) :: kvs, r'')
              else None
          | [] => None
          end
        else None
    | [] => None
    end.
Proof. reflexivity. Qed.

Lemma scan_once_string (n : nat) (r : pystr) :
  scan_once (S n) (34 :: r)
  = '(t, r') ← Json.scanstring (length r) r; Some (JStr t, r').
Proof. reflexivity. Qed.

Lemma scan_once_array (n : nat) (c : N) (r : pystr) :
  Json.is_ws c = false -> c <> 93 ->
  scan_once (S n) (91 :: c :: r)
  = '(vs, r'') ← Json.scan_items (scan_once n) (S (length r)) (c :: r);
    Some (JArr vs, r'').
Proof.
  intros Hws Hc. cbn [Json.scan_once].
  change (91 =? 34) with false. change (91 =? 123) with false.
  change (91 =? 91) with true. cbv iota. rewrite skip_ws_head by done.
  by replace (c =? 93) with false by (symmetry; by apply N.eqb_neq).
Qed.

Lemma scan_once_object (n : nat) (c : N) (r : pystr) :
  Json.is_ws c = false -> c <> 125 ->
  scan_once (S n) (123 :: c :: r)
  = '(kvs, r'') ← Json.scan_members (scan_once n) (S (length r)) (c :: r);
    Some (JObj (Dict.of_pairs kvs), r'').
Proof.
  intros Hws Hc. cbn [Json.scan_once].
  change (123 =? 34) with false. change (123 =? 123) with true.
  cbv iota. rewrite skip_ws_head by done.
  by replace (c =? 125) with false by (symmetry; by apply N.eqb_neq).
Qed.

#[local] Arguments Json.scan_once : simpl never.
#[local] Arguments Json.scan_items : simpl never.
#[local] Arguments Json.scan_members : simpl never.
#[local] Arguments Json.scanstring : simpl never.
#[local] Arguments Json.skip_ws : simpl never.
#[local] Arguments Json.dumps : simpl never.

Lemma items_tail_delimited (l : list json) (rest : pystr) :
  delimited (Json.items_tail dumps l ++ rest).
Proof. destruct l; simpl; repeat split; done. Qed.

Lemma members_tail_delimited (l : pydict) (rest : pystr) :
  delimited (Json.members_tail dumps l ++ rest).
Proof. destruct l; simpl; repeat split; done. Qed.

Lemma items_tail_length (l : list json) :
  (length l < length (Json.items_tail dumps l))%nat.
Proof.
  induction l as [|y l IH]; simpl; [lia|]. rewrite length_app. lia.
Qed.

Lemma members_tail_length (l : pydict) :
  (length l < length (Json.members_tail dumps l))%nat.
Proof.
  induction l as [|y l IH]; simpl; [lia|]. rewrite length_app. lia.
Qed.

Lemma bind_some {A B} (x : A) (f : A -> option B) : Some x ≫= f = f x.
Proof. reflexivity. Qed.

Lemma skip_ws_space (r : pystr) : Json.skip_ws (32 :: r) = Json.skip_ws r.
Proof. reflexivity. Qed.

Lemma items_tail_cons (y : json) (l : list json) :
  Json.items_tail dumps (y :: l) = 44 :: 32 :: dumps y ++ Json.items_tail dumps l.
Proof. reflexivity. Qed.

Lemma members_tail_cons (kv : pystr * json) (l : pydict) :
  Json.members_tail dumps (kv :: l)
  = 44 :: 32 :: Json.member dumps kv ++ Json.members_tail dumps l.
Proof. reflexivity. Qed.

Lemma scan_items_dumps (n : nat) (xs : list json) :
  forall (x : json) (k : nat) (rest : pystr),
  Forall (fun y => printable py_float float_repr y = true /\ reads_back py_float float_repr n y) (x :: xs) ->
  (length xs < k)%nat ->
  Json.scan_items (scan_once n) k (dumps x ++ Json.items_tail dumps xs ++ rest)
  = Some (x :: xs, rest).
Proof.
  induction xs as [|y l IH]; intros x k rest Hall Hk;
    (destruct k as [|k]; [simpl in Hk; lia|]);
    apply Forall_cons in Hall as [[Hplain Hread] Hall];
    rewrite scan_items_step, Hread, bind_some by apply items_tail_delimited.
  - reflexivity.
  - rewrite items_tail_cons. cbn [app].
    rewrite skip_ws_head by done.
    change (44 =? 93) with false. change (44 =? 44) with true. cbv iota.
    rewrite skip_ws_space.
    apply Forall_cons in Hall as Hy. destruct Hy as [[Hyplain _] _].
    rewrite <- app_assoc, (skip_ws_dumps py_float) by done.
    rewrite IH by (done || simpl in Hk; lia). reflexivity.
Qed.

(** A member, from its key on. *)
Lemma member_text (kv : pystr * json) (rest : pystr) :
  Json.member dumps kv ++ rest
  = 34 :: concat (map Json.escape_char kv.1) ++ 34 :: 58 :: 32 :: dumps kv.2 ++ rest.
Proof.
  unfold Json.member, Json.quote, Json.key_separator. cbn [app].
  by rewrite <- !app_assoc.
Qed.

Lemma scan_members_dumps (n : nat) (kvs : pydict) :
  forall (kv : pystr * json) (k : nat) (rest : pystr),
  Forall (fun kv => readable kv.1 = true /\ printable py_float float_repr kv.2 = true
                    /\ reads_back py_float float_repr n kv.2) (kv :: kvs) ->
  (length kvs < k)%nat ->
  Json.scan_members (scan_once n) k
    (Json.member dumps kv ++ Json.members_tail dumps kvs ++ rest)
  = Some (kv :: kvs, rest).
Proof.
  induction kvs as [|kv' l IH]; intros [key x] k rest Hall Hk;
    (destruct k as [|k]; [simpl in Hk; lia|]);
    apply Forall_cons in Hall as [(Hkey & Hplain & Hread) Hall];
    simpl in Hkey, Hplain, Hread;
    rewrite member_text; cbn [fst snd];
    rewrite scan_members_step, scanstring_quote, bind_some by done;
    rewrite skip_ws_head by done;
    change (58 =? 58) with true; cbv iota;
    rewrite skip_ws_space, (skip_ws_dumps py_float) by done;
    rewrite Hread, bind_some by apply members_tail_delimited.
  - reflexivity.
  - rewrite members_tail_cons. cbn [app].
    rewrite skip_ws_head by done.
    change (44 =? 125) with false. change (44 =? 44) with true. cbv iota.
    rewrite skip_ws_space.
    rewrite <- app_assoc.
    assert (Json.skip_ws (Json.member dumps kv' ++ Json.members_tail dumps l ++ rest)
            = Json.member dumps kv' ++ Json.members_tail dumps l ++ rest) as ->
      by (rewrite member_text; by apply skip_ws_head).
    rewrite IH by (done || simpl in Hk; lia). reflexivity.
Qed.

Lemma depth_positive (v : json) : (1 <= depth v)%nat.
Proof. destruct v; simpl; lia. Qed.

Lemma reads_back_mono (l : list json) (n : nat) :
  Forall (fun x => printable py_float float_repr x = true -> forall n, (depth x <= n)%nat -> reads_back py_float float_repr n x) l ->
  forallb (printable py_float float_repr) l = true ->
  (fold_right (fun x m => Nat.max (depth x) m) 0%nat l <= n)%nat ->
  Forall (fun y => printable py_float float_repr y = true /\ reads_back py_float float_repr n y) l.
Proof.
  induction 1 as [|x l Hx _ IH]; simpl; [done|].
  intros [Hp Hl]%andb_true_iff Hd. constructor.
  - split; [done|]. apply Hx; [done|lia].
  - apply IH; [done|lia].
Qed.

Lemma members_read_back (d : pydict) (n : nat) :
  Forall (fun kv => printable py_float float_repr kv.2 = true -> forall n, (depth kv.2 <= n)%nat -> reads_back py_float float_repr n kv.2) d ->
  forallb (fun kv => readable kv.1 && printable py_float float_repr kv.2) d = true ->
  (fold_right (fun kv m => Nat.max (depth kv.2) m) 0%nat d <= n)%nat ->
  Forall (fun kv => readable kv.1 = true /\ printable py_float float_repr kv.2 = true
                    /\ reads_back py_float float_repr n kv.2) d.
Proof.
  induction 1 as [|kv d Hkv _ IH]; simpl; [done|].
  intros [[Hk Hp]%andb_true_iff Hl]%andb_true_iff Hd. constructor.
  - split; [done|]. split; [done|]. apply Hkv; [done|lia].
  - apply IH; [done|lia].
Qed.

(** Every printable value is read back from its text, at any depth that covers
    its nesting. *)
Lemma scan_once_dumps (v : json) :
  printable py_float float_repr v = true -> forall n, (depth v <= n)%nat -> reads_back py_float float_repr n v.
Proof.
  induction v as [|b|z|f|s|l IH|d IH] using json_ind; intros Hplain n Hn rest Hrest;
    (destruct n as [|n]; [simpl in Hn; lia|]).
  - reflexivity.
  - by destruct b.
  - by apply scan_once_int.
  - destruct f as [m e|[]|]; [|reflexivity|reflexivity|done].
    simpl in Hplain. apply andb_true_iff in Hplain as [Hlit Hback].
    apply bool_decide_eq_true in Hback.
    by apply (scan_once_float py_float float_repr).
  - simpl in Hplain. unfold Json.dumps, Json.quote. cbn [app].
    rewrite <- app_assoc. cbn [app].
    by rewrite scan_once_string, scanstring_quote, bind_some.
  - destruct l as [|x xs]; [reflexivity|].
    simpl in Hplain, Hn.
    pose proof (reads_back_mono (x :: xs) n IH Hplain ltac:(simpl; lia)) as Hall.
    apply andb_true_iff in Hplain as [Hx _].
    destruct (dumps_head py_float float_repr x Hx) as (c & t & Hc & Hws & H93 & _).
    change (dumps (JArr (x :: xs))) with (91 :: dumps x ++ Json.items_tail dumps xs).
    cbn [app]. rewrite <- app_assoc.
    assert (exists r, dumps x ++ Json.items_tail dumps xs ++ rest = c :: r
                      /\ (length xs <= length r)%nat) as (r & Hr & Hlen).
    { exists (t ++ Json.items_tail dumps xs ++ rest). rewrite Hc. split; [done|].
      rewrite !length_app. pose proof (items_tail_length xs). lia. }
    rewrite Hr, scan_once_array, <- Hr by done.
    rewrite scan_items_dumps by (done || lia). reflexivity.
  - destruct d as [|kv kvs]; [reflexivity|].
    simpl in Hplain, Hn.
    apply andb_true_iff in Hplain as [Hnodup Hplain].
    apply bool_decide_eq_true in Hnodup.
    pose proof (members_read_back (kv :: kvs) n IH Hplain ltac:(simpl; lia)) as Hall.
    change (dumps (JObj (kv :: kvs)))
      with (123 :: Json.member dumps kv ++ Json.members_tail dumps kvs).
    cbn [app]. rewrite <- app_assoc.
    assert (exists r, Json.member dumps kv ++ Json.members_tail dumps kvs ++ rest = 34 :: r
                      /\ (length kvs <= length r)%nat) as (r & Hr & Hlen).
    { rewrite member_text. eexists. split; [reflexivity|].
      rewrite !length_app. simpl. rewrite !length_app.
      pose proof (members_tail_length kvs). lia. }
    rewrite Hr, scan_once_object, <- Hr by done.
    rewrite scan_members_dumps, bind_some by (done || lia).
    by rewrite dict_of_pairs_nodup.
Qed.

Lemma items_depth (l : list json) :
  Forall (fun x => printable py_float float_repr x = true -> (depth x <= length (dumps x))%nat) l ->
  forallb (printable py_float float_repr) l = true ->
  (fold_right (fun x m => Nat.max (depth x) m) 0%nat l
   <= length (Json.items_tail dumps l))%nat.
Proof.
  induction 1 as [|x l Hx _ IH]; [simpl; lia|].
  cbn [forallb]. intros [Hp Hl]%andb_true_iff.
  rewrite items_tail_cons. cbn [fold_right length]. rewrite length_app.
  specialize (Hx Hp). specialize (IH Hl). lia.
Qed.

Lemma members_depth (d : pydict) :
  Forall (fun kv => printable py_float float_repr kv.2 = true -> (depth kv.2 <= length (dumps kv.2))%nat) d ->
  forallb (fun kv => readable kv.1 && printable py_float float_repr kv.2) d = true ->
  (fold_right (fun kv m => Nat.max (depth kv.2) m) 0%nat d
   <= length (Json.members_tail dumps d))%nat.
Proof.
  induction 1 as [|kv d Hkv _ IH]; [simpl; lia|].
  cbn [forallb]. intros [[_ Hp]%andb_true_iff Hl]%andb_true_iff.
  rewrite members_tail_cons. cbn [fold_right length].
  unfold Json.member. rewrite !length_app.
  specialize (Hkv Hp). specialize (IH Hl). lia.
Qed.

(** The depth of a printable value is at most the length of its text. *)
Lemma depth_le_length (v : json) :
  printable py_float float_repr v = true -> (depth v <= length (dumps v))%nat.
Proof.
  induction v as [|b|z|f|s|l IH|d IH] using json_ind; intros Hplain.
  - simpl. lia.
  - destruct b; simpl; lia.
  - destruct (int_repr_head z) as (c & t & Hz & _).
    change (dumps (JInt z)) with (Json.int_repr z). rewrite Hz. simpl. lia.
  - destruct (dumps_head py_float float_repr (JFloat f) Hplain) as (c & t & -> & _).
    simpl. lia.
  - simpl. lia.
  - destruct l as [|x xs]; [simpl; lia|].
    cbn [printable forallb] in Hplain. apply andb_true_iff in Hplain as [Hx Hxs].
    apply Forall_cons in IH as [IHx IHxs].
    pose proof (items_depth xs IHxs Hxs) as Hd. specialize (IHx Hx).
    change (dumps (JArr (x :: xs))) with (91 :: dumps x ++ Json.items_tail dumps xs).
    cbn [length depth fold_right]. rewrite length_app. lia.
  - destruct d as [|kv kvs]; [simpl; lia|].
    cbn [printable forallb] in Hplain.
    apply andb_true_iff in Hplain as [_ [[_ Hx]%andb_true_iff Hxs]%andb_true_iff].
    apply Forall_cons in IH as [IHx IHxs].
    pose proof (members_depth kvs IHxs Hxs) as Hd. specialize (IHx Hx).
    change (dumps (JObj (kv :: kvs)))
      with (123 :: Json.member dumps kv ++ Json.members_tail dumps kvs).
    cbn [length depth fold_right]. unfold Json.member. rewrite !length_app. lia.
Qed.

(** [loads] gives back a printable value from its text between two line
    feeds. *)
Lemma loads_dumps (v : json) :
  printable py_float float_repr v = true ->
  Json.loads py_float (nl ++ dumps v ++ nl) = Some v.
Proof.
  intros Hplain. unfold Json.loads, nl. cbn [app].
  change (Json.skip_ws (10 :: ?r)) with (Json.skip_ws r).
  rewrite (skip_ws_dumps py_float) by done.
  rewrite scan_once_dumps; [reflexivity|done| |done].
  pose proof (depth_le_length v Hplain). simpl. rewrite length_app. lia.
Qed.

End RoundTrip.

(** A string of scalar values holds no surrogate at all. *)
Lemma scalar_readable (s : pystr) : forallb scalar_value s = true -> readable s = true.
Proof.
  induction s as [|c s IH]; [done|].
  cbn [forallb readable]. intros [Hc Hs]%andb_true_iff.
  rewrite (scalar_not_high_surrogate c Hc), IH by done.
  apply scalar_bound, N.ltb_lt in Hc. by rewrite Hc.
Qed.

(** A plain value is printable, whatever the floats print as. *)
Lemma plain_printable (py_float : pystr -> pyfloat) (float_repr : pyfloat -> pystr)
    (v : json) :
  plain v = true -> printable py_float float_repr v = true.
Proof.
  induction v as [|b|z|f|s|l IH|d IH] using json_ind; try done.
  - apply scalar_readable.
  - simpl. induction IH as [|x l Hx _ IHl]; simpl; [done|].
    intros [Hp Hl]%andb_true_iff. by rewrite Hx, IHl.
  - simpl. intros [Hnd Hd]%andb_true_iff. rewrite Hnd. simpl.
    clear Hnd. induction IH as [|kv d Hkv _ IHd]; simpl in *; [done|].
    apply andb_true_iff in Hd as [[Hk Hp]%andb_true_iff Hd].
    by rewrite (scalar_readable _ Hk), Hkv, IHd.
Qed.

(** ** Fences *)

Lemma cut_cons (sep : pystr) (c : N) (s : pystr) :
  PyStr.startswith sep (c :: s) = false ->
  PyStr.cut sep (c :: s)
  = match PyStr.cut sep s with
    | Some (a, b) => Some (c :: a, b)
    | None => None
    end.
Proof. intros Hs. simpl. by rewrite Hs. Qed.

Lemma cut_none_cons (sep : pystr) (c : N) (s : pystr) :
  PyStr.cut sep (c :: s) = None ->
  PyStr.startswith sep (c :: s) = false /\ PyStr.cut sep s = None.
Proof.
  simpl. destruct (PyStr.startswith sep (c :: s)); [done|].
  destruct (PyStr.cut sep s) as [[a b]|]; done.
Qed.

Lemma startswith_app (p r : pystr) : PyStr.startswith p (p ++ r) = true.
Proof. induction p as [|a p IH]; simpl; [done|]. by rewrite N.eqb_refl. Qed.

Lemma cut_startswith (sep s : pystr) :
  PyStr.startswith sep s = true -> PyStr.cut sep s = Some ([], drop (length sep) s).
Proof. intros Hs. destruct s; simpl in *; by rewrite Hs. Qed.

Lemma cut_prefix (sep r : pystr) : PyStr.cut sep (sep ++ r) = Some ([], r).
Proof.
  rewrite cut_startswith by apply startswith_app.
  by rewrite drop_app_length.
Qed.

(** No fence starts in [s], and none can start in it when a character that
    is not a backtick follows. *)
Lemma startswith_fence_app (s : pystr) (c : N) (t : pystr) :
  PyStr.startswith fence s = false -> c <> 96 ->
  PyStr.startswith fence (s ++ c :: t) = false.
Proof.
  intros Hs Hc. apply N.eqb_neq in Hc. rewrite N.eqb_sym in Hc.
  revert Hs. change fence with [96; 96; 96].
  destruct s as [|a [|b [|e s']]]; cbn [PyStr.startswith app];
    rewrite ?Hc, ?andb_false_r; done.
Qed.

Lemma startswith_fence_json (s : pystr) :
  PyStr.startswith fence s = false -> PyStr.startswith fence_json s = false.
Proof.
  change fence with [96; 96; 96]. change fence_json with ([96; 96; 96] ++ str "json").
  destruct s as [|a [|b [|e s']]]; cbn [PyStr.startswith app]; try done.
  destruct (96 =? a), (96 =? b), (96 =? e); done.
Qed.

Lemma cut_fence_app (d : pystr) (c : N) (t : pystr) :
  PyStr.cut fence d = None -> c <> 96 ->
  PyStr.cut fence (d ++ c :: t)
  = match PyStr.cut fence (c :: t) with
    | Some (a, b) => Some (d ++ a, b)
    | None => None
    end.
Proof.
  intros Hd Hc. induction d as [|x d IH].
  - simpl app. by destruct (PyStr.cut fence (c :: t)) as [[a b]|].
  - apply cut_none_cons in Hd as [Hs Hd].
    cbn [app]. rewrite cut_cons by (by apply (startswith_fence_app (x :: d))).
    rewrite IH by done. by destruct (PyStr.cut fence (c :: t)) as [[a b]|].
Qed.

Lemma cut_fence_json_app (d : pystr) :
  PyStr.cut fence d = None -> PyStr.cut fence_json (d ++ nl ++ fence) = None.
Proof.
  intros Hd. induction d as [|x d IH]; [done|].
  apply cut_none_cons in Hd as [Hs Hd].
  cbn [app]. rewrite cut_cons.
  - by rewrite IH.
  - apply startswith_fence_json. by apply (startswith_fence_app (x :: d)).
Qed.

Lemma split_none (sep s : pystr) : PyStr.cut sep s = None -> PyStr.split sep s = [s].
Proof. intros Hc. unfold PyStr.split. destruct (length s); simpl; by rewrite ?Hc. Qed.

Lemma split_rounds_none (n : nat) (sep s : pystr) :
  PyStr.cut sep s = None -> PyStr.split_rounds n sep s = [s].
Proof. intros Hc. destruct n; simpl; by rewrite ?Hc. Qed.

Lemma split_rounds_cut (n : nat) (sep s a b : pystr) :
  PyStr.cut sep s = Some (a, b) ->
  PyStr.split_rounds (S n) sep s = a :: PyStr.split_rounds n sep b.
Proof. intros Hc. simpl. by rewrite Hc. Qed.

Lemma split_first (sep s a b : pystr) :
  PyStr.cut sep s = Some (a, b) -> s <> [] ->
  PyStr.split sep s !! 0%nat = Some a.
Proof.
  intros Hc Hs. unfold PyStr.split. destruct s as [|c s]; [done|].
  cbn [length]. by rewrite (split_rounds_cut _ _ _ a b).
Qed.

Lemma split_second_last (sep s a b : pystr) :
  PyStr.cut sep s = Some (a, b) -> s <> [] -> PyStr.cut sep b = None ->
  PyStr.split sep s !! 1%nat = Some b.
Proof.
  intros Hc Hs Hb. unfold PyStr.split. destruct s as [|c s]; [done|].
  cbn [length]. rewrite (split_rounds_cut _ _ _ a b) by done.
  by rewrite split_rounds_none.
Qed.

Lemma split_second (sep s a b a' b' : pystr) :
  PyStr.cut sep s = Some (a, b) -> PyStr.cut sep b = Some (a', b') ->
  (2 <= length s)%nat ->
  PyStr.split sep s !! 1%nat = Some a'.
Proof.
  intros Hc Hb Hs. unfold PyStr.split.
  destruct s as [|c [|c' s]]; cbn [length] in *; [lia..|].
  rewrite (split_rounds_cut _ _ _ a b) by done.
  by rewrite (split_rounds_cut _ _ _ a' b').
Qed.

Section Fenced.
Variable d : pystr.
Hypothesis no_fence : PyStr.contains fence d = false.

Lemma no_fence_cut : PyStr.cut fence d = None.
Proof. unfold PyStr.contains in no_fence. by destruct (PyStr.cut fence d). Qed.

Lemma body_no_fence : PyStr.cut fence (nl ++ d ++ nl) = None.
Proof.
  change (nl ++ d ++ nl) with ((10 :: d) ++ 10 :: []).
  rewrite cut_fence_app; [done| |done].
  rewrite cut_cons by done. by rewrite no_fence_cut.
Qed.

Lemma body_then_fence : PyStr.cut fence (nl ++ d ++ nl ++ fence) = Some (nl ++ d ++ nl, []).
Proof.
  change (nl ++ d ++ nl ++ fence) with ((10 :: d) ++ 10 :: fence).
  rewrite cut_fence_app; [|rewrite cut_cons by done; by rewrite no_fence_cut|done].
  by change (PyStr.cut fence (10 :: fence)) with (Some ([10], @nil N)).
Qed.

Lemma body_no_fence_json : PyStr.cut fence_json (nl ++ d ++ nl ++ fence) = None.
Proof.
  change (nl ++ d ++ nl ++ fence) with ((10 :: d) ++ nl ++ fence).
  apply cut_fence_json_app.
  rewrite cut_cons by done. by rewrite no_fence_cut.
Qed.

(** What the first of the two attempts leaves of a block labelled [json]. *)
Lemma between_labelled :
  between fence_json (fenced (str "json") d) = Some (nl ++ d ++ nl).
Proof.
  unfold between, fenced.
  change (fence ++ str "json" ++ nl ++ d ++ nl ++ fence)
    with (fence_json ++ nl ++ d ++ nl ++ fence).
  rewrite (split_second_last _ _ [] (nl ++ d ++ nl ++ fence));
    [|apply cut_prefix|done|apply body_no_fence_json].
  cbn [mbind option_bind].
  by apply (split_first _ _ _ []); [apply body_then_fence|].
Qed.

(** A block without a label fails the first attempt and is read by the
    second. *)
Lemma between_unlabelled_json : between fence_json (fenced [] d) = None.
Proof.
  unfold between, fenced. cbn [app].
  rewrite split_none; [done|].
  change (fence ++ nl ++ d ++ nl ++ fence)
    with (96 :: 96 :: 96 :: nl ++ d ++ nl ++ fence).
  rewrite !cut_cons by done. by rewrite body_no_fence_json.
Qed.

Lemma between_unlabelled : between fence (fenced [] d) = Some (nl ++ d ++ nl).
Proof.
  unfold between, fenced. cbn [app].
  rewrite (split_second _ _ [] (nl ++ d ++ nl ++ fence) (nl ++ d ++ nl) []);
    [|apply cut_prefix|apply body_then_fence|cbn; lia].
  cbn [mbind option_bind].
  rewrite split_none by apply body_no_fence. done.
Qed.

Lemma fenced_contains (label : pystr) : PyStr.contains fence (fenced label d) = true.
Proof. unfold PyStr.contains, fenced. by rewrite cut_prefix. Qed.

Lemma strip_fence_fenced (label : pystr) :
  label = [] \/ label = str "json" ->
  strip_fence (fenced label d) = nl ++ d ++ nl.
Proof.
  intros [-> | ->]; unfold strip_fence; rewrite fenced_contains.
  - by rewrite between_unlabelled_json, between_unlabelled.
  - by rewrite between_labelled.
Qed.

End Fenced.

Lemma strip_fixed (c e : N) (s : pystr) :
  PyStr.isspace c = false -> PyStr.isspace e = false ->
  PyStr.strip (c :: s ++ [e]) = c :: s ++ [e].
Proof.
  intros Hc He. unfold PyStr.strip, PyStr.rstrip.
  cbn [PyStr.lstrip]. rewrite Hc.
  change (c :: s ++ [e]) with ((c :: s) ++ [e]).
  rewrite rev_app_distr. cbn [rev app PyStr.lstrip]. rewrite He.
  change (e :: rev s ++ [c]) with ([e] ++ rev (c :: s)).
  by rewrite rev_app_distr, rev_involutive.
Qed.

Lemma fenced_ends (label d : pystr) :
  fenced label d = 96 :: (96 :: 96 :: label ++ nl ++ d ++ nl ++ [96; 96]) ++ [96].
Proof.
  unfold fenced. change fence with [96; 96; 96]. cbn [app].
  by rewrite <- !app_assoc.
Qed.

Lemma strip_fenced (label d : pystr) : PyStr.strip (fenced label d) = fenced label d.
Proof. rewrite fenced_ends. by apply strip_fixed. Qed.

Lemma text_or_default_fenced (label d : pystr) :
  text_or_default (Some (fenced label d)) = fenced label d.
Proof. by rewrite fenced_ends. Qed.

(** The text that is handed to [json.loads] for a reply that is one fenced
    block. *)
Lemma fenced_text (label d : pystr) :
  PyStr.contains fence d = false -> label = [] \/ label = str "json" ->
  strip_fence (PyStr.strip (text_or_default (Some (fenced label d)))) = nl ++ d ++ nl.
Proof.
  intros Hd Hl. rewrite text_or_default_fenced, strip_fenced.
  by apply strip_fence_fenced.
Qed.

Section Extraction.
Context `{Runtime}.

(** Score mode has no wrapping: a reply that is not an object is lost. *)
Lemma score_not_object (tpl kw : pystr) (w w' : World) (text : option pystr) (v : json) :
  generate_content (PyStr.replace (str "{{ keyword }}") kw tpl) w = (Ok text, w') ->
  json_loads (strip_fence (PyStr.strip (text_or_default text))) = Some v ->
  (forall o, v <> JObj o) ->
  FastapiApp.score tpl kw w = (None, w').
Proof.
  intros Hgen Hloads Hv. unfold FastapiApp.score. unfold_io.
  rewrite Hgen. simpl. rewrite Hloads.
  destruct v as [| | | | | |o]; try done. by destruct (Hv o).
Qed.

(** C4, as it holds of [run_row] and [score].  A JSON value whose text
    holds no triple backtick, printed by [json.dumps] and put in a fenced
    block with the label [json] or without a label, is read back by the
    extraction of row mode: an object comes back unchanged, any other value
    comes back under the key [output].  The value may hold integers, floats
    (finite ones, which [float] reads back from their [repr], and the two
    infinities), strings of scalar values, arrays and objects with distinct
    keys; NaN, which is equal to nothing, is left out.  The bare array
    [[1,2]] comes back as the object with the one member [output].  In score
    mode a reply that parses to anything but an object is dropped, not
    wrapped. *)
Theorem fenced_object_round_trip (py_float : pystr -> pyfloat)
    (float_repr : pyfloat -> pystr) (label : pystr) (v : json) :
  printable py_float float_repr v = true ->
  label = [] \/ label = str "json" ->
  PyStr.contains fence (Json.dumps float_repr v) = false ->
  extract (Json.loads py_float) (Some (fenced label (Json.dumps float_repr v)))
  = Some (match v with JObj d => d | _ => [(str "output", v)] end)
  /\ extract (Json.loads py_float) (Some (str "[1,2]"))
     = Some [(str "output", JArr [JInt 1; JInt 2])]
  /\ (forall tpl kw w w' text u,
        generate_content (PyStr.replace (str "{{ keyword }}") kw tpl) w = (Ok text, w') ->
        json_loads (strip_fence (PyStr.strip (text_or_default text))) = Some u ->
        (forall o, u <> JObj o) ->
        FastapiApp.score tpl kw w = (None, w')).
Proof.
  intros Hplain Hlabel Hfence. split; [|split].
  - unfold extract. rewrite fenced_text by done.
    rewrite loads_dumps by done. by destruct v.
  - reflexivity.
  - intros tpl kw w w' text u. apply score_not_object.
Qed.

End Extraction.

(** A string that holds a fence: the block is cut short and nothing is
    extracted. *)
Lemma fence_in_string_counterexample :
  let o := [(str "a", JStr (str "```"))] in
  plain (JObj o) = true
  /\ extract Stub.loads (Some (fenced (str "json") (Stub.dumps (JObj o)))) = None.
Proof. by vm_compute. Qed.

Lemma fenced_object_round_trip_witness :
  let half := Stub.float_of_literal (str "0.5") in
  let o := [(str "summary", JStr (str "ok")); (str "n", JArr [JInt 1; JNull]);
            (str "ratio", JFloat half); (str "top", JFloat (FInf false));
            (str "low", JFloat (Stub.float_of_literal (str "-12.25e-3")));
            (str "mark", JStr [55357; 32; 128512; 56832])] in
  extract Stub.loads (Some (fenced (str "json") (Stub.dumps (JObj o)))) = Some o
  /\ extract Stub.loads (Some (fenced [] (Stub.dumps (JFloat half))))
     = Some [(str "output", JFloat half)]
  /\ FastapiApp.score (H := Stub.runtime) (str "{{ keyword }}") (str "k")
       (Stub.says [str "[1,2]"]) = (None, Stub.says []).
Proof.
  split; [|split].
  - apply (fenced_object_round_trip (H := Stub.runtime) Stub.float_of_literal Stub.float_repr
             (str "json")
             (JObj [(str "summary", JStr (str "ok")); (str "n", JArr [JInt 1; JNull]);
                    (str "ratio", JFloat (Stub.float_of_literal (str "0.5")));
                    (str "top", JFloat (FInf false));
                    (str "low", JFloat (Stub.float_of_literal (str "-12.25e-3")));
                    (str "mark", JStr [55357; 32; 128512; 56832])]));
      [by vm_compute|by right|by vm_compute].
  - apply (fenced_object_round_trip (H := Stub.runtime) Stub.float_of_literal Stub.float_repr
             [] (JFloat (Stub.float_of_literal (str "0.5"))));
      [by vm_compute|by left|by vm_compute].
  - eapply (fenced_object_round_trip (H := Stub.runtime) Stub.float_of_literal Stub.float_repr
              [] (JInt 7)); [by vm_compute|by left|by vm_compute|..].
    + by vm_compute.
    + by vm_compute.
    + done.
Defined.

(** ** Further properties of the two services *)

Section RowKeys.
Context `{Runtime}.

Lemma gather_Forall_elem {A B} (task : A -> World -> B * World) (P : B -> Prop)
    (xs : list A) (w : World) :
  (forall x w1, x ∈ xs -> P (task x w1).1) ->
  Forall P (gather task xs w).1.
Proof.
  revert w. induction xs as [|x xs IH]; intros w Htask; simpl; [done|].
  pose proof (Htask x w ltac:(left)) as Hx.
  destruct (task x w) as [b w1].
  specialize (IH w1 (fun y w2 Hy => Htask y w2 ltac:(by right))).
  destruct (gather task xs w1) as [bs w2]. by constructor.
Qed.


End RowKeys.

(** One keyword whose reply scores 60 in production: nothing reaches 80 and
    the item is returned by the second filter. *)
Lemma engine_production_witness :
  let req := Examples.kombat [str "shoes"] false in
  let w := Stub.says [Examples.unparseable; Examples.scored 60] in
  let rs := [[(RelevanceScore, JInt 60)]] in
  exists tpl w1 outs high,
    gather (FastapiApp.score tpl) (KeywordKombatRequest.keywords req) w1 = (outs, Stub.says [])
    /\ filter_at_least 80 (FastapiApp.results_raw outs) = Ok high
    /\ (high <> [] /\ rs = high /\ Forall (score_within 80 100) rs
        \/ high = [] /\ filter_at_least 50 (FastapiApp.results_raw outs) = Ok rs
           /\ Forall (score_within 50 79) rs).
Proof.
  apply (engine_production (H := Stub.runtime) (Examples.kombat [str "shoes"] false)
           (Stub.says [Examples.unparseable; Examples.scored 60]));
    by vm_compute.
Defined.

(** A score-mode body without keywords, sent to the engine. *)
Lemma engine_validation_failure_witness :
  FastapiApp.process_unified [(str "mode", JStr (str "keyword-kombat"))] (Stub.says [])
  = (FastapiApp.processing_failed (Stub.missing "keywords"), Stub.says []).
Proof.
  apply (engine_validation_failure (H := Stub.runtime)
           [(str "mode", JStr (str "keyword-kombat"))] (str "keyword-kombat"));
    by vm_compute.
Defined.

(** A row-mode body without rows, sent to the front service. *)
Lemma front_validation_failure_witness :
  FrontandUnified.process_unified [] (Stub.says [])
  = (Http 400 (Detail (str "Invalid freestyle request: data: Field required")), Stub.says []).
Proof.
  apply (front_validation_failure (H := Stub.runtime) [] (str "freestyle")
           (Stub.missing "data"));
    by vm_compute.
Defined.

Section ResearchReply.
Context `{Runtime}.

(** A research reply that parses to a JSON value other than an object is
    not replaced by the default: [company.get] raises outside any handler
    and the request fails.  The engine answers with status 500 and the
    exception as detail. *)
Theorem research_not_object_fails (req : KeywordKombatRequest.t) (body : pydict)
    (r : option pystr) (v : json) (w w1 : World) :
  generate_content (FastapiApp.research_prompt req) w = (Ok r, w1) ->
  json_loads (strip_fence (PyStr.strip (text_or_default r))) = Some v ->
  (forall d, v <> JObj d) ->
  select_mode body = Ok (str "keyword-kombat") ->
  validate_keyword_kombat body = Ok req ->
  exists e, exn_class_of e = AttributeError
    /\ FastapiApp.research req w = (Ok v, w1)
    /\ FastapiApp.process_keyword_kombat req w = (Raise e, w1)
    /\ FastapiApp.process_unified body w
       = (Http 500 (Detail (str "Processing failed: " ++ exn_message e)), w1).
Proof.
  intros Hgen Hloads Hv Hmode Hreq.
  assert (FastapiApp.research req w = (Ok v, w1)) as Hres.
  { rewrite research_eq, Hgen. unfold FastapiApp.company_of. by rewrite Hloads. }
  exists (Exn AttributeError (str "'" ++ type_name v ++ str "' object has no attribute 'get'")).
  assert (FastapiApp.process_keyword_kombat req w
          = (Raise (Exn AttributeError
                      (str "'" ++ type_name v ++ str "' object has no attribute 'get'")), w1))
    as Hrun.
  { rewrite process_keyword_kombat_eq, Hres, score_stage_eq.
    unfold keyword_template, company_get.
    destruct v as [| | | | | |d]; try done. by destruct (Hv d). }
  repeat split; [done|done|].
  rewrite process_unified_kombat by done. by rewrite Hreq, Hrun.
Qed.

End ResearchReply.

Lemma research_not_object_fails_witness :
  let body := Examples.kombat_body [str "shoes"] false in
  exists e, exn_class_of e = AttributeError
    /\ FastapiApp.research (Examples.kombat [str "shoes"] false) (Stub.says [str "[1,2]"])
       = (Ok (JArr [JInt 1; JInt 2]), Stub.says [])
    /\ FastapiApp.process_keyword_kombat (Examples.kombat [str "shoes"] false)
         (Stub.says [str "[1,2]"]) = (Raise e, Stub.says [])
    /\ FastapiApp.process_unified body (Stub.says [str "[1,2]"])
       = (Http 500 (Detail (str "Processing failed: " ++ exn_message e)), Stub.says []).
Proof.
  apply (research_not_object_fails (H := Stub.runtime) (Examples.kombat [str "shoes"] false)
           (Examples.kombat_body [str "shoes"] false) (Some (str "[1,2]"))
           (JArr [JInt 1; JInt 2]));
    by vm_compute.
Defined.

(** ** The clamp of a score *)

(** [int(max(10, min(100, score)))] is the truncated score brought into
    [10, 100]; a NaN and the positive infinity give 100, the negative
    infinity gives 10, and nothing raises. *)
Theorem clamp_score_values (x : pynum) :
  match py_int x with
  | Ok t => clamp_score x = Ok (Z.max 10 (Z.min 100 t))
  | Raise _ =>
      clamp_score x = Ok (match x with PFloat (FInf true) => 10 | _ => 100 end)%Z
  end.
Proof.
  unfold clamp_score, max_int_num, min_int_num, num_gt_int, num_lt_int.
  destruct x as [a|b|[m e|[]|]]; simpl; try done.
  - destruct (Z.compare_spec a 100); simpl; try (f_equal; lia).
    destruct (Z.compare_spec a 10); simpl; f_equal; lia.
  - by destruct b.
  - destruct (Z.leb_spec 0 e) as [He|He].
    + destruct (Z.compare_spec (m * 2 ^ e) 100) as [?|Hlt|?]; simpl;
        try (f_equal; lia).
      destruct (Z.leb_spec 0 e); [|lia].
      destruct (Z.compare_spec (m * 2 ^ e) 10); simpl; try (f_equal; lia).
      destruct (Z.leb_spec 0 e); [|lia]. f_equal; lia.
    + assert (0 < 2 ^ (- e))%Z as Hp by (apply Z.pow_pos_nonneg; lia).
      destruct (Z.compare_spec m (100 * 2 ^ (- e))) as [Heq|Hlt|Hgt]; simpl.
      * f_equal. subst m. rewrite Z.quot_mul by lia. lia.
      * destruct (Z.leb_spec 0 e); [lia|].
        destruct (Z.compare_spec m (10 * 2 ^ (- e))) as [Heq|Hlt'|Hgt]; simpl.
        -- f_equal. subst m. rewrite Z.quot_mul by lia. lia.
        -- f_equal.
           assert (m ÷ 2 ^ (- e) <= 10)%Z; [|lia].
           destruct (Z.le_gt_cases 0 m).
           ++ rewrite Z.quot_div_nonneg by lia.
              assert (m / 2 ^ (- e) < 10 + 1)%Z; [|lia].
              apply Z.div_lt_upper_bound; lia.
           ++ pose proof (Z.quot_opp_l (- m) (2 ^ (- e)) ltac:(lia)) as Hq.
              rewrite Z.opp_involutive in Hq. rewrite Hq.
              pose proof (Z.quot_pos (- m) (2 ^ (- e)) ltac:(lia) ltac:(lia)). lia.
        -- destruct (Z.leb_spec 0 e); [lia|]. f_equal.
           rewrite Z.quot_div_nonneg by lia.
           assert (10 <= m / 2 ^ (- e))%Z by (apply Z.div_le_lower_bound; lia).
           assert (m / 2 ^ (- e) < 100)%Z by (apply Z.div_lt_upper_bound; lia). lia.
      * f_equal. rewrite Z.quot_div_nonneg by lia.
        assert (100 <= m / 2 ^ (- e))%Z by (apply Z.div_le_lower_bound; lia). lia.
Qed.

(** ** Row mode: what reaches the model and what comes back *)

Lemma zip_take_r {A B} (l : list A) (k : list B) : zip l (take (length l) k) = zip l k.
Proof.
  revert k. induction l as [|a l IH]; intros [|b k]; simpl; try done. by rewrite IH.
Qed.

Lemma zip_take_l {A B} (l : list A) (k : list B) : zip (take (length k) l) k = zip l k.
Proof.
  revert k. induction l as [|a l IH]; intros [|b k]; simpl; try done. by rewrite IH.
Qed.

Section RowPrompt.
Context `{Runtime}.
Import FreestyleRequest.

(** The prompt of a row pairs the headers with the values by position: the
    values beyond the last header never reach the model, and a header
    without a value is left out. *)
Theorem row_prompt_pairs_by_position (request : FreestyleRequest.t) (row_values : list json) :
  FastapiApp.row_prompt request row_values
  = FastapiApp.row_prompt request (take (length (headers request)) row_values)
  /\ FastapiApp.row_prompt request row_values
     = FastapiApp.row_prompt
         (Make (data request) (take (length row_values) (headers request)) (prompt request)
            (batch_size request) (enable_google_search request) (test_mode request)
            (mode request))
         row_values.
Proof.
  unfold FastapiApp.row_prompt. simpl. by rewrite zip_take_r, zip_take_l.
Qed.



Lemma collect_none (outs : list (option (pystr * pydict))) :
  Forall (fun out => out = None) outs -> FastapiApp.collect outs = [].
Proof. induction 1 as [|out outs -> _ IH]; simpl; done. Qed.

(** With a positive batch size the code of row mode does not fail, whatever
    the model does: the run returns a response with [success = true] and
    the handler returns it to the server.  The server answers with status
    200 unless a result holds a NaN, an infinity or a surrogate, which it
    cannot render.
    When every call of the model raises, the response has no result,
    [processed_count = 0], and the answer is 200. *)
Theorem row_mode_run_returns (body : pydict) (mode : pystr) (request : FreestyleRequest.t)
    (w : World) :
  select_mode body = Ok mode -> mode <> str "keyword-kombat" ->
  validate_freestyle body = Ok request ->
  (0 < batch_size request)%Z ->
  exists resp w',
    FastapiApp.process_rows_freestyle request w = (Ok resp, w')
    /\ success resp = true
    /\ total_count resp = length (data request)
    /\ FastapiApp.process_unified body w
       = (if forallb (fun o => renderable (JObj o)) (results resp)
          then Http 200 (RowsBody resp) else Http 500 InternalServerError, w')
    /\ ((forall p w1, exists e w2, generate_content p w1 = (Raise e, w2)) ->
        results resp = [] /\ processed_count resp = 0%nat
        /\ FastapiApp.process_unified body w = (Http 200 (RowsBody resp), w')).
Proof.
  intros Hmode Hne Hreq Hpos.
  rewrite (process_unified_freestyle body mode) by done. rewrite Hreq.
  rewrite process_rows_one_pass by done.
  pose proof (gather_Forall_elem (fun kv => FastapiApp.run_row request kv.1 kv.2)
                (fun out => out = None) (data request) w) as Hnone.
  destruct (gather _ _ w) as [outs w']. simpl in Hnone.
  eexists _, w'. split; [done|]. split; [done|]. split; [done|]. split; [done|].
  intros Hfail. simpl.
  assert (FastapiApp.collect outs = []) as ->; [|done].
  apply collect_none, Hnone. intros [k v] w1 _. unfold FastapiApp.run_row. unfold_io. simpl.
  by destruct (Hfail (FastapiApp.row_prompt request v) w1) as (e & w2 & ->).
Qed.

(** A reply without text stands for the empty object: the row is kept and
    its result has the one member [row_key].  A reply of white space only is
    stripped to the empty text, which does not parse: the row is dropped. *)
Theorem empty_reply_counts_as_processed (request : FreestyleRequest.t) (row_key : pystr)
    (row_values : list json) (text : option pystr) (w w' : World) :
  generate_content (FastapiApp.row_prompt request row_values) w = (Ok text, w') ->
  json_loads (str "{}") = Some (JObj []) -> json_loads [] = None ->
  match text with
  | None | Some [] =>
      FastapiApp.run_row request row_key row_values w = (Some (row_key, []), w')
      /\ FastapiApp.collect [Some (row_key, [])] = [[(str "row_key", JStr row_key)]]
  | Some t =>
      forallb PyStr.isspace t = true ->
      FastapiApp.run_row request row_key row_values w = (None, w')
  end.
Proof.
  intros Hgen Hobj Hempty.
  assert (text = None \/ text = Some [] ->
          FastapiApp.run_row request row_key row_values w = (Some (row_key, []), w')
          /\ FastapiApp.collect [Some (row_key, [])] = [[(str "row_key", JStr row_key)]])
    as Hnone.
  { intros Htext. split; [|done].
    unfold FastapiApp.run_row. unfold_io. rewrite Hgen. simpl.
    assert (extract json_loads text = Some []) as ->; [|done].
    unfold extract.
    replace (strip_fence (PyStr.strip (text_or_default text))) with (str "{}");
      [by rewrite Hobj|].
    by destruct Htext as [-> | ->]. }
  destruct text as [[|c t]|]; [by auto| |by auto].
  intros Hws.
  unfold FastapiApp.run_row. unfold_io. rewrite Hgen. simpl.
  assert (extract json_loads (Some (c :: t)) = None) as ->; [|done].
  unfold extract. cbn [text_or_default].
  assert (PyStr.lstrip (c :: t) = []) as Hl.
  { clear Hgen Hnone. revert Hws. generalize (c :: t). intros s.
    induction s as [|x s IH]; [done|]. simpl.
    intros [-> Ht]%andb_true_iff. auto. }
  unfold PyStr.strip, PyStr.rstrip. rewrite Hl. simpl.
  change (strip_fence []) with (@nil N). by rewrite Hempty.
Qed.

End RowPrompt.


(** Two replies that parse and that the server cannot render: the row is
    processed, and the request is answered with status 500. *)
Lemma unrenderable_reply_fails :
  FastapiApp.process_unified (H := Stub.runtime) (Examples.row_body 10)
    (Stub.says [str "NaN"])
  = (Http 500 InternalServerError, Stub.says [])
  /\ FastapiApp.process_unified (H := Stub.runtime) (Examples.row_body 10)
       (Stub.says [str "{" ++ [34] ++ str "a" ++ [34] ++ str ": " ++ [34]
                   ++ str "\ud800" ++ [34] ++ str "}"])
     = (Http 500 InternalServerError, Stub.says [])
  /\ FastapiApp.process_unified (H := Stub.runtime) (Examples.row_body 10)
       (Stub.says [Examples.summary_ok])
     = (Http 200 (RowsBody {| success := true;
                              results := [[(str "row_key", JStr (str "r1"));
                                           (str "summary", JStr (str "ok"))]];
                              processed_count := 1; total_count := 1 |}),
        Stub.says []).
Proof. repeat split; by vm_compute. Qed.

Lemma row_mode_run_returns_witness :
  exists resp w',
    FastapiApp.process_rows_freestyle (Examples.one_row 10) (Stub.says []) = (Ok resp, w')
    /\ success resp = true
    /\ total_count resp = 1%nat
    /\ FastapiApp.process_unified (Examples.row_body 10) (Stub.says [])
       = (if forallb (fun o => renderable (JObj o)) (results resp)
          then Http 200 (RowsBody resp) else Http 500 InternalServerError, w')
    /\ ((forall p w1, exists e w2, Stub.next_reply p w1 = (Raise e, w2)) ->
        results resp = [] /\ processed_count resp = 0%nat
        /\ FastapiApp.process_unified (Examples.row_body 10) (Stub.says [])
           = (Http 200 (RowsBody resp), w')).
Proof.
  apply (row_mode_run_returns (H := Stub.runtime) (Examples.row_body 10) (str "freestyle")
           (Examples.one_row 10) (Stub.says []));
    (by vm_compute) || lia.
Defined.

Lemma empty_reply_counts_as_processed_witness :
  let request := Examples.one_row 10 in
  (FastapiApp.run_row (H := Stub.runtime) request (str "r1") [JStr (str "a")]
     (Stub.Script [Ok None] []) = (Some (str "r1", []), Stub.says [])
   /\ FastapiApp.collect [Some (str "r1", [])] = [[(str "row_key", JStr (str "r1"))]])
  /\ FastapiApp.run_row (H := Stub.runtime) request (str "r1") [JStr (str "a")]
       (Stub.says [str "  "]) = (None, Stub.says []).
Proof.
  split.
  - apply (empty_reply_counts_as_processed (H := Stub.runtime) (Examples.one_row 10) (str "r1")
             [JStr (str "a")] None (Stub.Script [Ok None] []) (Stub.says []));
      by vm_compute.
  - apply (empty_reply_counts_as_processed (H := Stub.runtime) (Examples.one_row 10) (str "r1")
             [JStr (str "a")] (Some (str "  ")) (Stub.says [str "  "]) (Stub.says []));
      by vm_compute.
Defined.

(** ** The answers of [POST /process] *)

Section Answers.
Context `{Runtime}.

(** [(body.get("mode") or "freestyle").strip()] stands before the [try] in
    both handlers.  A [mode] that is true and no string (a number other than
    0, [true], a list or an object that is not empty) raises there, so the
    exception leaves the handler of either service: status 500, and nothing
    has been called. *)
Theorem mode_not_a_string_fails (body : pydict) (v : json) (w : World) :
  Dict.get (str "mode") body = Some v -> py_bool v = true -> (forall m, v <> JStr m) ->
  (exists e, select_mode body = Raise e /\ exn_class_of e = AttributeError)
  /\ FastapiApp.process_unified body w = (Http 500 InternalServerError, w)
  /\ FrontandUnified.process_unified body w = (Http 500 InternalServerError, w).
Proof.
  intros Hget Hb Hv.
  assert (exists e, select_mode body = Raise e /\ exn_class_of e = AttributeError)
    as (e & He & Hclass).
  { exists (Exn AttributeError
              (str "'" ++ type_name v ++ str "' object has no attribute 'strip'")).
    split; [|done]. unfold select_mode. rewrite Hget, Hb.
    destruct v as [| | | |m| |]; try done. by destruct (Hv m). }
  split; [by exists e|].
  split; [unfold FastapiApp.process_unified|unfold FrontandUnified.process_unified];
    by rewrite He.
Qed.

(** Row mode in the front service never passes the status of the engine on.
    An upstream answer with another status than 200 raises an
    [HTTPException] inside the second [try], whose own [except] turns it,
    like a body that is not JSON and like a request that failed, into
    status 500 with the detail [Freestyle processing failed: ...].  An
    upstream answer with status 200 and a JSON body is returned to the
    server, which renders it unless it holds a NaN, an infinity or a
    surrogate. *)
Theorem front_row_mode_answers (body : pydict) (mode : pystr) (request : FreestyleRequest.t)
    (w : World) :
  select_mode body = Ok mode -> mode <> str "keyword-kombat" ->
  validate_freestyle body = Ok request ->
  match requests_post FrontandUnified.proxy_url (FrontandUnified.proxy_payload request) w with
  | (Ok (status, text), w') =>
      if decide (status = 200%Z) then
        match json_loads text with
        | Some v =>
            FrontandUnified.process_unified body w
            = (if renderable v then Http 200 (JsonBody v)
               else Http 500 InternalServerError, w')
        | None =>
            exists msg,
              FrontandUnified.process_unified body w
              = (Http 500 (Detail (str "Freestyle processing failed: " ++ msg)), w')
        end
      else
        exists msg,
          FrontandUnified.process_unified body w
          = (Http 500 (Detail (str "Freestyle processing failed: " ++ msg)), w')
  | (Raise e, w') =>
      FrontandUnified.process_unified body w
      = (Http 500 (Detail (str "Freestyle processing failed: " ++ exn_message e)), w')
  end.
Proof.
  intros Hmode Hne Hreq.
  unfold FrontandUnified.process_unified. rewrite Hmode.
  destruct (decide _) as [|_]; [done|]. rewrite Hreq.
  unfold FrontandUnified.forward. unfold_io.
  destruct (requests_post _ _ w) as [[[status text]|e] w']; simpl; [|done].
  destruct (decide (status = 200%Z)); simpl.
  - destruct (json_loads text); simpl; eauto.
  - eauto.
Qed.

End Answers.

Lemma mode_not_a_string_fails_witness :
  let body := [(str "mode", JInt 1)] in
  (exists e, select_mode body = Raise e /\ exn_class_of e = AttributeError)
  /\ FastapiApp.process_unified body (Stub.says []) = (Http 500 InternalServerError, Stub.says [])
  /\ FrontandUnified.process_unified body (Stub.says [])
     = (Http 500 InternalServerError, Stub.says []).
Proof.
  apply (mode_not_a_string_fails (H := Stub.runtime) [(str "mode", JInt 1)] (JInt 1)
           (Stub.says [])); by vm_compute.
Defined.

Lemma front_row_mode_answers_witness :
  exists msg,
    FrontandUnified.process_unified (Examples.row_body 10)
      (Stub.Script [] [Ok (503%Z, str "busy")])
    = (Http 500 (Detail (str "Freestyle processing failed: " ++ msg)), Stub.says []).
Proof.
  apply (front_row_mode_answers (H := Stub.runtime) (Examples.row_body 10) (str "freestyle")
           (Examples.one_row 10) (Stub.Script [] [Ok (503%Z, str "busy")]));
    by vm_compute.
Defined.

(** ** The two copies of score mode *)

Lemma dict_set_not_nil (k : pystr) (v : json) (d : pydict) : Dict.set k v d <> [].
Proof. destruct d as [|[k' v'] d]; simpl; [done|]. by destruct (decide _). Qed.

Lemma result_bind_ret {A} (r : result A) : result_bind (fun a => Ok a) r = r.
Proof. by destruct r. Qed.

Section TwoCopies.
Context `{Runtime}.
Import KeywordKombatRequest.

(** The scoring tasks of the two services read the reply in the same way;
    the engine also writes the score 10 when the reply has none. *)
Lemma score_kw_score (tpl kw : pystr) (w : World) :
  (FrontandUnified.score_kw tpl kw w).2 = (FastapiApp.score tpl kw w).2
  /\ same_but_default (FastapiApp.score tpl kw w).1 (FrontandUnified.score_kw tpl kw w).1.
Proof.
  unfold FastapiApp.score, FrontandUnified.score_kw, same_but_default. unfold_io.
  destruct (generate_content _ w) as [[text|e] w1]; simpl; [|by auto].
  destruct (json_loads _) as [[| | | | | |obj]|]; simpl; try by auto.
  unfold Dict.get_default.
  destruct (Dict.get RelevanceScore obj) as [v|] eqn:Hget; simpl.
  - destruct (as_number v) as [x|]; simpl; [|by auto].
    destruct (clamp_score_range x) as (z & -> & _). simpl. by auto.
  - split; [done|]. right. by exists obj.
Qed.

Lemma gather_score_kw_score (tpl : pystr) (kws : list pystr) (w : World) :
  (gather (FrontandUnified.score_kw tpl) kws w).2 = (gather (FastapiApp.score tpl) kws w).2
  /\ Forall2 same_but_default (gather (FastapiApp.score tpl) kws w).1
       (gather (FrontandUnified.score_kw tpl) kws w).1.
Proof.
  revert w. induction kws as [|kw kws IH]; intros w; simpl; [by split|].
  destruct (score_kw_score tpl kw w) as [Hw Hout].
  destruct (FastapiApp.score tpl kw w) as [o1 w1].
  destruct (FrontandUnified.score_kw tpl kw w) as [o2 w2]. simpl in *. subst w2.
  destruct (IH w1) as [Hws Houts].
  destruct (gather (FastapiApp.score tpl) kws w1) as [os1 w3].
  destruct (gather (FrontandUnified.score_kw tpl) kws w1) as [os2 w4]. simpl in *.
  split; [done|]. by constructor.
Qed.

(** The loop of the front service selects what the first filter of the
    engine selects. *)
Lemma keep_high_filter (outs1 outs2 : list (option pydict)) :
  Forall2 same_but_default outs1 outs2 ->
  FrontandUnified.keep_high outs2 = filter_at_least 80 (FastapiApp.results_raw outs1).
Proof.
  unfold FastapiApp.results_raw.
  induction 1 as [|o1 o2 outs1 outs2 Ho _ IH]; [done|].
  cbn [FrontandUnified.keep_high omap list_omap]. rewrite IH.
  unfold mbind, result_mbind.
  destruct Ho as [<-|(obj & Hget & -> & ->)].
  - destruct o1 as [[|kv d]|]; simpl.
    + apply result_bind_ret.
    + done.
    + apply result_bind_ret.
  - assert (truthy (Some (Dict.set RelevanceScore (JInt 10) obj)) = true) as ->.
    { pose proof (dict_set_not_nil RelevanceScore (JInt 10) obj).
      by destruct (Dict.set RelevanceScore (JInt 10) obj). }
    cbn [filter_at_least mbind result_mbind].
    assert (score_at_least 80 (Dict.set RelevanceScore (JInt 10) obj) = Ok false) as ->.
    { unfold score_at_least, Dict.get_default. by rewrite dict_get_set_eq. }
    assert ((if truthy (Some obj) then score_at_least 80 (default [] (Some obj)) else Ok false)
            = Ok false) as ->.
    { change (default [] (Some obj)) with obj.
      assert (score_at_least 80 obj = Ok false) as ->
        by (unfold score_at_least, Dict.get_default; by rewrite Hget).
      by destruct (truthy (Some obj)). }
    simpl. by rewrite !result_bind_ret.
Qed.

(** Given the same company, the front service returns what the first filter
    of the engine keeps (the items that reached 80), and leaves the world as
    the engine does; it raises when that filter raises.  So whenever some
    item reached 80 the two services return the same list; when none did,
    the front service returns nothing where the engine returns the
    placeholders or the items that reached 50. *)
Theorem front_returns_engine_first_filter (req : KeywordKombatRequest.t) (company : json)
    (w : World) :
  FrontandUnified.score_stage (keywords req) (test_mode req) company w
  = match keyword_template company with
    | Raise e => (Raise e, w)
    | Ok tpl =>
        let '(outs, w') := gather (FastapiApp.score tpl) (FastapiApp.scored_keywords req) w in
        (filter_at_least 80 (FastapiApp.results_raw outs), w')
    end
  /\ forall rs w',
       FastapiApp.score_stage req company w = (Ok rs, w') ->
       exists high,
         FrontandUnified.score_stage (keywords req) (test_mode req) company w = (Ok high, w')
         /\ (high <> [] -> rs = high)
         /\ (high = [] -> test_mode req = true ->
             rs = map FastapiApp.placeholder (FastapiApp.scored_keywords req)).
Proof.
  assert (FrontandUnified.score_stage (keywords req) (test_mode req) company w
          = match keyword_template company with
            | Raise e => (Raise e, w)
            | Ok tpl =>
                let '(outs, w') :=
                  gather (FastapiApp.score tpl) (FastapiApp.scored_keywords req) w in
                (filter_at_least 80 (FastapiApp.results_raw outs), w')
            end) as Heq.
  { rewrite front_score_stage_eq.
    destruct (keyword_template company) as [tpl|e]; [|done].
    change (FrontandUnified.scored_keywords (keywords req) (test_mode req))
      with (FastapiApp.scored_keywords req).
    destruct (gather_score_kw_score tpl (FastapiApp.scored_keywords req) w) as [Hw Houts].
    destruct (gather (FastapiApp.score tpl) _ w) as [os1 w1].
    destruct (gather (FrontandUnified.score_kw tpl) _ w) as [os2 w2]. simpl in *. subst w2.
    by rewrite (keep_high_filter os1 os2). }
  split; [exact Heq|].
  intros rs w'. rewrite Heq, score_stage_eq.
  destruct (keyword_template company) as [tpl|e]; [|done].
  destruct (gather (FastapiApp.score tpl) _ w) as [outs w1].
  unfold FastapiApp.select_results, mbind, result_mbind, result_bind.
  destruct (filter_at_least 80 (FastapiApp.results_raw outs)) as [high|e]; [|done].
  intros [= Hrs <-]. exists high. split; [done|].
  destruct high as [|o high].
  - split; [done|]. intros _ Ht. rewrite Ht in Hrs. by injection Hrs.
  - split; [|done]. intros _. by injection Hrs.
Qed.

End TwoCopies.

(** ** The calls of the model in score mode *)

Section ScoreCalls.
Context (R : Runtime).
Import KeywordKombatRequest.






End ScoreCalls.

(** ** Replies with prose around the block, and blocks with another label *)

Lemma cut_skip_plain (sep' p s : pystr) :
  96 ∉ p ->
  PyStr.cut (96 :: sep') (p ++ s)
  = match PyStr.cut (96 :: sep') s with
    | Some (a, b) => Some (p ++ a, b)
    | None => None
    end.
Proof.
  intros Hp. induction p as [|x p IH].
  - simpl app. by destruct (PyStr.cut (96 :: sep') s) as [[a b]|].
  - apply not_elem_of_cons in Hp as [Hx Hp].
    cbn [app]. rewrite cut_cons.
    + rewrite IH by done. by destruct (PyStr.cut (96 :: sep') s) as [[a b]|].
    + cbn [PyStr.startswith].
      by replace (96 =? x) with false by (symmetry; apply N.eqb_neq; congruence).
Qed.

Lemma cut_plain (sep' p : pystr) : 96 ∉ p -> PyStr.cut (96 :: sep') p = None.
Proof.
  intros Hp. pose proof (cut_skip_plain sep' p [] Hp) as Hc.
  by rewrite app_nil_r in Hc.
Qed.

Lemma lstrip_app (a r : pystr) (c : N) :
  PyStr.isspace c = false -> PyStr.lstrip (a ++ c :: r) = PyStr.lstrip a ++ c :: r.
Proof.
  intros Hc. induction a as [|x a IH]; simpl.
  - by rewrite Hc.
  - by destruct (PyStr.isspace x).
Qed.

Lemma rstrip_app (m b : pystr) (e : N) :
  PyStr.isspace e = false -> PyStr.rstrip (m ++ e :: b) = m ++ e :: PyStr.rstrip b.
Proof.
  intros He. unfold PyStr.rstrip.
  rewrite rev_app_distr. cbn [rev]. rewrite <- app_assoc. cbn [app].
  rewrite lstrip_app by done.
  rewrite rev_app_distr. cbn [rev]. rewrite rev_involutive.
  by rewrite <- app_assoc.
Qed.

Lemma lstrip_suffix (s : pystr) : exists t, s = t ++ PyStr.lstrip s.
Proof.
  induction s as [|c s [t IH]]; [by exists []|]. simpl.
  destruct (PyStr.isspace c).
  - exists (c :: t). cbn [app]. by f_equal.
  - by exists [].
Qed.

Lemma rstrip_prefix (s : pystr) : exists t, s = PyStr.rstrip s ++ t.
Proof.
  unfold PyStr.rstrip. destruct (lstrip_suffix (rev s)) as [t Ht].
  exists (rev t). rewrite <- rev_app_distr, <- Ht. by rewrite rev_involutive.
Qed.

Lemma startswith_prefix (p x t : pystr) :
  PyStr.startswith p x = true -> PyStr.startswith p (x ++ t) = true.
Proof.
  revert x. induction p as [|a p IH]; intros [|b x]; simpl; try done.
  intros [-> Hp]%andb_true_iff. by rewrite IH.
Qed.

(** The text around a block, after [strip]. *)
Lemma strip_around (a m b : pystr) :
  PyStr.strip (a ++ (96 :: m ++ [96]) ++ b)
  = PyStr.lstrip a ++ (96 :: m ++ [96]) ++ PyStr.rstrip b.
Proof.
  unfold PyStr.strip. cbn [app]. rewrite lstrip_app by done.
  replace (PyStr.lstrip a ++ 96 :: (m ++ [96]) ++ b)
    with ((PyStr.lstrip a ++ 96 :: m) ++ 96 :: b)
    by (rewrite <- !app_assoc; done).
  rewrite rstrip_app by done. by rewrite <- !app_assoc.
Qed.

Lemma startswith_json_plain (k : nat) (p : pystr) :
  96 ∉ p -> (k < 3)%nat -> PyStr.startswith fence_json (replicate k 96 ++ p) = false.
Proof.
  intros Hp Hk. change fence_json with (96 :: 96 :: 96 :: str "json").
  destruct k as [|[|[|k]]]; [..|lia]; cbn [replicate app PyStr.startswith];
    (destruct p as [|c p]; [by rewrite ?andb_false_r|]);
    apply not_elem_of_cons in Hp as [Hc _];
    replace (96 =? c) with false by (symmetry; apply N.eqb_neq; congruence);
    by rewrite ?andb_false_r.
Qed.

Section Prose.
Variables d before after : pystr.
Hypothesis no_fence : PyStr.contains fence d = false.
Hypothesis plain_before : 96 ∉ before.
Hypothesis plain_after : 96 ∉ after.
Hypothesis after_not_label : PyStr.startswith (str "json") after = false.

Lemma closing_fence_json : PyStr.cut fence_json (fence ++ after) = None.
Proof.
  change (fence ++ after) with (96 :: 96 :: 96 :: after).
  rewrite cut_cons.
  2:{ change fence_json with (96 :: 96 :: 96 :: str "json").
      cbn [PyStr.startswith]. by rewrite !N.eqb_refl. }
  rewrite cut_cons by apply (startswith_json_plain 2 after plain_after ltac:(lia)).
  rewrite cut_cons by apply (startswith_json_plain 1 after plain_after ltac:(lia)).
  change fence_json with (96 :: 96 :: 96 :: str "json").
  by rewrite cut_plain.
Qed.

Lemma body_no_fence_json_after :
  PyStr.cut fence_json (nl ++ d ++ nl ++ fence ++ after) = None.
Proof.
  assert (forall x, PyStr.cut fence x = None ->
            PyStr.cut fence_json (x ++ nl ++ fence ++ after) = None) as Hgen.
  { induction x as [|c x IH]; intros Hx.
    - cbn [app nl]. rewrite cut_cons by done. by rewrite closing_fence_json.
    - apply cut_none_cons in Hx as [Hs Hx].
      cbn [app]. rewrite cut_cons.
      + by rewrite IH.
      + apply startswith_fence_json. by apply (startswith_fence_app (c :: x)). }
  change (nl ++ d ++ nl ++ fence ++ after) with ((10 :: d) ++ nl ++ fence ++ after).
  apply Hgen. rewrite cut_cons by done. by rewrite (no_fence_cut d).
Qed.

Lemma body_then_fence_after :
  PyStr.cut fence (nl ++ d ++ nl ++ fence ++ after) = Some (nl ++ d ++ nl, after).
Proof.
  change (nl ++ d ++ nl ++ fence ++ after) with ((10 :: d) ++ 10 :: fence ++ after).
  rewrite cut_fence_app;
    [|rewrite cut_cons by done; by rewrite (no_fence_cut d)|done].
  rewrite cut_cons by done. by rewrite cut_prefix.
Qed.

Lemma strip_fence_prose (label : pystr) :
  label = [] \/ label = str "json" ->
  strip_fence (before ++ fenced label d ++ after) = nl ++ d ++ nl.
Proof.
  intros Hlabel. unfold strip_fence, fenced.
  replace (before ++ (fence ++ label ++ nl ++ d ++ nl ++ fence) ++ after)
    with (before ++ fence ++ label ++ nl ++ d ++ nl ++ fence ++ after)
    by (by rewrite <- !app_assoc).
  assert (PyStr.contains fence (before ++ fence ++ label ++ nl ++ d ++ nl ++ fence ++ after)
          = true) as ->.
  { unfold PyStr.contains. change fence with (96 :: [96; 96]) at 1.
    rewrite cut_skip_plain by done.
    change (96 :: [96; 96]) with fence. by rewrite cut_prefix. }
  destruct Hlabel as [-> | ->].
  - cbn [app].
    assert (between fence_json (before ++ fence ++ nl ++ d ++ nl ++ fence ++ after) = None)
      as ->.
    { unfold between. rewrite split_none; [done|].
      change fence_json with (96 :: 96 :: 96 :: str "json").
      rewrite cut_skip_plain by done.
      change (96 :: 96 :: 96 :: str "json") with fence_json.
      change (fence ++ nl ++ d ++ nl ++ fence ++ after)
        with (96 :: 96 :: 96 :: nl ++ d ++ nl ++ fence ++ after).
      rewrite !cut_cons by done. by rewrite body_no_fence_json_after. }
    assert (between fence (before ++ fence ++ nl ++ d ++ nl ++ fence ++ after)
            = Some (nl ++ d ++ nl)) as ->; [|done].
    unfold between.
    rewrite (split_second _ _ before (nl ++ d ++ nl ++ fence ++ after) (nl ++ d ++ nl) after).
    + cbn [mbind option_bind]. by rewrite split_none by apply (body_no_fence d no_fence).
    + change fence with (96 :: [96; 96]) at 1. rewrite cut_skip_plain by done.
      change (96 :: [96; 96]) with fence. by rewrite cut_prefix, app_nil_r.
    + apply body_then_fence_after.
    + rewrite length_app. cbn. lia.
  - change (fence ++ str "json" ++ nl ++ d ++ nl ++ fence ++ after)
      with (fence_json ++ nl ++ d ++ nl ++ fence ++ after).
    assert (between fence_json (before ++ fence_json ++ nl ++ d ++ nl ++ fence ++ after)
            = Some (nl ++ d ++ nl)) as ->; [|done].
    unfold between.
    rewrite (split_second_last _ _ before (nl ++ d ++ nl ++ fence ++ after)).
    + cbn [mbind option_bind].
      by apply (split_first _ _ _ after); [apply body_then_fence_after|].
    + change fence_json with (96 :: 96 :: 96 :: str "json") at 1.
      rewrite cut_skip_plain by done.
      change (96 :: 96 :: 96 :: str "json") with fence_json.
      by rewrite cut_prefix, app_nil_r.
    + intros Hnil. apply app_eq_nil in Hnil as [_ Hnil]. done.
    + apply body_no_fence_json_after.
Qed.

End Prose.

Lemma lstrip_elem (x : N) (s : pystr) : x ∈ PyStr.lstrip s -> x ∈ s.
Proof.
  destruct (lstrip_suffix s) as [t Ht]. intros Hx. rewrite Ht.
  apply elem_of_app. by right.
Qed.

Lemma rstrip_elem (x : N) (s : pystr) : x ∈ PyStr.rstrip s -> x ∈ s.
Proof.
  destruct (rstrip_prefix s) as [t Ht]. intros Hx. rewrite Ht.
  apply elem_of_app. by left.
Qed.

(** A reply with prose before and after the fenced block: row mode reads
    the block.  The prose holds no backtick and the text after the block
    does not start with [json]; the block is labelled [json] or has no
    label, and its content is the text of a plain value without a triple
    backtick. *)
Theorem extract_tolerates_prose (py_float : pystr -> pyfloat)
    (float_repr : pyfloat -> pystr) (label before after : pystr) (v : json) :
  plain v = true ->
  label = [] \/ label = str "json" ->
  PyStr.contains fence (Json.dumps float_repr v) = false ->
  96 ∉ before -> 96 ∉ after -> PyStr.startswith (str "json") after = false ->
  extract (Json.loads py_float)
    (Some (before ++ fenced label (Json.dumps float_repr v) ++ after))
  = Some (match v with JObj d => d | _ => [(str "output", v)] end).
Proof.
  intros Hplain Hlabel Hfence Hbefore Hafter Hjson. unfold extract.
  assert (text_or_default (Some (before ++ fenced label (Json.dumps float_repr v) ++ after))
          = before ++ fenced label (Json.dumps float_repr v) ++ after) as ->.
  { rewrite fenced_ends. by destruct before. }
  rewrite fenced_ends, strip_around, <- fenced_ends.
  rewrite strip_fence_prose; try done.
  - rewrite loads_dumps by (by apply plain_printable). by destruct v.
  - intros Hin. by apply Hbefore, lstrip_elem.
  - intros Hin. by apply Hafter, rstrip_elem.
  - destruct (rstrip_prefix after) as [t Ht].
    destruct (PyStr.startswith (str "json") (PyStr.rstrip after)) eqn:Hs; [|done].
    apply (startswith_prefix _ _ t) in Hs. rewrite <- Ht in Hs. congruence.
Qed.

Lemma extract_tolerates_prose_witness :
  extract Stub.loads
    (Some (str "Here is the result: " ++ fenced (str "json") Examples.summary_ok
           ++ str " I hope this helps."))
  = Some [(str "summary", JStr (str "ok"))].
Proof.
  apply (extract_tolerates_prose Stub.float_of_literal Stub.float_repr (str "json")
           (str "Here is the result: ") (str " I hope this helps.")
           (JObj [(str "summary", JStr (str "ok"))]));
    try (by vm_compute); [by right|..]; by apply (bool_decide_unpack _).
Defined.

(** ** A block with another label *)

Lemma startswith_then_nl (p l r : pystr) :
  10 ∉ p -> PyStr.startswith p l = false -> PyStr.startswith p (l ++ 10 :: r) = false.
Proof.
  revert l. induction p as [|a p IH]; intros l Hp; [done|].
  apply not_elem_of_cons in Hp as [Ha Hp].
  destruct l as [|b l]; cbn [app PyStr.startswith].
  - intros _. by replace (a =? 10) with false by (symmetry; apply N.eqb_neq; congruence).
  - intros [->|Hl]%andb_false_iff; [done|]. rewrite IH by done. apply andb_false_r.
Qed.

(** A text that starts with a letter other than the first letter of a JSON
    constant is no JSON text. *)
Lemma loads_letter (py_float : pystr -> pyfloat) (c : N) (t : pystr) :
  65 <= c <= 90 \/ 97 <= c <= 122 ->
  c <> 110 -> c <> 116 -> c <> 102 -> c <> 78 -> c <> 73 ->
  Json.loads py_float (c :: t) = None.
Proof.
  intros Hletter Hn Ht Hf HN HI. unfold Json.loads.
  rewrite skip_ws_head by (unfold Json.is_ws; digit_tests c; done).
  cbn [length Json.scan_once]. digit_tests c. cbv iota.
  rewrite (startswith_other_head "null" 110 _ _ c eq_refl) by lia.
  rewrite (startswith_other_head "true" 116 _ _ c eq_refl) by lia.
  rewrite (startswith_other_head "false" 102 _ _ c eq_refl) by lia.
  rewrite (startswith_other_head "NaN" 78 _ _ c eq_refl) by lia.
  rewrite (startswith_other_head "Infinity" 73 _ _ c eq_refl) by lia.
  rewrite (startswith_other_head "-Infinity" 45 _ _ c eq_refl) by lia.
  unfold Json.scan_number. digit_tests c.
  assert (Json.is_digit c = false) as ->; [|done].
  unfold Json.is_digit. apply andb_false_iff.
  right. apply N.leb_gt. lia.
Qed.

(** A block whose label is a word other than [json], such as [JSON] or
    [javascript], is not read: the label stays at the head of the text that
    is handed to [json.loads], which rejects it, whatever the block holds.
    Row mode then drops the row. *)
Theorem other_label_is_not_extracted (py_float : pystr -> pyfloat) (c : N)
    (label d : pystr) :
  65 <= c <= 90 \/ 97 <= c <= 122 ->
  c <> 110 -> c <> 116 -> c <> 102 -> c <> 78 -> c <> 73 ->
  96 ∉ label -> PyStr.startswith (str "json") (c :: label) = false ->
  PyStr.contains fence d = false ->
  strip_fence (PyStr.strip (text_or_default (Some (fenced (c :: label) d))))
  = (c :: label) ++ nl ++ d ++ nl
  /\ extract (Json.loads py_float) (Some (fenced (c :: label) d)) = None.
Proof.
  intros Hletter Hn Ht Hf HN HI Hlabel Hjson Hd.
  assert (96 ∉ c :: label) as Hplain.
  { apply not_elem_of_cons. split; [lia|done]. }
  assert (PyStr.cut fence ((c :: label) ++ nl ++ d ++ nl) = None) as Hbody.
  { change fence with (96 :: [96; 96]). rewrite cut_skip_plain by done.
    change (96 :: [96; 96]) with fence. by rewrite (body_no_fence d Hd). }
  assert (strip_fence (fenced (c :: label) d) = (c :: label) ++ nl ++ d ++ nl) as Hstrip.
  { unfold strip_fence. rewrite (fenced_contains d).
    assert (between fence_json (fenced (c :: label) d) = None) as ->.
    { unfold between, fenced. rewrite split_none; [done|].
      change (fence ++ (c :: label) ++ nl ++ d ++ nl ++ fence)
        with (96 :: 96 :: 96 :: (c :: label) ++ 10 :: d ++ nl ++ fence).
      rewrite cut_cons.
      2:{ change fence_json with (96 :: 96 :: 96 :: str "json").
          cbn [PyStr.startswith]. rewrite !N.eqb_refl. cbn [andb].
          by apply startswith_then_nl; [by apply (bool_decide_unpack _)|]. }
      rewrite cut_cons.
      2:{ change fence_json with (96 :: 96 :: 96 :: str "json").
          cbn [app PyStr.startswith].
          replace (96 =? c) with false by (symmetry; apply N.eqb_neq; lia).
          by rewrite !andb_false_r. }
      rewrite cut_cons.
      2:{ change fence_json with (96 :: 96 :: 96 :: str "json").
          cbn [app PyStr.startswith].
          replace (96 =? c) with false by (symmetry; apply N.eqb_neq; lia).
          by rewrite !andb_false_r. }
      change fence_json with (96 :: 96 :: 96 :: str "json").
      rewrite cut_skip_plain by done.
      change (96 :: 96 :: 96 :: str "json") with fence_json.
      change (10 :: d ++ nl ++ fence) with (nl ++ d ++ nl ++ fence).
      by rewrite (body_no_fence_json d Hd). }
    assert (between fence (fenced (c :: label) d) = Some ((c :: label) ++ nl ++ d ++ nl))
      as ->; [|done].
    unfold between, fenced.
    rewrite (split_second _ _ [] ((c :: label) ++ nl ++ d ++ nl ++ fence)
               ((c :: label) ++ nl ++ d ++ nl) []).
    - cbn [mbind option_bind]. by rewrite split_none.
    - apply cut_prefix.
    - change fence with (96 :: [96; 96]) at 1. rewrite cut_skip_plain by done.
      change (96 :: [96; 96]) with fence. by rewrite (body_then_fence d Hd).
    - cbn. lia. }
  assert (strip_fence (PyStr.strip (text_or_default (Some (fenced (c :: label) d))))
          = (c :: label) ++ nl ++ d ++ nl) as Htext.
  { by rewrite text_or_default_fenced, strip_fenced. }
  split; [exact Htext|].
  unfold extract. rewrite Htext. cbn [app]. by rewrite loads_letter.
Qed.

Lemma other_label_is_not_extracted_witness :
  strip_fence (PyStr.strip (text_or_default (Some (fenced (str "JSON") Examples.summary_ok))))
  = str "JSON" ++ nl ++ Examples.summary_ok ++ nl
  /\ extract Stub.loads (Some (fenced (str "JSON") Examples.summary_ok)) = None.
Proof.
  apply (other_label_is_not_extracted Stub.float_of_literal 74 (str "SON")
           Examples.summary_ok);
    try lia; try (by vm_compute); by apply (bool_decide_unpack _).
Defined.

(** ** The company the front service falls back to *)

Lemma startswith_lookup (p s : pystr) (i : nat) (c : N) :
  PyStr.startswith p s = true -> p !! i = Some c -> s !! i = Some c.
Proof.
  revert s i. induction p as [|a p IH]; intros [|b s] i; simpl; try done.
  intros [Hab Hp]%andb_true_iff. apply N.eqb_eq in Hab as ->.
  destruct i as [|i]; simpl; [done|]. by apply IH.
Qed.

Lemma cut_single (c : N) (h t : pystr) :
  c ∉ h -> PyStr.cut [c] (h ++ c :: t) = Some (h, t).
Proof.
  intros Hh. induction h as [|x h IH].
  - simpl. by rewrite N.eqb_refl.
  - apply not_elem_of_cons in Hh as [Hx Hh]. cbn [app]. rewrite cut_cons.
    + by rewrite IH.
    + cbn [PyStr.startswith].
      by replace (c =? x) with false by (symmetry; apply N.eqb_neq; congruence).
Qed.

Lemma cut_single_none (c : N) (h : pystr) : c ∉ h -> PyStr.cut [c] h = None.
Proof.
  intros Hh. induction h as [|x h IH]; [done|].
  apply not_elem_of_cons in Hh as [Hx Hh]. rewrite cut_cons.
  - by rewrite IH.
  - cbn [PyStr.startswith].
    by replace (c =? x) with false by (symmetry; apply N.eqb_neq; congruence).
Qed.

Section Host.
Variable old : pystr.
Hypothesis old_scheme : old = scheme_https \/ old = scheme_http.

(** No scheme starts inside a host that has neither a colon nor a slash. *)
Lemma startswith_scheme_host (x : N) (h t : pystr) :
  58 ∉ x :: h -> 47 ∉ x :: h -> after_host t ->
  PyStr.startswith old ((x :: h) ++ t) = false.
Proof.
  intros Hcolon Hslash Ht.
  destruct (PyStr.startswith old ((x :: h) ++ t)) eqn:Hs; [|done]. exfalso.
  assert (exists k, old !! k = Some 58 /\ (k <= 5)%nat
            /\ forall n c, (1 <= n <= k)%nat -> old !! n = Some c -> c <> 47)
    as (k & Hk & Hk5 & Hletters).
  { destruct old_scheme as [-> | ->].
    - exists 5%nat. split; [done|]. split; [lia|].
      intros n c Hn. destruct n as [|[|[|[|[|[|n]]]]]]; try lia; by intros [= <-].
    - exists 4%nat. split; [done|]. split; [lia|].
      intros n c Hn. destruct n as [|[|[|[|[|n]]]]]; try lia; by intros [= <-]. }
  destruct (decide (k < length (x :: h))%nat) as [Hlt|Hge].
  - pose proof (startswith_lookup _ _ k 58 Hs Hk) as Hat.
    rewrite lookup_app_l in Hat by done.
    apply Hcolon. by eapply list_elem_of_lookup_2.
  - set (n := length (x :: h)) in *.
    assert (1 <= n <= k)%nat as Hn by (subst n; simpl in *; lia).
    destruct (lookup_lt_is_Some_2 old n) as [c Hc].
    { apply lookup_lt_Some in Hk. lia. }
    pose proof (startswith_lookup _ _ n c Hs Hc) as Hat.
    rewrite lookup_app_r in Hat by (subst n; lia).
    replace (n - length (x :: h))%nat with 0%nat in Hat by (subst n; lia).
    destruct Ht as [-> | (path & ->)]; [done|].
    simpl in Hat. injection Hat as <-. by apply (Hletters n 47 Hn).
Qed.

Lemma cut_skip_host (h t : pystr) :
  58 ∉ h -> 47 ∉ h -> after_host t ->
  PyStr.cut old (h ++ t)
  = match PyStr.cut old t with
    | Some (a, b) => Some (h ++ a, b)
    | None => None
    end.
Proof.
  intros Hcolon Hslash Ht. induction h as [|x h IH].
  - simpl app. by destruct (PyStr.cut old t) as [[a b]|].
  - cbn [app]. rewrite cut_cons by (by apply (startswith_scheme_host x h t)).
    apply not_elem_of_cons in Hcolon as [_ Hcolon].
    apply not_elem_of_cons in Hslash as [_ Hslash].
    rewrite IH by done. by destruct (PyStr.cut old t) as [[a b]|].
Qed.

(** Removing a scheme from a text that starts with such a host leaves the
    host at its head. *)
Lemma replace_keeps_host (n : nat) (h t : pystr) :
  58 ∉ h -> 47 ∉ h -> after_host t ->
  exists t', after_host t' /\ PyStr.replace_rounds n old [] (h ++ t) = h ++ t'.
Proof.
  intros Hcolon Hslash Ht. destruct n as [|n]; [by exists t|]. simpl.
  rewrite cut_skip_host by done.
  destruct Ht as [-> | (path & ->)].
  - exists []. split; [by left|].
    by assert (PyStr.cut old [] = None) as -> by (by destruct old_scheme as [-> | ->]).
  - assert (PyStr.startswith old (47 :: path) = false) as Hs
      by (by destruct old_scheme as [-> | ->]).
    rewrite cut_cons by done.
    destruct (PyStr.cut old path) as [[a b]|].
    + exists (47 :: a ++ PyStr.replace_rounds n old [] b).
      split; [right; by eexists|]. by rewrite <- app_assoc.
    + exists (47 :: path). split; [right; by eexists|done].
Qed.

End Host.

(** For a URL made of an optional scheme [http://] or [https://], a host
    without colon and slash, and an optional path, the default company of
    the front service is named after the host. *)
Theorem default_company_name_is_host (scheme host tail : pystr) :
  scheme = [] \/ scheme = scheme_http \/ scheme = scheme_https ->
  58 ∉ host -> 47 ∉ host -> after_host tail ->
  FrontandUnified.default_company (scheme ++ host ++ tail)
  = JObj [(str "company_name", JStr host);
          (str "company_description",
           JStr (str "Unternehmen unter " ++ scheme ++ host ++ tail));
          (str "industry", JStr []);
          (str "target_market", JStr [])].
Proof.
  intros Hscheme Hcolon Hslash Htail. unfold FrontandUnified.default_company.
  assert (exists t2, after_host t2
            /\ PyStr.replace (str "http://") []
                 (PyStr.replace (str "https://") [] (scheme ++ host ++ tail))
               = host ++ t2) as (t2 & Ht2 & ->).
  { unfold PyStr.replace at 2.
    change (str "https://") with scheme_https. change (str "http://") with scheme_http.
    destruct Hscheme as [-> | [-> | ->]].
    - cbn [app].
      destruct (replace_keeps_host scheme_https ltac:(by left) (length (host ++ tail))
                  host tail) as (t1 & Ht1 & ->); [done..|].
      unfold PyStr.replace.
      by destruct (replace_keeps_host scheme_http ltac:(by right) (length (host ++ t1))
                     host t1) as (t2 & Ht2 & ->); [done..|exists t2].
    - assert (exists t1, after_host t1
                /\ PyStr.replace_rounds (length (scheme_http ++ host ++ tail))
                     scheme_https [] (scheme_http ++ host ++ tail)
                   = scheme_http ++ host ++ t1) as (t1 & Ht1 & ->).
      { destruct (length (scheme_http ++ host ++ tail)) as [|n]; [by exists tail|].
        cbn [PyStr.replace_rounds].
        change (scheme_http ++ host ++ tail)
          with (104 :: 116 :: 116 :: 112 :: 58 :: 47 :: 47 :: host ++ tail).
        rewrite !cut_cons by done.
        rewrite (cut_skip_host scheme_https) by (done || by left).
        destruct Htail as [-> | (path & ->)].
        - exists []. split; [by left|done].
        - rewrite cut_cons by done.
          destruct (PyStr.cut scheme_https path) as [[a b]|].
          + exists (47 :: a ++ PyStr.replace_rounds n scheme_https [] b).
            split; [right; by eexists|]. cbn [app]. by rewrite <- app_assoc.
          + exists (47 :: path). split; [right; by eexists|done]. }
      unfold PyStr.replace.
      change (length (scheme_http ++ host ++ t1)) with (S (6 + length (host ++ t1))).
      cbn [PyStr.replace_rounds]. rewrite cut_prefix. cbn [app].
      by destruct (replace_keeps_host scheme_http ltac:(by right) (6 + length (host ++ t1))
                     host t1) as (t2 & Ht2 & ->); [done..|exists t2].
    - change (length (scheme_https ++ host ++ tail)) with (S (7 + length (host ++ tail))).
      cbn [PyStr.replace_rounds]. rewrite cut_prefix. cbn [app].
      destruct (replace_keeps_host scheme_https ltac:(by left) (7 + length (host ++ tail))
                  host tail) as (t1 & Ht1 & ->); [done..|].
      unfold PyStr.replace.
      by destruct (replace_keeps_host scheme_http ltac:(by right) (length (host ++ t1))
                     host t1) as (t2 & Ht2 & ->); [done..|exists t2]. }
  assert (match PyStr.split (str "/") (host ++ t2) with a :: _ => a | [] => [] end = host)
    as ->; [|done].
  unfold PyStr.split. change (str "/") with [47].
  destruct Ht2 as [-> | (path & ->)].
  - rewrite app_nil_r. by rewrite split_rounds_none by (by apply cut_single_none).
  - rewrite length_app. cbn [length]. rewrite Nat.add_succ_r.
    by rewrite (split_rounds_cut _ _ _ host path) by (by apply cut_single).
Qed.

Lemma default_company_name_is_host_witness :
  FrontandUnified.default_company (str "https://example.com/about")
  = JObj [(str "company_name", JStr (str "example.com"));
          (str "company_description", JStr (str "Unternehmen unter https://example.com/about"));
          (str "industry", JStr []);
          (str "target_market", JStr [])].
Proof.
  apply (default_company_name_is_host scheme_https (str "example.com") (str "/about")).
  - by right; right.
  - by apply (bool_decide_unpack _).
  - by apply (bool_decide_unpack _).
  - right. by eexists.
Defined.

(** ** The members of a result object *)

Lemma dict_get_absent (k : pystr) (d : pydict) : k ∉ d.*1 -> Dict.get k d = None.
Proof.
  induction d as [|[k' v'] d IH]; simpl; [done|].
  intros [Hne Hk]%not_elem_of_cons. destruct (decide (k' = k)); [congruence|auto].
Qed.

Lemma dict_update_head (k : pystr) (e acc : pydict) (v : json) :
  NoDup (acc.*1 ++ e.*1) -> k ∉ acc.*1 ->
  Dict.update ((k, v) :: acc) e
  = (k, default v (Dict.get k e)) :: acc ++ filter (fun kv => kv.1 <> k) e.
Proof.
  unfold Dict.update. revert acc v.
  induction e as [|[k' v'] e IH]; intros acc v Hnd Hk; simpl.
  - by rewrite app_nil_r.
  - apply NoDup_app in Hnd as (Hnacc & Hdisj & Hne).
    apply NoDup_cons in Hne as [He Hne].
    assert (k' ∉ acc.*1) as Hacc.
    { intros Hin. apply (Hdisj k' Hin). left. }
    assert (NoDup (acc.*1 ++ e.*1)) as Hrest.
    { apply NoDup_app. split; [done|]. split; [|done].
      intros x Hx Hx'. apply (Hdisj x Hx). by right. }
    destruct (decide (k = k')) as [<-|Hkk].
    + destruct (decide (k = k)); [|done].
      rewrite (IH acc v' Hrest Hk).
      rewrite (dict_get_absent k e He). simpl.
      by rewrite filter_cons_False by (simpl; by intros ?).
    + destruct (decide (k = k')); [done|].
      rewrite dict_set_fresh by done.
      rewrite (IH (acc ++ [(k', v')]) v).
      * destruct (decide (k' = k)); [congruence|].
        rewrite filter_cons_True by (simpl; congruence).
        by rewrite <- app_assoc.
      * rewrite fmap_app, <- app_assoc. simpl.
        apply NoDup_app. split; [done|]. split.
        -- intros x Hx [->|Hx']%elem_of_cons; [done|]. apply (Hdisj x Hx). by right.
        -- by apply NoDup_cons.
      * rewrite fmap_app. simpl.
        intros [?|?%list_elem_of_singleton]%elem_of_app; congruence.
Qed.

(** The result of a row whose reply has distinct keys: [row_key] comes
    first, with the key of the row or, when the reply has a member
    [row_key], with the value of that member; the other members of the reply
    follow in their order. *)
Theorem row_object_members (row_key : pystr) (obj : pydict) :
  NoDup obj.*1 ->
  FastapiApp.row_object row_key obj
  = (str "row_key", default (JStr row_key) (Dict.get (str "row_key") obj))
    :: filter (fun kv => kv.1 <> str "row_key") obj.
Proof.
  intros Hnd. unfold FastapiApp.row_object.
  by rewrite (dict_update_head (str "row_key") obj [] (JStr row_key))
    by (done || apply not_elem_of_nil).
Qed.

Lemma row_object_members_witness :
  FastapiApp.row_object (str "r1") [(str "summary", JStr (str "ok")); (str "n", JInt 2)]
  = [(str "row_key", JStr (str "r1")); (str "summary", JStr (str "ok")); (str "n", JInt 2)].
Proof.
  apply (row_object_members (str "r1") [(str "summary", JStr (str "ok")); (str "n", JInt 2)]).
  by apply (bool_decide_unpack _).
Defined.

(** ** What score mode returns *)

Lemma results_raw_sublist (outs : list (option pydict)) :
  FastapiApp.results_raw outs `sublist_of` omap id outs.
Proof.
  unfold FastapiApp.results_raw.
  induction outs as [|[[|kv d]|] outs IH]; cbn; try done.
  - by constructor.
  - by constructor.
Qed.

Section ScoreResults.
Context `{Runtime}.
Import KeywordKombatRequest.

Lemma gather_Forall2 {A B} (task : A -> World -> B * World) (xs : list A) (w : World) :
  Forall2 (fun x b => exists w1, b = (task x w1).1) xs (gather task xs w).1.
Proof.
  revert w. induction xs as [|x xs IH]; intros w; simpl; [constructor|].
  specialize (IH (task x w).2).
  destruct (task x w) as [b w1] eqn:Hb. simpl in IH.
  destruct (gather task xs w1) as [bs w2]. simpl in *.
  constructor; [|done]. exists w. by rewrite Hb.
Qed.

(** The engine returns no more items than it scored keywords.  Unless the
    result is the list of placeholders of test mode, the returned items are
    outcomes of the scoring tasks, each the outcome of the keyword at its
    position, and they keep the order of the keywords: no item is made up,
    repeated or moved. *)
Theorem score_results_follow_keywords (req : KeywordKombatRequest.t) (w w' : World)
    (rs : list pydict) :
  FastapiApp.process_keyword_kombat req w = (Ok rs, w') ->
  (length rs <= length (FastapiApp.scored_keywords req) <= length (keywords req))%nat
  /\ (test_mode req = true /\ rs = map FastapiApp.placeholder (FastapiApp.scored_keywords req)
      \/ exists tpl outs,
           Forall2 (fun kw out => exists w1, out = (FastapiApp.score tpl kw w1).1)
             (FastapiApp.scored_keywords req) outs
           /\ rs `sublist_of` omap id outs).
Proof.
  intros Hrun.
  apply process_keyword_kombat_returns in Hrun as (tpl & w1 & outs & Hg & Hsel).
  pose proof (gather_Forall2 (FastapiApp.score tpl) (FastapiApp.scored_keywords req) w1) as Hf.
  rewrite Hg in Hf. simpl in Hf.
  pose proof (Forall2_length _ _ _ Hf) as Hlen.
  assert (length (FastapiApp.scored_keywords req) <= length (keywords req))%nat as Hkw.
  { unfold FastapiApp.scored_keywords. destruct (test_mode req); [|done].
    rewrite length_take. lia. }
  assert (forall t cands, filter_at_least t (FastapiApp.results_raw outs) = Ok cands ->
            cands `sublist_of` omap id outs
            /\ (length cands <= length (FastapiApp.scored_keywords req))%nat) as Hsub.
  { intros t cands Hc. apply filter_at_least_spec in Hc as (Hc & _).
    split; [by etrans; [exact Hc|apply results_raw_sublist]|].
    apply sublist_length in Hc. pose proof (results_raw_length outs). lia. }
  unfold FastapiApp.select_results, mbind, result_mbind, result_bind in Hsel.
  destruct (filter_at_least 80 (FastapiApp.results_raw outs)) as [high|e] eqn:Hhigh; [|done].
  destruct high as [|o high].
  - destruct (test_mode req).
    + injection Hsel as <-. rewrite length_map. split; [lia|]. by left.
    + destruct (Hsub 50%Z rs Hsel) as [Hs Hl]. split; [lia|]. right. by exists tpl, outs.
  - injection Hsel as <-. destruct (Hsub 80%Z _ Hhigh) as [Hs Hl].
    split; [lia|]. right. by exists tpl, outs.
Qed.

(** The same for the front service, which has no placeholders. *)
Theorem front_results_follow_keywords (keywords : list pystr) (company_url : pystr)
    (search test : bool) (w w' : World) (rs : list pydict) :
  FrontandUnified._process_keyword_kombat keywords company_url search test w = (Ok rs, w') ->
  (length rs <= length (FrontandUnified.scored_keywords keywords test) <= length keywords)%nat
  /\ exists tpl outs,
       Forall2 (fun kw out => exists w1, out = (FrontandUnified.score_kw tpl kw w1).1)
         (FrontandUnified.scored_keywords keywords test) outs
       /\ rs `sublist_of` omap id outs.
Proof.
  rewrite front_process_eq.
  destruct (FrontandUnified.research company_url search w) as [[company|e] w1]; [|done].
  rewrite front_score_stage_eq.
  destruct (keyword_template company) as [tpl|e]; [|done].
  pose proof (gather_Forall2 (FrontandUnified.score_kw tpl)
                (FrontandUnified.scored_keywords keywords test) w1) as Hf.
  destruct (gather _ _ w1) as [outs w2]. simpl in Hf.
  intros [= Hkeep <-].
  rewrite (keep_high_filter outs outs) in Hkeep
    by (apply Forall2_same_length_lookup_2; [done|];
        intros i x y Hx Hy; left; congruence).
  apply filter_at_least_spec in Hkeep as (Hsub & _).
  pose proof (Forall2_length _ _ _ Hf) as Hlen.
  pose proof (sublist_length _ _ Hsub). pose proof (results_raw_length outs).
  assert (length (FrontandUnified.scored_keywords keywords test) <= length keywords)%nat.
  { unfold FrontandUnified.scored_keywords. destruct test; [|done].
    rewrite length_take. lia. }
  split; [lia|]. exists tpl, outs. split; [done|].
  by etrans; [exact Hsub|apply results_raw_sublist].
Qed.

(** Scoring changes one member of the reply at most: every member other than
    [RelevanceScore] is returned as the model gave it.  When the reply has
    no [RelevanceScore], the engine adds the score 10 and the front service
    returns the reply as it is. *)
Theorem score_keeps_other_fields (tpl kw : pystr) (text : option pystr) (obj : pydict)
    (w w' : World) :
  generate_content (PyStr.replace (str "{{ keyword }}") kw tpl) w = (Ok text, w') ->
  json_loads (strip_fence (PyStr.strip (text_or_default text))) = Some (JObj obj) ->
  exists o o',
    FastapiApp.score tpl kw w = (Some o, w')
    /\ FrontandUnified.score_kw tpl kw w = (Some o', w')
    /\ (forall k, k <> RelevanceScore ->
          Dict.get k o = Dict.get k obj /\ Dict.get k o' = Dict.get k obj)
    /\ (Dict.get RelevanceScore obj = None ->
          o = Dict.set RelevanceScore (JInt 10) obj /\ o' = obj).
Proof.
  intros Hgen Hloads.
  unfold FastapiApp.score, FrontandUnified.score_kw. unfold_io.
  rewrite Hgen. simpl. rewrite Hloads. unfold Dict.get_default.
  destruct (Dict.get RelevanceScore obj) as [v|] eqn:Hget; simpl.
  - destruct (as_number v) as [x|]; simpl.
    + destruct (clamp_score_range x) as (z & -> & _). simpl.
      eexists _, _. split; [done|]. split; [done|]. split; [|done].
      intros k Hk. by rewrite dict_get_set_ne.
    + eexists _, _. split; [done|]. split; [done|]. by split.
  - eexists _, _. split; [done|]. split; [done|]. split; [|done].
    intros k Hk. by rewrite dict_get_set_ne.
Qed.

End ScoreResults.

Lemma score_results_follow_keywords_witness :
  let req := Examples.kombat [str "shoes"; str "boots"] false in
  let rs := [[(RelevanceScore, JInt 95)]] in
  (length rs <= length (FastapiApp.scored_keywords req)
   <= length (KeywordKombatRequest.keywords req))%nat
  /\ (KeywordKombatRequest.test_mode req = true
      /\ rs = map FastapiApp.placeholder (FastapiApp.scored_keywords req)
      \/ exists tpl outs,
           Forall2 (fun kw out => exists w1, out = (FastapiApp.score tpl kw w1).1)
             (FastapiApp.scored_keywords req) outs
           /\ rs `sublist_of` omap id outs).
Proof.
  apply (score_results_follow_keywords (H := Stub.runtime)
           (Examples.kombat [str "shoes"; str "boots"] false)
           (Stub.says [Examples.unparseable; Examples.scored 95; Examples.scored 20])
           (Stub.says [])).
  by vm_compute.
Defined.

Lemma front_results_follow_keywords_witness :
  let keywords := [str "shoes"; str "boots"] in
  let rs := [[(RelevanceScore, JInt 95)]] in
  (length rs <= length (FrontandUnified.scored_keywords keywords false) <= length keywords)%nat
  /\ exists tpl outs,
       Forall2 (fun kw out => exists w1, out = (FrontandUnified.score_kw tpl kw w1).1)
         (FrontandUnified.scored_keywords keywords false) outs
       /\ rs `sublist_of` omap id outs.
Proof.
  apply (front_results_follow_keywords (H := Stub.runtime) [str "shoes"; str "boots"]
           (str "https://example.com/about") false false
           (Stub.says [Examples.unparseable; Examples.scored 95; Examples.scored 20])
           (Stub.says [])).
  by vm_compute.
Defined.

Lemma score_keeps_other_fields_witness :
  let reply := [(str "Keyword", JStr (str "shoes")); (str "Rationale", JStr (str "fits"))] in
  let w := Stub.says [Examples.reply reply] in
  exists o o',
    FastapiApp.score (str "{{ keyword }}") (str "shoes") w = (Some o, Stub.says [])
    /\ FrontandUnified.score_kw (str "{{ keyword }}") (str "shoes") w = (Some o', Stub.says [])
    /\ (forall k, k <> RelevanceScore ->
          Dict.get k o = Dict.get k reply /\ Dict.get k o' = Dict.get k reply)
    /\ (Dict.get RelevanceScore reply = None ->
          o = Dict.set RelevanceScore (JInt 10) reply /\ o' = reply).
Proof.
  apply (score_keeps_other_fields (H := Stub.runtime) (str "{{ keyword }}") (str "shoes")
           (Some (Examples.reply [(str "Keyword", JStr (str "shoes"));
                                  (str "Rationale", JStr (str "fits"))])));
    by vm_compute.
Defined.

(** ** The prompt of a keyword *)

Lemma cut_skip_without (c : N) (sep' p s : pystr) :
  c ∉ p ->
  PyStr.cut (c :: sep') (p ++ s)
  = match PyStr.cut (c :: sep') s with
    | Some (a, b) => Some (p ++ a, b)
    | None => None
    end.
Proof.
  intros Hp. induction p as [|x p IH].
  - simpl app. by destruct (PyStr.cut (c :: sep') s) as [[a b]|].
  - apply not_elem_of_cons in Hp as [Hx Hp].
    cbn [app]. rewrite cut_cons.
    + rewrite IH by done. by destruct (PyStr.cut (c :: sep') s) as [[a b]|].
    + cbn [PyStr.startswith].
      by replace (c =? x) with false by (symmetry; apply N.eqb_neq; congruence).
Qed.

Lemma cut_without (c : N) (sep' p : pystr) : c ∉ p -> PyStr.cut (c :: sep') p = None.
Proof.
  intros Hp. pose proof (cut_skip_without c sep' p [] Hp) as Hc.
  by rewrite app_nil_r in Hc.
Qed.

Lemma replace_rounds_none (n : nat) (old new s : pystr) :
  PyStr.cut old s = None -> PyStr.replace_rounds n old new s = s.
Proof. intros Hc. destruct n; simpl; by rewrite ?Hc. Qed.

Section KeywordPrompt.
Context `{Runtime}.

(** The template of a company whose name and description hold no opening
    brace has the mark [{{ keyword }}] once, in the line [Keyword: "..."];
    the prompt of a keyword is the template with the keyword in the place
    of the mark.  The keyword is inserted as it is, and the braces of the
    JSON pattern at the end of the template stay. *)
Theorem keyword_prompt_splices_keyword (d : pydict) :
  let name := py_format (Dict.get_default (str "company_name") (JStr []) d) in
  let description := py_format (Dict.get_default (str "company_description") (JStr []) d) in
  123 ∉ name -> 123 ∉ description ->
  exists post,
    keyword_template (JObj d)
    = Ok ((str "INPUT:" ++ nl ++ str "Keyword: " ++ dquote) ++ str "{{ keyword }}" ++ post)
    /\ forall kw,
         PyStr.replace (str "{{ keyword }}") kw
           ((str "INPUT:" ++ nl ++ str "Keyword: " ++ dquote) ++ str "{{ keyword }}" ++ post)
         = (str "INPUT:" ++ nl ++ str "Keyword: " ++ dquote) ++ kw ++ post.
Proof.
  intros name description Hname Hdesc.
  set (q1 := dquote ++ nl ++ nl ++ str "SYSTEM:" ++ nl
             ++ str "Du agierst als deutschsprachiger SEO-Analyst fu" ++ [776] ++ str "r **"
             ++ name ++ str "** " ++ [8211] ++ str " " ++ description
             ++ str "." ++ nl ++ nl
             ++ str "Gib ausschlie" ++ [223] ++ str "lich JSON zuru" ++ [776] ++ str "ck:" ++ nl).
  set (q2 := str "  " ++ dquote ++ str "Keyword" ++ dquote ++ str ": " ++ dquote
             ++ str "<keyword>" ++ dquote ++ str "," ++ nl
             ++ str "  " ++ dquote ++ str "RelevanceScore" ++ dquote ++ str ": <integer>," ++ nl
             ++ str "  " ++ dquote ++ str "Rationale" ++ dquote ++ str ": " ++ dquote
             ++ str "<1" ++ [8211] ++ str "2 Sa" ++ [776] ++ str "tze>" ++ dquote ++ nl
             ++ str "}").
  exists (q1 ++ 123 :: 10 :: q2). split.
  - unfold keyword_template, company_get. cbn [mbind result_mbind result_bind].
    fold name description. f_equal. subst q1 q2.
    change (str "{") with [123]. unfold nl at 17. rewrite <- !app_assoc. reflexivity.
  - intros kw.
    assert (123 ∉ q1) as Hq1.
    { subst q1. rewrite !not_elem_of_app.
      repeat split; (assumption || by apply (bool_decide_unpack _)). }
    assert (123 ∉ 10 :: q2) as Hq2 by (by apply (bool_decide_unpack _)).
    assert (PyStr.cut (str "{{ keyword }}") (q1 ++ 123 :: 10 :: q2) = None) as Hpost.
    { change (str "{{ keyword }}") with (123 :: str "{ keyword }}").
      rewrite cut_skip_without by done. rewrite cut_cons by done.
      by rewrite cut_without. }
    unfold PyStr.replace.
    destruct (length _) as [|n] eqn:Hlen.
    { rewrite !length_app in Hlen. simpl in Hlen. lia. }
    cbn [PyStr.replace_rounds].
    change (str "{{ keyword }}") with (123 :: str "{ keyword }}") at 1.
    rewrite cut_skip_without by (by apply (bool_decide_unpack _)).
    change (123 :: str "{ keyword }}") with (str "{{ keyword }}").
    rewrite cut_prefix. rewrite app_nil_r.
    by rewrite replace_rounds_none.
Qed.

End KeywordPrompt.

Lemma keyword_prompt_splices_keyword_witness :
  exists post,
    keyword_template (H := Stub.runtime) Examples.url_company
    = Ok ((str "INPUT:" ++ nl ++ str "Keyword: " ++ dquote) ++ str "{{ keyword }}" ++ post)
    /\ forall kw,
         PyStr.replace (str "{{ keyword }}") kw
           ((str "INPUT:" ++ nl ++ str "Keyword: " ++ dquote) ++ str "{{ keyword }}" ++ post)
         = (str "INPUT:" ++ nl ++ str "Keyword: " ++ dquote) ++ kw ++ post.
Proof.
  apply (keyword_prompt_splices_keyword (H := Stub.runtime)
           [(str "company_name", JStr (str "https://example.com/about"))]);
    by apply (bool_decide_unpack _).
Defined.

(** ** A failed call of the model *)

Section FailedCall.
Context `{Runtime}.

(** A call of the model that raises is fatal in the research stage and
    harmless in the scoring stage: when the research call raises, the
    request fails (the engine answers with status 500 and the exception as
    detail; the body of [_process_keyword_kombat] in the front service
    raises likewise) and no keyword is scored; when the call for a keyword
    raises, the scoring task of that keyword gives no item and the run goes
    on. *)
Theorem research_call_failure_fails_request (req : KeywordKombatRequest.t) (body : pydict)
    (e : exn) (w w1 : World) :
  select_mode body = Ok (str "keyword-kombat") ->
  validate_keyword_kombat body = Ok req ->
  generate_content (FastapiApp.research_prompt req) w = (Raise e, w1) ->
  FastapiApp.process_keyword_kombat req w = (Raise e, w1)
  /\ FastapiApp.process_unified body w
     = (Http 500 (Detail (str "Processing failed: " ++ exn_message e)), w1)
  /\ (forall keywords company_url search test w0 w2,
        generate_content (FrontandUnified.research_prompt company_url search) w0
        = (Raise e, w2) ->
        FrontandUnified._process_keyword_kombat keywords company_url search test w0
        = (Raise e, w2))
  /\ (forall tpl kw w0 w2,
        generate_content (PyStr.replace (str "{{ keyword }}") kw tpl) w0 = (Raise e, w2) ->
        FastapiApp.score tpl kw w0 = (None, w2)
        /\ FrontandUnified.score_kw tpl kw w0 = (None, w2)).
Proof.
  intros Hmode Hreq Hgen.
  assert (FastapiApp.process_keyword_kombat req w = (Raise e, w1)) as Hrun.
  { by rewrite process_keyword_kombat_eq, research_eq, Hgen. }
  split; [done|]. split; [|split].
  - rewrite process_unified_kombat by done. by rewrite Hreq, Hrun.
  - intros keywords company_url search test w0 w2 Hfront.
    by rewrite front_process_eq, front_research_eq, Hfront.
  - intros tpl kw w0 w2 Hkw.
    unfold FastapiApp.score, FrontandUnified.score_kw. unfold_io. by rewrite Hkw.
Qed.

End FailedCall.

Lemma research_call_failure_fails_request_witness :
  let req := Examples.kombat [str "shoes"] false in
  let body := Examples.kombat_body [str "shoes"] false in
  let e := Exn UpstreamFailure (str "no reply left") in
  FastapiApp.process_keyword_kombat req (Stub.says []) = (Raise e, Stub.says [])
  /\ FastapiApp.process_unified body (Stub.says [])
     = (Http 500 (Detail (str "Processing failed: " ++ exn_message e)), Stub.says [])
  /\ (forall keywords company_url search test w0 w2,
        Stub.next_reply (FrontandUnified.research_prompt company_url search) w0
        = (Raise e, w2) ->
        FrontandUnified._process_keyword_kombat keywords company_url search test w0
        = (Raise e, w2))
  /\ (forall tpl kw w0 w2,
        Stub.next_reply (PyStr.replace (str "{{ keyword }}") kw tpl) w0 = (Raise e, w2) ->
        FastapiApp.score tpl kw w0 = (None, w2)
        /\ FrontandUnified.score_kw tpl kw w0 = (None, w2)).
Proof.
  apply (research_call_failure_fails_request (H := Stub.runtime)
           (Examples.kombat [str "shoes"] false) (Examples.kombat_body [str "shoes"] false)
           (Exn UpstreamFailure (str "no reply left")) (Stub.says []) (Stub.says []));
    by vm_compute.
Defined.

(** ** The results of row mode and the replies they come from *)

Section RowResultsOrigin.
Context `{Runtime}.
Import FreestyleRequest.




End RowResultsOrigin.

